(** * cloudflare-fs: a path-addressed file store over one SQL table per shard

    A shallow embedding of [fs.js]: the class [DOFS] (one instance per
    shard, its rows kept in the table [files]) and the module-level
    functions that route a path to its instance.  Strings are Rocq
    strings, the table is the list of its rows in rowid order, and every
    method is a computation over the table that either returns, throws
    (keeping what it had written so far), or is cut off by its fuel. *)

From Stdlib Require Import ZArith String Ascii List Lia Bool.
From Stdlib Require Import Sorted Permutation.
From Stdlib.Strings Require Import Byte.
From stdpp Require Import base option gmap strings.
Import ListNotations.

Local Open Scope string_scope.
Local Open Scope Z_scope.

(** ** Outcomes and the state-and-exception monad *)

Inductive Outcome (A : Type) : Type :=
| Returned (a : A)
| Thrown (message : string)
| Unfinished.
Arguments Returned {A} a.
Arguments Thrown {A} message.
Arguments Unfinished {A}.

Definition Eff (S A : Type) : Type := S -> Outcome A * S.

Definition ret {S A : Type} (a : A) : Eff S A := fun s => (Returned a, s).
Definition throw {S A : Type} (message : string) : Eff S A :=
  fun s => (Thrown message, s).
Definition unfinished {S A : Type} : Eff S A := fun s => (Unfinished, s).

Definition bind {S A B : Type} (m : Eff S A) (k : A -> Eff S B) : Eff S B :=
  fun s =>
    match m s with
    | (Returned a, s') => k a s'
    | (Thrown e, s') => (Thrown e, s')
    | (Unfinished, s') => (Unfinished, s')
    end.

Declare Scope eff_scope.
Delimit Scope eff_scope with eff.
Notation "'let*' x ':=' m 'in' k" := (bind m (fun x => k))
  (at level 10, x binder, m at level 200, k at level 200) : eff_scope.
Local Open Scope eff_scope.

(** [try { m } catch { handler }]. *)
Definition try_catch {S A : Type} (m : Eff S A) (handler : string -> Eff S A)
  : Eff S A :=
  fun s =>
    match m s with
    | (Thrown e, s') => handler e s'
    | r => r
    end.

(** [for (const x of xs) { await body(x) }]. *)
Fixpoint for_each {S A : Type} (xs : list A) (body : A -> Eff S unit)
  : Eff S unit :=
  match xs with
  | [] => ret tt
  | x :: rest => let* _ := body x in for_each rest body
  end.

(** ** JavaScript string operations used by the source *)

Definition is_slash (c : ascii) : bool := Ascii.eqb c "/"%char.

Fixpoint all_slashes (s : string) : bool :=
  match s with
  | EmptyString => true
  | String c rest => is_slash c && all_slashes rest
  end.

(** [s.replace(/\/+$/, "")]: the run of slashes that ends the string goes. *)
Fixpoint strip_trailing_slashes (s : string) : string :=
  match s with
  | EmptyString => EmptyString
  | String c rest =>
      if all_slashes s then EmptyString
      else String c (strip_trailing_slashes rest)
  end.

(** [s.replace(/\/+/g, "/")]: a slash followed by a slash is dropped. *)
Fixpoint collapse_slashes (s : string) : string :=
  match s with
  | EmptyString => EmptyString
  | String c rest =>
      if is_slash c then
        match rest with
        | String d _ =>
            if is_slash d then collapse_slashes rest
            else String c (collapse_slashes rest)
        | EmptyString => String c EmptyString
        end
      else String c (collapse_slashes rest)
  end.

(** [s.lastIndexOf(c)], -1 when [c] does not occur. *)
Fixpoint lastIndexOf (c : ascii) (s : string) : Z :=
  match s with
  | EmptyString => -1
  | String d rest =>
      let r := lastIndexOf c rest in
      if 0 <=? r then r + 1
      else if Ascii.eqb d c then 0 else -1
  end.

(** [s.includes(c)]. *)
Fixpoint includes (c : ascii) (s : string) : bool :=
  match s with
  | EmptyString => false
  | String d rest => Ascii.eqb d c || includes c rest
  end.

Fixpoint take (n : nat) (s : string) : string :=
  match n, s with
  | S n', String c rest => String c (take n' rest)
  | _, _ => EmptyString
  end.

Fixpoint drop (n : nat) (s : string) : string :=
  match n, s with
  | S n', String _ rest => drop n' rest
  | _, _ => s
  end.

Definition clamp_index (i : Z) (s : string) : nat :=
  Nat.min (Z.to_nat i) (String.length s).

(** [s.substring(start, stop)]: both ends clamped to the string, swapped
    when out of order. *)
Definition substring (s : string) (start stop : Z) : string :=
  let a := clamp_index start s in
  let b := clamp_index stop s in
  take (Nat.max a b - Nat.min a b) (drop (Nat.min a b) s).

(** [s.substring(start)]. *)
Definition substring_from (s : string) (start : Z) : string :=
  drop (clamp_index start s) s.

Fixpoint starts_with (p s : string) : bool :=
  match p, s with
  | EmptyString, _ => true
  | String a p', String b s' => Ascii.eqb a b && starts_with p' s'
  | String _ _, EmptyString => false
  end.

(** The replacement text of [String.prototype.replace] with a string
    pattern (GetSubstitution without captures): [$$] is a dollar, [$&] the
    match, [$`] what precedes it, [$'] what follows it; any other dollar
    stands for itself. *)
Fixpoint get_substitution (matched before after template : string) : string :=
  match template with
  | EmptyString => EmptyString
  | String c rest =>
      if Ascii.eqb c "$"%char then
        match rest with
        | String d rest' =>
            if Ascii.eqb d "$"%char then
              String "$"%char (get_substitution matched before after rest')
            else if Ascii.eqb d "&"%char then
              matched +:+ get_substitution matched before after rest'
            else if Ascii.eqb d "`"%char then
              before +:+ get_substitution matched before after rest'
            else if Ascii.eqb d "'"%char then
              after +:+ get_substitution matched before after rest'
            else String c (get_substitution matched before after rest)
        | EmptyString => String c EmptyString
        end
      else String c (get_substitution matched before after rest)
  end.

(** [s.replace(pattern, replacement)] with a string pattern: the first
    occurrence only.  [seen] is the part of the string already passed,
    in reverse. *)
Fixpoint replace_from (seen : string) (pattern replacement s : string)
  : string :=
  if starts_with pattern s then
    get_substitution pattern (String.rev seen)
      (drop (String.length pattern) s) replacement
    +:+ drop (String.length pattern) s
  else
    match s with
    | EmptyString => EmptyString
    | String c rest =>
        String c (replace_from (String c seen) pattern replacement rest)
    end.

Definition replace (s pattern replacement : string) : string :=
  replace_from EmptyString pattern replacement s.

(** ** SQL text matching *)

(** The store reads text as UTF-8, one character at a time, up to the
    end of the text or a zero byte.  A byte below 0xC0 is a character by
    itself; a byte from 0xC0 on starts a character that takes in every
    continuation byte (0x80 to 0xBF) that follows. *)

(** [(b & 0xC0) == 0x80]. *)
Definition is_continuation (b : N) : bool := (N.land b 192 =? 128)%N.

(** The payload bits of a leading byte, from 0xC0 on. *)
Definition utf8_lead (b : N) : N :=
  (if b <? 224 then N.land b 31
   else if b <? 240 then N.land b 15
   else if b <? 248 then N.land b 7
   else if b <? 252 then N.land b 3
   else if b <? 254 then N.land b 1
   else 0)%N.

(** [c = (c << 6) + (0x3F & b)], on 32 bits. *)
Definition utf8_more (c b : N) : N := ((c * 64 + N.land b 63) mod 2 ^ 32)%N.

(** A character that is too small for its length, a surrogate, or 0xFFFE
    or 0xFFFF, reads as 0xFFFD. *)
Definition utf8_close (c : N) : N :=
  (if (c <? 128) || (N.land c 4294965248 =? 55296)
      || (N.land c 4294967294 =? 65534)
   then 65533 else c)%N.

(** The characters of a text; [pending] is the character being read. *)
Fixpoint utf8_chars_from (pending : option N) (s : string) : list N :=
  match s with
  | EmptyString =>
      match pending with
      | Some c => [utf8_close c]
      | None => []
      end
  | String byte rest =>
      let b := N_of_ascii byte in
      let start :=
        (if b =? 0 then []
         else if b <? 192 then b :: utf8_chars_from None rest
         else utf8_chars_from (Some (utf8_lead b)) rest)%N in
      match pending with
      | Some c =>
          if is_continuation b
          then utf8_chars_from (Some (utf8_more c b)) rest
          else utf8_close c :: start
      | None => start
      end
  end.

Definition utf8_chars (s : string) : list N := utf8_chars_from None s.

(** ASCII case folding, as the LIKE operator applies it. *)
Definition fold_case (c : N) : N :=
  (if (65 <=? c) && (c <=? 90) then c + 32 else c)%N.

Definition like_char (p c : N) : bool := (fold_case p =? fold_case c)%N.

(** The match of LIKE on characters, without an escape character: [%]
    (37) matches any run of characters, [_] (95) any one character,
    letters of ASCII match regardless of case. *)
Fixpoint like_chars (pattern : list N) : list N -> bool :=
  match pattern with
  | [] => fun subject => match subject with [] => true | _ => false end
  | p :: pattern' =>
      if (p =? 37)%N then
        fix any_tail (subject : list N) : bool :=
          like_chars pattern' subject
          || match subject with
             | [] => false
             | _ :: rest => any_tail rest
             end
      else if (p =? 95)%N then
        fun subject =>
          match subject with
          | [] => false
          | _ :: rest => like_chars pattern' rest
          end
      else
        fun subject =>
          match subject with
          | [] => false
          | c :: rest => like_char p c && like_chars pattern' rest
          end
  end.

(** [subject LIKE pattern]. *)
Definition like (pattern subject : string) : bool :=
  like_chars (utf8_chars pattern) (utf8_chars subject).

(** The error of LIKE for a pattern longer than the store allows. *)
Definition like_too_complex : string := "LIKE or GLOB pattern too complex".

(** ** The table [files] *)

Inductive EntryType : Type := file | directory.

Definition EntryType_eqb (a b : EntryType) : bool :=
  match a, b with
  | file, file | directory, directory => true
  | _, _ => false
  end.

(** One row of [files] (the typedef [File]); [None] is SQL NULL. *)
Module File.
Record t : Type := make {
  path : string;
  parent_path : option string;
  name : string;
  type : EntryType;
  content : option (list byte);
  size : Z;
  mode : Z;
  uid : Z;
  gid : Z;
  mtime : Z;
  ctime : Z;
  atime : Z
}.

(** [SET atime = ?]. *)
Definition set_atime (now : Z) (r : t) : t :=
  make (path r) (parent_path r) (name r) (type r) (content r) (size r)
    (mode r) (uid r) (gid r) (mtime r) (ctime r) now.

(** [SET content = ?, size = ?, mode = ?, mtime = ?, atime = ?]. *)
Definition set_written (buffer : list byte) (size' mode' now : Z) (r : t)
  : t :=
  make (path r) (parent_path r) (name r) (type r) (Some buffer) size'
    mode' (uid r) (gid r) now (ctime r) now.

(** [SET path = ?, parent_path = ?, name = ?, mtime = ?]. *)
Definition set_renamed (path' : string) (parent' : option string)
    (name' : string) (now : Z) (r : t) : t :=
  make path' parent' name' (type r) (content r) (size r) (mode r) (uid r)
    (gid r) now (ctime r) (atime r).

(** [SET path = ?, parent_path = ?]. *)
Definition set_moved (path' : string) (parent' : option string) (r : t)
  : t :=
  make path' parent' (name r) (type r) (content r) (size r) (mode r)
    (uid r) (gid r) (mtime r) (ctime r) (atime r).
End File.

(** The rows in rowid order: an INSERT appends, an UPDATE rewrites rows in
    place, and a SELECT without ORDER BY scans from the front. *)
Definition Table : Type := list File.t.

(** Whether a statement with [path LIKE pattern] fails on the table: the
    operator checks the length of the pattern, in bytes, against the
    limit of the store when it is applied to a row, so that nothing fails
    on a table without rows. *)
Definition like_fails (limit : nat) (pattern : string) (t : Table) : bool :=
  (limit <? String.length pattern)%nat
  && match t with [] => false | _ :: _ => true end.

Definition unique_failed : string := "UNIQUE constraint failed: files.path".

Definition has_path (p : string) (row : File.t) : bool :=
  String.eqb (File.path row) p.

Definition has_parent (p : string) (row : File.t) : bool :=
  match File.parent_path row with
  | Some q => String.eqb q p
  | None => false
  end.

(** The first row with the given path. *)
Definition row_at (p : string) (t : Table) : option File.t :=
  List.find (has_path p) t.

(** [SELECT * FROM files WHERE path = ?] followed by [.toArray()[0]]. *)
Definition select_path (p : string) : Eff Table (option File.t) :=
  fun t => (Returned (row_at p t), t).

(** [SELECT * FROM files WHERE parent_path = ?]. *)
Definition select_parent (p : string) : Eff Table (list File.t) :=
  fun t => (Returned (List.filter (has_parent p) t), t).

(** [SELECT COUNT( * ) as count FROM files WHERE parent_path = ?]. *)
Definition count_parent (p : string) : Eff Table Z :=
  fun t =>
    (Returned (Z.of_nat (List.length (List.filter (has_parent p) t))), t).

(** [SELECT * FROM files WHERE path LIKE ?]; [limit] is the longest
    pattern the store accepts. *)
Definition select_like (limit : nat) (pattern : string)
  : Eff Table (list File.t) :=
  fun t =>
    if like_fails limit pattern t
    then (Thrown like_too_complex, t)
    else
      (Returned (List.filter (fun row => like pattern (File.path row)) t), t).

(** [INSERT INTO files ... VALUES ...]: [path] is the primary key. *)
Definition insert (row : File.t) : Eff Table unit :=
  fun t =>
    if List.existsb (has_path (File.path row)) t then (Thrown unique_failed, t)
    else (Returned tt, (t ++ [row])%list).

(** [INSERT OR REPLACE INTO files ...]: the row that holds the key goes,
    the new row is appended. *)
Definition insert_or_replace (row : File.t) : Eff Table unit :=
  fun t =>
    (Returned tt,
     (List.filter (fun r => negb (has_path (File.path row) r)) t
      ++ [row])%list).

(** [UPDATE files SET <columns other than path> WHERE path = ?]. *)
Definition update_where_path (p : string) (set : File.t -> File.t)
  : Eff Table unit :=
  fun t =>
    (Returned tt, List.map (fun r => if has_path p r then set r else r) t).

(** [UPDATE files SET path = ?, ... WHERE path = ?]: moving a row onto the
    key of another row violates the primary key, and the statement is
    undone. *)
Definition update_path_where_path (p : string) (set : File.t -> File.t)
  : Eff Table unit :=
  fun t =>
    match row_at p t with
    | None => (Returned tt, t)
    | Some row =>
        if negb (String.eqb (File.path (set row)) p)
           && List.existsb (has_path (File.path (set row))) t
        then (Thrown unique_failed, t)
        else (Returned tt,
              List.map (fun r => if has_path p r then set r else r) t)
    end.

(** [DELETE FROM files WHERE path = ?]. *)
Definition delete_where_path (p : string) : Eff Table unit :=
  fun t => (Returned tt, List.filter (fun r => negb (has_path p r)) t).

(** [DELETE FROM files WHERE path LIKE ?]: a statement that fails
    deletes nothing. *)
Definition delete_like (limit : nat) (pattern : string) : Eff Table unit :=
  fun t =>
    if like_fails limit pattern t
    then (Thrown like_too_complex, t)
    else
      (Returned tt,
       List.filter (fun r => negb (like pattern (File.path r))) t).

(** [ORDER BY name]: a stable insertion sort on the byte order of names. *)
Fixpoint insert_by_name (row : File.t) (sorted : list File.t) : list File.t :=
  match sorted with
  | [] => [row]
  | r :: rest =>
      if String.leb (File.name row) (File.name r) then row :: sorted
      else r :: insert_by_name row rest
  end.

Definition order_by_name (rows : list File.t) : list File.t :=
  List.fold_right insert_by_name [] rows.

(** ** Arguments and results of the API *)

Record MkdirOptions : Type := { mkdir_recursive : bool; mkdir_mode : option Z }.
Record CopyOptions : Type := { copy_recursive : bool }.
Record RmOptions : Type := { rm_force : bool; rm_recursive : bool }.
Record ReaddirOptions : Type := { withFileTypes : bool }.

(** The [options] of [readFile]: absent, an encoding name, or an object. *)
Inductive ReadFileOptions : Type :=
| ReadDefault
| ReadEncoding (encoding : string)
| ReadObject (encoding : option string).

(** The options object of [writeFileBuffer]. *)
Record WriteObject : Type := {
  write_encoding : option string;
  write_mode : option Z
}.

(** The [options] of [writeFile]: absent, an encoding name, or an object. *)
Inductive WriteFileOptions : Type :=
| WriteDefault
| WriteEncoding (encoding : string)
| WriteOptions (options : WriteObject).

(** Binary data: an [ArrayBuffer], or a [Uint8Array] view of one. *)
Inductive Binary : Type :=
| ArrayBuffer (bytes : list byte)
| Uint8Array (buffer : list byte) (byteOffset byteLength : nat).

(** What a caller may hand to [writeFile]. *)
Inductive Data : Type :=
| DataString (text : string)
| DataBinary (binary : Binary)
| DataOther.

(** What [readFile] returns. *)
Inductive Contents : Type :=
| Buffer (bytes : list byte)
| Text (text : string).

Module Stats.
Record t : Type := make {
  isFile : bool;
  isDirectory : bool;
  isSymbolicLink : bool;
  size : Z;
  mode : Z;
  uid : Z;
  gid : Z;
  mtime : Z;
  ctime : Z;
  atime : Z
}.
End Stats.

Module Dirent.
Record t : Type := make {
  name : string;
  isFile : bool;
  isDirectory : bool;
  isSymbolicLink : bool
}.
End Dirent.

Inductive Listing : Type :=
| Names (names : list string)
| Dirents (entries : list Dirent.t).

(** What [new TextDecoder(encoding).decode(buffer)] gives: the text, or
    the error thrown for an encoding the runtime does not know. *)
Inductive Decoded : Type :=
| DecodedText (text : string)
| DecodeError (message : string).

(** What the runtime provides: the text codecs, the wall clock
    ([Date_now n] is the n-th reading, in milliseconds), and the identity
    of the stubs of the binding [DOFS]: [same_stub a b] tells whether
    [DOFS.get(DOFS.idFromName(a)) === DOFS.get(DOFS.idFromName(b))], and
    the longest pattern, in bytes, that the store of an instance accepts
    for LIKE. *)
Class Host : Type := {
  TextEncoder_encode : string -> list byte;
  TextDecoder_decode : string -> list byte -> Decoded;
  Date_now : nat -> Z;
  same_stub : string -> string -> bool;
  like_pattern_limit : nat
}.

(** [buffer.slice(start, stop)]. *)
Definition slice (buffer : list byte) (start stop : nat) : list byte :=
  List.firstn (stop - start) (List.skipn start buffer).

(** [x || fallback] on an optional number: absent and 0 are falsy. *)
Definition number_or (x : option Z) (fallback : Z) : Z :=
  match x with
  | Some n => if n =? 0 then fallback else n
  | None => fallback
  end.

(** [x || fallback] on an optional string: absent and empty are falsy. *)
Definition string_or (x : option string) (fallback : string) : string :=
  match x with
  | Some s => if String.eqb s "" then fallback else s
  | None => fallback
  end.

(** The guard [p && p !== "/"]: the path to look up, when it holds. *)
Definition below_root (p : option string) : option string :=
  match p with
  | Some q => if String.eqb q "" || String.eqb q "/" then None else Some q
  | None => None
  end.

(** [Math.floor(Date.now() / 1000)]. *)
Definition seconds (now_ms : Z) : Z := now_ms / 1000.

(** ** The class [DOFS] *)

(** The methods, over the table of the instance.  A method that reads
    the clock takes the reading, [now_ms], as its first argument. *)
Module DOFS.

(** [initTables]: a new instance starts with the table empty. *)
Definition initTables : Table := [].

(** [mode INTEGER NOT NULL DEFAULT 33188]: the default of the column,
    0o100644.  Every INSERT of the source gives the mode. *)
Definition default_mode : Z := 33188.

Definition normalizePath (path : string) : string :=
  if String.eqb path "/" then "/"
  else collapse_slashes (strip_trailing_slashes path).

Definition getParentPath (path : string) : option string :=
  let normalized := normalizePath path in
  if String.eqb normalized "/" then None
  else
    let lastSlash := lastIndexOf "/" normalized in
    Some (if lastSlash <=? 0 then "/" else substring normalized 0 lastSlash).

Definition getFileName (path : string) : string :=
  let normalized := normalizePath path in
  if String.eqb normalized "/" then ""
  else
    let lastSlash := lastIndexOf "/" normalized in
    substring_from normalized (lastSlash + 1).

(** The check shared by [copyFile], [rename] and [writeFileBuffer]:
    [if (p && p !== "/") { parent = SELECT ...; if (!parent ||
    parent.type !== "directory") throw new Error(message) }]. *)
Definition require_directory (p : option string) (message : string)
  : Eff Table unit :=
  match below_root p with
  | Some q =>
      let* parent := select_path q in
      match parent with
      | Some row =>
          if EntryType_eqb (File.type row) directory then ret tt
          else throw message
      | None => throw message
      end
  | None => ret tt
  end.

(** [copyFile(src, dest, mode)]; the mode is not used. *)
Definition copyFile (now_ms : Z) (src dest : string) (mode : Z)
  : Eff Table unit :=
  let* srcFile := select_path src in
  match srcFile with
  | None => throw "Source file not found"
  | Some srcFile =>
      if negb (EntryType_eqb (File.type srcFile) file)
      then throw "Source file not found"
      else
        let destParent := getParentPath dest in
        let* _ := require_directory destParent
                    "Destination directory does not exist" in
        let now := seconds now_ms in
        insert_or_replace
          {| File.path := dest; File.parent_path := destParent;
             File.name := getFileName dest; File.type := file;
             File.content := File.content srcFile;
             File.size := File.size srcFile;
             File.mode := File.mode srcFile; File.uid := File.uid srcFile;
             File.gid := File.gid srcFile; File.mtime := now;
             File.ctime := now; File.atime := now |}
  end.

Fixpoint mkdir_within (fuel : nat) (now_ms : Z) (path : string)
    (options : MkdirOptions) : Eff Table (option string) :=
  match fuel with
  | O => unfinished
  | S fuel' =>
      let normalizedPath := normalizePath path in
      let* existing := select_path normalizedPath in
      match existing with
      | Some existing =>
          if EntryType_eqb (File.type existing) directory then ret None
          else throw "File exists and is not a directory"
      | None =>
          let parentPath := getParentPath normalizedPath in
          let* firstCreated :=
            match below_root parentPath with
            | Some q =>
                let* parent := select_path q in
                match parent with
                | None =>
                    if mkdir_recursive options
                    then mkdir_within fuel' now_ms q options
                    else throw "Parent directory does not exist"
                | Some parent =>
                    if negb (EntryType_eqb (File.type parent) directory)
                    then throw "Parent is not a directory"
                    else ret None
                end
            | None => ret None
            end in
          let now := seconds now_ms in
          let mode := number_or (mkdir_mode options) 511 in
          let* _ := insert
            {| File.path := normalizedPath; File.parent_path := parentPath;
               File.name := getFileName normalizedPath;
               File.type := directory; File.content := None;
               File.size := 0; File.mode := mode; File.uid := 0;
               File.gid := 0; File.mtime := now; File.ctime := now;
               File.atime := now |} in
          ret (Some (string_or firstCreated normalizedPath))
      end
  end.

(** Each nested call is on a strictly shorter path, so the length of
    the path bounds the depth. *)
Definition mkdir (now_ms : Z) (path : string) (options : MkdirOptions)
  : Eff Table (option string) :=
  mkdir_within (S (String.length path)) now_ms path options.

(** [cp] need not end: copying a directory into itself keeps finding the
    directory it has just made.  [fuel] bounds the depth of the calls. *)
Fixpoint cp (fuel : nat) (now_ms : Z) (src dest : string)
    (options : CopyOptions) : Eff Table unit :=
  match fuel with
  | O => unfinished
  | S fuel' =>
      let* srcFile := select_path src in
      match srcFile with
      | None => throw "Source does not exist"
      | Some srcFile =>
          match File.type srcFile with
          | file => copyFile now_ms src dest 0
          | directory =>
              if negb (copy_recursive options)
              then throw "Cannot copy directory without recursive option"
              else
                let* _ := mkdir now_ms dest
                  {| mkdir_recursive := true; mkdir_mode := None |} in
                let* children := select_parent src in
                for_each children (fun child =>
                  let childSrc := File.path child in
                  let childDest := dest +:+ "/" +:+ File.name child in
                  cp fuel' now_ms childSrc childDest options)
          end
      end
  end.

Definition readdir (path : string) (options : ReaddirOptions)
  : Eff Table Listing :=
  let normalizedPath := normalizePath path in
  let* dir := select_path normalizedPath in
  match dir with
  | None => throw "Directory does not exist"
  | Some dir =>
      if negb (EntryType_eqb (File.type dir) directory)
      then throw "Not a directory"
      else
        let* rows := select_parent normalizedPath in
        let entries := order_by_name rows in
        if withFileTypes options then
          ret (Dirents (List.map (fun entry =>
            {| Dirent.name := File.name entry;
               Dirent.isFile := EntryType_eqb (File.type entry) file;
               Dirent.isDirectory :=
                 EntryType_eqb (File.type entry) directory;
               Dirent.isSymbolicLink := false |}) entries))
        else ret (Names (List.map File.name entries))
  end.

Definition readFileBuffer (now_ms : Z) (path : string)
  : Eff Table (list byte) :=
  let* row := select_path path in
  match row with
  | None => throw "File does not exist"
  | Some row =>
      if negb (EntryType_eqb (File.type row) file) then throw "Not a file"
      else
        let now := seconds now_ms in
        let* _ := update_where_path path (File.set_atime now) in
        ret (match File.content row with
             | Some bytes => bytes
             | None => []
             end)
  end.

Definition readFile `{Host} (now_ms : Z) (path : string)
    (options : ReadFileOptions) : Eff Table Contents :=
  let* buffer := readFileBuffer now_ms path in
  let encoding :=
    match options with
    | ReadEncoding e => Some e
    | ReadObject e => e
    | ReadDefault => None
    end in
  match encoding with
  | Some e =>
      if String.eqb e "" then ret (Buffer buffer)
      else
        match TextDecoder_decode e buffer with
        | DecodedText text => ret (Text text)
        | DecodeError message => throw message
        end
  | None => ret (Buffer buffer)
  end.

Definition rename `{Host} (now_ms : Z) (oldPath newPath : string)
  : Eff Table unit :=
  let normalizedOld := normalizePath oldPath in
  let normalizedNew := normalizePath newPath in
  let* row := select_path normalizedOld in
  match row with
  | None => throw "Source does not exist"
  | Some row =>
      let newParent := getParentPath normalizedNew in
      let* _ := require_directory newParent
                  "Destination directory does not exist" in
      let now := seconds now_ms in
      let* _ := update_path_where_path normalizedOld
        (File.set_renamed normalizedNew newParent
           (getFileName normalizedNew) now) in
      match File.type row with
      | directory =>
          let* children :=
            select_like like_pattern_limit (normalizedOld +:+ "/%") in
          for_each children (fun child =>
            let newChildPath :=
              replace (File.path child) normalizedOld normalizedNew in
            let newChildParent := getParentPath newChildPath in
            update_path_where_path (File.path child)
              (File.set_moved newChildPath newChildParent))
      | file => ret tt
      end
  end.

Definition rm `{Host} (path : string) (options : RmOptions)
  : Eff Table unit :=
  let normalizedPath := normalizePath path in
  let* row := select_path normalizedPath in
  match row with
  | None =>
      if rm_force options then ret tt else throw "File does not exist"
  | Some row =>
      let* _ :=
        match File.type row with
        | directory =>
            if negb (rm_recursive options) then
              let* count := count_parent normalizedPath in
              if 0 <? count then throw "Directory not empty" else ret tt
            else delete_like like_pattern_limit (normalizedPath +:+ "/%")
        | file => ret tt
        end in
      delete_where_path normalizedPath
  end.

(** [stat(path, options)]; the options are not used.  A [Date] is kept
    as its milliseconds. *)
Definition stat (path : string) : Eff Table Stats.t :=
  let* row := select_path path in
  match row with
  | None => throw "File does not exist"
  | Some row =>
      ret {| Stats.isFile := EntryType_eqb (File.type row) file;
             Stats.isDirectory := EntryType_eqb (File.type row) directory;
             Stats.isSymbolicLink := false;
             Stats.size := File.size row;
             Stats.mode := File.mode row;
             Stats.uid := File.uid row;
             Stats.gid := File.gid row;
             Stats.mtime := File.mtime row * 1000;
             Stats.ctime := File.ctime row * 1000;
             Stats.atime := File.atime row * 1000 |}
  end.

Definition writeFileBuffer (now_ms : Z) (path : string) (data : Binary)
    (options : WriteObject) : Eff Table unit :=
  let normalizedPath := normalizePath path in
  let parentPath := getParentPath normalizedPath in
  let* _ := require_directory parentPath
              "Parent directory does not exist" in
  let buffer :=
    match data with
    | ArrayBuffer bytes => bytes
    | Uint8Array buffer byteOffset byteLength =>
        slice buffer byteOffset (byteOffset + byteLength)
    end in
  let size := Z.of_nat (List.length buffer) in
  let mode := number_or (write_mode options) 438 in
  let now := seconds now_ms in
  let* existing := select_path normalizedPath in
  match existing with
  | Some _ =>
      update_where_path normalizedPath (File.set_written buffer size mode now)
  | None =>
      insert
        {| File.path := normalizedPath; File.parent_path := parentPath;
           File.name := getFileName normalizedPath; File.type := file;
           File.content := Some buffer; File.size := size;
           File.mode := mode; File.uid := 0; File.gid := 0;
           File.mtime := now; File.ctime := now; File.atime := now |}
  end.

Definition writeFile `{Host} (now_ms : Z) (path : string) (data : Data)
    (options : WriteFileOptions) : Eff Table unit :=
  let writeOptions :=
    match options with
    | WriteEncoding e =>
        {| write_encoding := Some e; write_mode := None |}
    | WriteOptions o => o
    | WriteDefault => {| write_encoding := None; write_mode := None |}
    end in
  match data with
  | DataString text =>
      writeFileBuffer now_ms path (ArrayBuffer (TextEncoder_encode text))
        writeOptions
  | DataBinary (ArrayBuffer bytes) =>
      writeFileBuffer now_ms path (ArrayBuffer bytes) writeOptions
  | DataBinary (Uint8Array buffer byteOffset byteLength) =>
      writeFileBuffer now_ms path
        (ArrayBuffer (slice buffer byteOffset (byteOffset + byteLength)))
        writeOptions
  | DataOther => throw "Unsupported data type"
  end.

End DOFS.

(** ** The module-level functions: one instance per shard *)

(** The instances, by name, and how often the clock has been read.  An
    instance that was never used has an empty table. *)
Record World : Type := {
  instances : gmap string Table;
  clock_reads : nat
}.

Definition table_of (w : World) (instance : string) : Table :=
  default DOFS.initTables (instances w !! instance).

Fixpoint strip_prefix (p s : string) : option string :=
  match p, s with
  | EmptyString, _ => Some s
  | String a p', String b s' =>
      if Ascii.eqb a b then strip_prefix p' s' else None
  | String _ _, EmptyString => None
  end.

(** The longest run of characters other than slashes: the group [[^\/]+]
    of the pattern, when it is not empty. *)
Fixpoint segment (s : string) : string :=
  match s with
  | EmptyString => EmptyString
  | String c rest => if is_slash c then EmptyString else String c (segment rest)
  end.

(** [path.match(/^\/Users\/([^\/]+)/)], then the group or "default". *)
Definition getInstanceName (path : string) : string :=
  match strip_prefix "/Users/" path with
  | Some rest =>
      let user := segment rest in
      if String.eqb user "" then "default" else user
  | None => "default"
  end.

(** A stub ([DOFS.get(DOFS.idFromName(name))]) is known by the name it
    was resolved from: a call on it reaches the store of that name.
    Whether two stubs are the same object is the host's [same_stub].
    [globalEnv] is bound when the module is loaded, so the guard of
    [getInstance] does not throw. *)
Definition Stub : Type := string.
Definition getInstance (path : string) : Stub := getInstanceName path.

Definition store (instance : Stub) (t : Table) (w : World) : World :=
  {| instances := <[instance := t]> (instances w);
     clock_reads := clock_reads w |}.

(** A call of a method that does not read the clock. *)
Definition call {A : Type} (instance : Stub) (method : Eff Table A)
  : Eff World A :=
  fun w =>
    let (r, t) := method (table_of w instance) in (r, store instance t w).

(** One more reading of the clock. *)
Definition tick (w : World) : World :=
  {| instances := instances w; clock_reads := S (clock_reads w) |}.

(** A call of a method that reads the clock: the time does not advance
    within one call into an instance. *)
Definition call_at_now `{Host} {A : Type} (instance : Stub)
    (method : Z -> Eff Table A) : Eff World A :=
  fun w =>
    let (r, t) := method (Date_now (clock_reads w)) (table_of w instance) in
    (r, store instance t (tick w)).

Section Facade.
Context `{Host}.

Definition mkdir (path : string) (options : MkdirOptions)
  : Eff World (option string) :=
  let instance := getInstance path in
  call_at_now instance (fun now => DOFS.mkdir now path options).

Definition readdir (path : string) (options : ReaddirOptions)
  : Eff World Listing :=
  let instance := getInstance path in
  call instance (DOFS.readdir path options).

Definition readFile (path : string) (options : ReadFileOptions)
  : Eff World Contents :=
  let instance := getInstance path in
  call_at_now instance (fun now => DOFS.readFile now path options).

Definition rm (path : string) (options : RmOptions) : Eff World unit :=
  let instance := getInstance path in
  call instance (DOFS.rm path options).

Definition stat (path : string) : Eff World Stats.t :=
  let instance := getInstance path in
  call instance (DOFS.stat path).

Definition writeFile (file : string) (data : Data)
    (options : WriteFileOptions) : Eff World unit :=
  let instance := getInstance file in
  call_at_now instance (fun now => DOFS.writeFile now file data options).

Definition ensureParentExists (path : string) : Eff World unit :=
  let normalized := collapse_slashes (strip_trailing_slashes path) in
  if String.eqb normalized "/" || negb (includes "/" normalized) then ret tt
  else
    let lastSlash := lastIndexOf "/" normalized in
    let parentPath :=
      if lastSlash <=? 0 then "/" else substring normalized 0 lastSlash in
    if String.eqb parentPath "/" then ret tt
    else
      try_catch
        (let* _ := stat parentPath in ret tt)
        (fun _ =>
           let* _ := mkdir parentPath
             {| mkdir_recursive := true; mkdir_mode := None |} in
           ret tt).

(** The branch of [copyFile] taken when the two stubs differ. *)
Definition copyFile_across (srcInstance destInstance : Stub)
    (src dest : string) : Eff World unit :=
  let* _ := ensureParentExists dest in
  let* content :=
    call_at_now srcInstance (fun now => DOFS.readFileBuffer now src) in
  let* stats := call srcInstance (DOFS.stat src) in
  call_at_now destInstance (fun now =>
    DOFS.writeFileBuffer now dest (ArrayBuffer content)
      {| write_encoding := None; write_mode := Some (Stats.mode stats) |}).

Definition copyFile (src dest : string) (mode : Z) : Eff World unit :=
  let srcInstance := getInstance src in
  let destInstance := getInstance dest in
  if same_stub srcInstance destInstance then
    call_at_now srcInstance (fun now => DOFS.copyFile now src dest mode)
  else copyFile_across srcInstance destInstance src dest.

(** The branch of [cp] taken when the two stubs differ; [cp] is the
    function called on each child. *)
Definition cp_across (cp : string -> string -> CopyOptions -> Eff World unit)
    (srcInstance destInstance : Stub) (src dest : string)
    (options : CopyOptions) : Eff World unit :=
  let* stats := call srcInstance (DOFS.stat src) in
  if Stats.isDirectory stats then
    if negb (copy_recursive options)
    then throw "Cannot copy directory without recursive option"
    else
      let* _ := mkdir dest
        {| mkdir_recursive := true; mkdir_mode := None |} in
      let* entries :=
        call srcInstance (DOFS.readdir src {| withFileTypes := false |}) in
      for_each
        (match entries with
         | Names names => names
         | Dirents entries => List.map Dirent.name entries
         end)
        (fun entry =>
           cp (src +:+ "/" +:+ entry) (dest +:+ "/" +:+ entry) options)
  else
    let* _ := ensureParentExists dest in
    let* content :=
      call_at_now srcInstance (fun now => DOFS.readFileBuffer now src) in
    call_at_now destInstance (fun now =>
      DOFS.writeFileBuffer now dest (ArrayBuffer content)
        {| write_encoding := None; write_mode := Some (Stats.mode stats) |}).

Fixpoint cp (fuel : nat) (src dest : string) (options : CopyOptions)
  : Eff World unit :=
  match fuel with
  | O => unfinished
  | S fuel' =>
      let srcInstance := getInstance src in
      let destInstance := getInstance dest in
      if same_stub srcInstance destInstance then
        call_at_now srcInstance (fun now =>
          DOFS.cp fuel now src dest options)
      else cp_across (cp fuel') srcInstance destInstance src dest options
  end.

(** The branch of [rename] taken when the two stubs differ. *)
Definition rename_across (fuel : nat) (oldPath newPath : string)
  : Eff World unit :=
  let* _ := cp fuel oldPath newPath {| copy_recursive := true |} in
  rm oldPath {| rm_force := false; rm_recursive := true |}.

Definition rename (fuel : nat) (oldPath newPath : string)
  : Eff World unit :=
  let oldInstance := getInstance oldPath in
  let newInstance := getInstance newPath in
  if same_stub oldInstance newInstance then
    call_at_now oldInstance (fun now => DOFS.rename now oldPath newPath)
  else rename_across fuel oldPath newPath.

End Facade.

(** ** Vocabulary of the statements *)

(** One stub per instance name: the stubs of two names are the same
    object exactly when the names are equal.  The binding [DOFS] is not
    in the source; this is what the comparison of two stubs in
    [copyFile], [cp] and [rename] counts on. *)
Definition stable_stubs `{Host} : Prop :=
  forall a b : string, same_stub a b = true <-> a = b.

(** The bytes a call of [writeFile] stores for its data. *)
Definition payload `{Host} (data : Data) : option (list byte) :=
  match data with
  | DataString text => Some (TextEncoder_encode text)
  | DataBinary (ArrayBuffer bytes) => Some bytes
  | DataBinary (Uint8Array buffer byteOffset byteLength) =>
      Some (slice buffer byteOffset (byteOffset + byteLength))
  | DataOther => None
  end.

(** The bytes of binary data. *)
Definition buffer_of (data : Binary) : list byte :=
  match data with
  | ArrayBuffer bytes => bytes
  | Uint8Array buffer byteOffset byteLength =>
      slice buffer byteOffset (byteOffset + byteLength)
  end.

(** The mode a caller of [writeFile] supplied, if any. *)
Definition supplied_mode (options : WriteFileOptions) : option Z :=
  match options with
  | WriteOptions o => write_mode o
  | WriteEncoding _ | WriteDefault => None
  end.

(** The parent of [p] resolves to a directory: it is the root, or a row
    of type directory. *)
Definition parent_resolves (p : string) (t : Table) : Prop :=
  match below_root (DOFS.getParentPath (DOFS.normalizePath p)) with
  | Some q => exists row, row_at q t = Some row /\ File.type row = directory
  | None => True
  end.

(** The bytes of a row, as [readFileBuffer] hands them out. *)
Definition bytes_of (row : File.t) : list byte :=
  match File.content row with
  | Some bytes => bytes
  | None => []
  end.

(** The table after [UPDATE files SET atime = ? WHERE path = ?]. *)
Definition touched (now : Z) (p : string) (t : Table) : Table :=
  List.map (fun r => if has_path p r then File.set_atime now r else r) t.

(** The row [writeFileBuffer] inserts when the path is free. *)
Definition created_row (now_ms : Z) (p : string) (buffer : list byte)
    (options : WriteObject) : File.t :=
  {| File.path := DOFS.normalizePath p;
     File.parent_path := DOFS.getParentPath (DOFS.normalizePath p);
     File.name := DOFS.getFileName (DOFS.normalizePath p);
     File.type := file;
     File.content := Some buffer;
     File.size := Z.of_nat (List.length buffer);
     File.mode := number_or (write_mode options) 438;
     File.uid := 0; File.gid := 0;
     File.mtime := seconds now_ms; File.ctime := seconds now_ms;
     File.atime := seconds now_ms |}.

(** The table [writeFileBuffer] leaves when its parent check passes. *)
Definition written (now_ms : Z) (p : string) (buffer : list byte)
    (options : WriteObject) (t : Table) : Table :=
  match row_at (DOFS.normalizePath p) t with
  | Some _ =>
      List.map (fun r =>
        if has_path (DOFS.normalizePath p) r
        then File.set_written buffer (Z.of_nat (List.length buffer))
               (number_or (write_mode options) 438) (seconds now_ms) r
        else r) t
  | None => (t ++ [created_row now_ms p buffer options])%list
  end.

(** A directory row as [mkdir] makes it: no content, size 0. *)
Definition empty_directory (r : File.t) : Prop :=
  File.type r = directory /\ File.content r = None /\ File.size r = 0.

(** Rows that are all such directories. *)
Definition only_directories (rows : list File.t) : Prop :=
  List.Forall empty_directory rows.

(** The invariant of C3: a row of type directory has no content and
    size 0. *)
Definition directory_row_ok (r : File.t) : Prop :=
  File.type r = directory -> File.content r = None /\ File.size r = 0.

(** The invariant, of a table. *)
Definition directories_empty (t : Table) : Prop :=
  List.Forall directory_row_ok t.

(** A computation that keeps the invariant, whatever its outcome. *)
Definition keeps_directories_empty {A : Type} (m : Eff Table A) : Prop :=
  forall t, directories_empty t -> directories_empty (snd (m t)).

(** The paths of the rows, in order. *)
Definition paths (t : Table) : list string := List.map File.path t.

(** A row after [SET path = target(path), parent_path =
    parent(target(path))]. *)
Definition move (target : string -> string)
    (parent : string -> option string) (r : File.t) : File.t :=
  File.set_moved (target (File.path r)) (parent (target (File.path r))) r.

(** What [rename] of the directory [old] to [new] makes of a row: the
    directory itself takes the new path, parent, name and mtime; a row
    below [old] takes its path with [new] in place of [old], and the
    parent of that path; any other row stays. *)
Definition rename_row (old new : string) (now : Z) (r : File.t) : File.t :=
  if has_path old r then
    File.set_renamed new (DOFS.getParentPath new) (DOFS.getFileName new) now r
  else if starts_with (old +:+ "/") (File.path r) then
    File.set_moved (new +:+ drop (String.length old) (File.path r))
      (DOFS.getParentPath (new +:+ drop (String.length old) (File.path r))) r
  else r.

(** Whether the string ends with a slash. *)
Fixpoint ends_with_slash (s : string) : bool :=
  match s with
  | EmptyString => false
  | String c EmptyString => is_slash c
  | String _ rest => ends_with_slash rest
  end.

(** Whether the string starts with a slash. *)
Definition head_slash (s : string) : bool :=
  match s with
  | EmptyString => false
  | String c _ => is_slash c
  end.

(** Whether two slashes stand next to each other in the string. *)
Fixpoint has_double_slash (s : string) : bool :=
  match s with
  | EmptyString => false
  | String c rest => (is_slash c && head_slash rest) || has_double_slash rest
  end.

(** The row [mkdir] inserts for the normalized path [n]. *)
Definition made_directory (now_ms : Z) (n : string) (options : MkdirOptions)
  : File.t :=
  {| File.path := n; File.parent_path := DOFS.getParentPath n;
     File.name := DOFS.getFileName n; File.type := directory;
     File.content := None; File.size := 0;
     File.mode := number_or (mkdir_mode options) 511;
     File.uid := 0; File.gid := 0;
     File.mtime := seconds now_ms; File.ctime := seconds now_ms;
     File.atime := seconds now_ms |}.

(** The parent of the row is the root, or is there as a directory. *)
Definition parent_present (t : Table) (r : File.t) : Prop :=
  match below_root (File.parent_path r) with
  | Some q => exists d, row_at q t = Some d /\ File.type d = directory
  | None => True
  end.

(** The nearest ancestor of the path that holds a row: the row of the
    parent, or, when the parent holds none, the nearest such ancestor of
    the parent; none when the root comes first.  Each parent is shorter
    than its path, so the length of the path bounds the walk. *)
Fixpoint nearest_ancestor_within (fuel : nat) (t : Table) (n : string)
  : option File.t :=
  match fuel with
  | O => None
  | S fuel' =>
      match below_root (DOFS.getParentPath n) with
      | None => None
      | Some q =>
          match row_at q t with
          | Some r => Some r
          | None => nearest_ancestor_within fuel' t q
          end
      end
  end.

Definition nearest_ancestor (t : Table) (n : string) : option File.t :=
  nearest_ancestor_within (String.length n) t n.

(** Why [mkdir] of the path [n] throws the message on the table: a file
    holds the path; or the path is free and the parent holds no row,
    which is an error only without [recursive]; or the path is free and
    the nearest ancestor that holds a row is a file, which without
    [recursive] is the parent. *)
Definition mkdir_refused (options : MkdirOptions) (t : Table) (n : string)
    (message : string) : Prop :=
  message = "File exists and is not a directory" /\
    (exists r, row_at n t = Some r /\ File.type r = file)
  \/ message = "Parent directory does not exist" /\
     mkdir_recursive options = false /\
     row_at n t = None /\
     (exists q, below_root (DOFS.getParentPath n) = Some q /\
        row_at q t = None)
  \/ message = "Parent is not a directory" /\
     row_at n t = None /\
     (exists q r, below_root (DOFS.getParentPath n) = Some q /\
        nearest_ancestor t n = Some r /\ File.type r = file /\
        (mkdir_recursive options = false -> row_at q t = Some r)).

(** The table [t'] is [t] and then the rows a call of [mkdir] for the
    normalized path [n] created, the row of [first] before the others and
    the row of [n] among them; each of the rows is as [mkdir] makes it,
    on a path that was free, below a parent that is there, and no longer
    than [n]. *)
Definition mkdir_created (now_ms : Z) (options : MkdirOptions)
    (t : Table) (n first : string) (t' : Table) : Prop :=
  exists head rest,
    t' = (t ++ head :: rest)%list /\
    first = File.path head /\
    row_at n t' = Some (made_directory now_ms n options) /\
    List.Forall (fun r =>
      r = made_directory now_ms (File.path r) options /\
      row_at (File.path r) t = None /\
      parent_present t' r /\
      (String.length (File.path r) <= String.length n)%nat /\
      (n <> "" -> File.path r <> "")) (head :: rest).

(** The row [copyFile] stores at [dest] for the source row. *)
Definition copied_row (now_ms : Z) (dest : string) (srcFile : File.t)
  : File.t :=
  {| File.path := dest; File.parent_path := DOFS.getParentPath dest;
     File.name := DOFS.getFileName dest; File.type := file;
     File.content := File.content srcFile; File.size := File.size srcFile;
     File.mode := File.mode srcFile; File.uid := File.uid srcFile;
     File.gid := File.gid srcFile; File.mtime := seconds now_ms;
     File.ctime := seconds now_ms; File.atime := seconds now_ms |}.

(** The encoding a caller of [readFile] asked for, if any: an empty name
    counts as none. *)
Definition requested_encoding (options : ReadFileOptions) : option string :=
  match options with
  | ReadEncoding e | ReadObject (Some e) =>
      if String.eqb e "" then None else Some e
  | ReadObject None | ReadDefault => None
  end.

(** The parent column of the row is the parent of its path column. *)
Definition parent_matches_path (r : File.t) : Prop :=
  File.parent_path r = DOFS.getParentPath (File.path r).

(** The mode column of the row holds a mode: it is not 0. *)
Definition mode_set (r : File.t) : Prop := File.mode r <> 0.

(** A computation that keeps a property of the rows, whatever its
    outcome. *)
Definition keeps_rows (P : File.t -> Prop) {A : Type} (m : Eff Table A)
  : Prop :=
  forall t, List.Forall P t -> List.Forall P (snd (m t)).

(** A computation that leaves a row on every path that had one,
    whatever its outcome. *)
Definition keeps_paths {A : Type} (m : Eff Table A) : Prop :=
  forall t q, row_at q t <> None -> row_at q (snd (m t)) <> None.

(** A computation that keeps a property of the table, whatever its
    outcome. *)
Definition keeps_table (P : Table -> Prop) {A : Type} (m : Eff Table A)
  : Prop :=
  forall t, P t -> P (snd (m t)).

(** ** Hosts, tables and worlds of the examples *)

(** A host with byte-for-byte codecs, one stub per name, patterns of up
    to 50 bytes, whose clock reads 5000 ms on every reading. *)
Definition plain_host : Host :=
  {| TextEncoder_encode := list_byte_of_string;
     TextDecoder_decode :=
       fun _ bytes => DecodedText (string_of_list_byte bytes);
     Date_now := fun _ => 5000;
     same_stub := String.eqb;
     like_pattern_limit := 50 |}.

(** A host with byte-for-byte codecs, one stub per name, patterns of up
    to 50 bytes, whose n-th clock reading is n seconds. *)
Definition ticking_host : Host :=
  {| TextEncoder_encode := list_byte_of_string;
     TextDecoder_decode :=
       fun _ bytes => DecodedText (string_of_list_byte bytes);
     Date_now := fun n => 1000 * Z.of_nat n;
     same_stub := String.eqb;
     like_pattern_limit := 50 |}.

(** A host as the Workers runtime is: [get] makes a new stub object at
    every call, so that no two stubs are the same object, not even two
    of one name.  The codecs are byte for byte, patterns have up to 50
    bytes, and the n-th clock reading is n seconds. *)
Definition fresh_host : Host :=
  {| TextEncoder_encode := list_byte_of_string;
     TextDecoder_decode :=
       fun _ bytes => DecodedText (string_of_list_byte bytes);
     Date_now := fun n => 1000 * Z.of_nat n;
     same_stub := fun _ _ => false;
     like_pattern_limit := 50 |}.

(** [mkdir] with no options. *)
Definition plain_options : MkdirOptions :=
  {| mkdir_recursive := false; mkdir_mode := None |}.

(** [mkdir] with [{recursive: true}]. *)
Definition recursively : MkdirOptions :=
  {| mkdir_recursive := true; mkdir_mode := None |}.

(** The table after [mkdir("/tmp")] and [writeFile("/tmp/f", "x")]. *)
Definition tmp_table : Table :=
  snd (DOFS.writeFile (H := plain_host) 2000 "/tmp/f" (DataString "x")
         WriteDefault
         (snd (DOFS.mkdir 1000 "/tmp" plain_options []))).

(** The table after [mkdir("/data")] and [writeFile("/data/a.txt", "x")]. *)
Definition data_table : Table :=
  snd (DOFS.writeFile (H := plain_host) 2000 "/data/a.txt" (DataString "x")
         WriteDefault
         (snd (DOFS.mkdir 1000 "/data" plain_options []))).

(** The table after [mkdir("/docs")], [writeFile("/docs/a", "x")],
    [mkdir("/Docs")] and [writeFile("/Docs/docs", "y")]. *)
Definition docs_table : Table :=
  snd (DOFS.writeFile (H := plain_host) 4000 "/Docs/docs" (DataString "y")
         WriteDefault
         (snd (DOFS.mkdir 3000 "/Docs" plain_options
            (snd (DOFS.writeFile (H := plain_host) 2000 "/docs/a"
                    (DataString "x") WriteDefault
                    (snd (DOFS.mkdir 1000 "/docs" plain_options []))))))).

(** No instance has been used, the clock has not been read. *)
Definition empty_world : World := {| instances := ∅; clock_reads := 0 |}.

(** The world after [mkdir("/Users/alice", {recursive: true})],
    [writeFile("/Users/alice/x.txt", "Alice data")],
    [mkdir("/Users/bob", {recursive: true})] and
    [writeFile("/Users/bob/notes", "n")]. *)
Definition two_users : World :=
  snd (writeFile (H := ticking_host) "/Users/bob/notes" (DataString "n")
         WriteDefault
    (snd (mkdir (H := ticking_host) "/Users/bob" recursively
      (snd (writeFile (H := ticking_host) "/Users/alice/x.txt"
              (DataString "Alice data") WriteDefault
        (snd (mkdir (H := ticking_host) "/Users/alice" recursively
                empty_world))))))).

(** The world after [mkdir("/tmp")] and [writeFile("/tmp/f", "x")]. *)
Definition tmp_world : World :=
  snd (writeFile (H := ticking_host) "/tmp/f" (DataString "x") WriteDefault
    (snd (mkdir (H := ticking_host) "/tmp" plain_options empty_world))).

(** ** Rows and statements of the table *)

Section TableFacts.

Lemma has_path_true (p : string) (r : File.t) :
  has_path p r = true <-> File.path r = p.
Proof. unfold has_path. apply String.eqb_eq. Qed.

Lemma row_at_path (p : string) (t : Table) (r : File.t) :
  row_at p t = Some r -> File.path r = p.
Proof.
  unfold row_at. intros Hf. apply List.find_some in Hf.
  apply has_path_true. tauto.
Qed.

Lemma row_at_app_some (p : string) (t extra : Table) (r : File.t) :
  row_at p t = Some r -> row_at p (t ++ extra)%list = Some r.
Proof.
  unfold row_at. induction t as [|x t IH]; simpl; [discriminate|].
  destruct (has_path p x); auto.
Qed.

Lemma row_at_app_none (p : string) (t extra : Table) :
  row_at p t = None -> row_at p (t ++ extra)%list = row_at p extra.
Proof.
  unfold row_at. induction t as [|x t IH]; simpl; [reflexivity|].
  destruct (has_path p x); [discriminate|auto].
Qed.

Lemma row_at_update (p : string) (set : File.t -> File.t) (t : Table) :
  (forall r, File.path (set r) = File.path r) ->
  row_at p (List.map (fun r => if has_path p r then set r else r) t)
  = option_map set (row_at p t).
Proof.
  intros Hset. unfold row_at.
  induction t as [|x t IH]; simpl; [reflexivity|].
  destruct (has_path p x) eqn:Hx.
  - unfold has_path in *. rewrite Hset, Hx. reflexivity.
  - rewrite Hx. exact IH.
Qed.

Lemma row_at_update_other (p q : string) (set : File.t -> File.t)
    (t : Table) :
  (forall r, File.path (set r) = File.path r) ->
  p <> q ->
  row_at q (List.map (fun r => if has_path p r then set r else r) t)
  = row_at q t.
Proof.
  intros Hset Hne. unfold row_at.
  induction t as [|x t IH]; simpl; [reflexivity|].
  destruct (has_path p x) eqn:Hx.
  - apply has_path_true in Hx.
    assert (has_path q x = false) as Hq.
    { unfold has_path. apply String.eqb_neq. congruence. }
    assert (has_path q (set x) = false) as Hq'.
    { unfold has_path. rewrite Hset. exact Hq. }
    rewrite Hq, Hq'. exact IH.
  - destruct (has_path q x); [reflexivity|exact IH].
Qed.

Lemma existsb_row_at (p : string) (t : Table) :
  List.existsb (has_path p) t = false <-> row_at p t = None.
Proof.
  unfold row_at. induction t as [|x t IH]; simpl; [tauto|].
  destruct (has_path p x); simpl; [split; discriminate|exact IH].
Qed.

End TableFacts.

(** ** Writing and reading one file *)

Section WriteRead.
Context `{Host}.

Lemma require_directory_cases (p : option string) (message : string)
    (t : Table) :
  DOFS.require_directory p message t = (Returned tt, t)
  \/ DOFS.require_directory p message t = (Thrown message, t).
Proof.
  unfold DOFS.require_directory.
  destruct (below_root p) as [q|]; [|left; reflexivity].
  unfold bind, select_path.
  destruct (row_at q t) as [row|]; [|right; reflexivity].
  destruct (EntryType_eqb (File.type row) directory); [left|right]; reflexivity.
Qed.

Lemma require_directory_resolves (p : string) (message : string)
    (t : Table) :
  parent_resolves p t ->
  DOFS.require_directory (DOFS.getParentPath (DOFS.normalizePath p))
    message t = (Returned tt, t).
Proof.
  unfold parent_resolves, DOFS.require_directory.
  destruct (below_root _) as [q|]; [|reflexivity].
  intros (row & Hrow & Hdir). unfold bind, select_path.
  rewrite Hrow, Hdir. reflexivity.
Qed.

Lemma writeFileBuffer_checked (now_ms : Z) (p : string) (data : Binary)
    (options : WriteObject) (t : Table) :
  DOFS.require_directory (DOFS.getParentPath (DOFS.normalizePath p))
    "Parent directory does not exist" t = (Returned tt, t) ->
  DOFS.writeFileBuffer now_ms p data options t
  = (Returned tt, written now_ms p (buffer_of data) options t).
Proof.
  intros Hreq. unfold DOFS.writeFileBuffer, written, bind.
  rewrite Hreq. unfold select_path.
  destruct (row_at (DOFS.normalizePath p) t) as [old|] eqn:Hold.
  - destruct data; reflexivity.
  - unfold insert. cbn [File.path].
    apply existsb_row_at in Hold. rewrite Hold.
    destruct data; reflexivity.
Qed.

Lemma writeFileBuffer_cases (now_ms : Z) (p : string) (data : Binary)
    (options : WriteObject) (t : Table) :
  DOFS.writeFileBuffer now_ms p data options t
  = (Returned tt, written now_ms p (buffer_of data) options t)
  \/ DOFS.writeFileBuffer now_ms p data options t
     = (Thrown "Parent directory does not exist", t).
Proof.
  destruct (require_directory_cases
              (DOFS.getParentPath (DOFS.normalizePath p))
              "Parent directory does not exist" t) as [Hok|Hbad].
  - left. apply writeFileBuffer_checked. exact Hok.
  - right. unfold DOFS.writeFileBuffer, bind. rewrite Hbad. reflexivity.
Qed.

Lemma row_at_written (now_ms : Z) (p : string) (buffer : list byte)
    (options : WriteObject) (t : Table) :
  row_at (DOFS.normalizePath p) (written now_ms p buffer options t)
  = Some (match row_at (DOFS.normalizePath p) t with
          | Some old =>
              File.set_written buffer (Z.of_nat (List.length buffer))
                (number_or (write_mode options) 438) (seconds now_ms) old
          | None => created_row now_ms p buffer options
          end).
Proof.
  unfold written.
  destruct (row_at (DOFS.normalizePath p) t) as [old|] eqn:Hold.
  - rewrite row_at_update by reflexivity. rewrite Hold. reflexivity.
  - rewrite row_at_app_none by exact Hold.
    unfold row_at. simpl. unfold has_path. cbn [File.path created_row].
    rewrite String.eqb_refl. reflexivity.
Qed.

Lemma writeFile_payload (now_ms : Z) (p : string) (data : Data)
    (options : WriteFileOptions) (bytes : list byte) (t : Table) :
  payload data = Some bytes ->
  DOFS.writeFile now_ms p data options t
  = DOFS.writeFileBuffer now_ms p (ArrayBuffer bytes)
      {| write_encoding :=
           match options with
           | WriteEncoding e => Some e
           | WriteOptions o => write_encoding o
           | WriteDefault => None
           end;
         write_mode := supplied_mode options |} t.
Proof.
  intros Hp. unfold DOFS.writeFile.
  assert (forall o : WriteObject,
    {| write_encoding := write_encoding o; write_mode := write_mode o |} = o)
    as Heta by (intros []; reflexivity).
  destruct data as [text|[bytes'|buffer off len]|]; simpl in Hp;
    try discriminate; injection Hp as <-;
    destruct options as [|e|o]; simpl; rewrite ?Heta; reflexivity.
Qed.

End WriteRead.

(** C8: a [writeFile] whose parent check passes returns; when a row
    already holds the path, the row keeps its ctime (and its path,
    parent, name, type and owner) and takes the new content, size, mode,
    mtime and atime; when no row holds the path, the created row has its
    mtime, ctime and atime all at the current time. *)
Theorem writeFile_overwrites_or_creates `{Host} (now_ms : Z) (p : string)
    (data : Data) (options : WriteFileOptions) (bytes : list byte)
    (t : Table) :
  payload data = Some bytes ->
  parent_resolves p t ->
  exists t',
    DOFS.writeFile now_ms p data options t = (Returned tt, t') /\
    match row_at (DOFS.normalizePath p) t with
    | Some old =>
        exists new, row_at (DOFS.normalizePath p) t' = Some new /\
          File.ctime new = File.ctime old /\
          File.content new = Some bytes /\
          File.size new = Z.of_nat (List.length bytes) /\
          File.mode new = number_or (supplied_mode options) 438 /\
          File.mtime new = seconds now_ms /\
          File.atime new = seconds now_ms /\
          File.path new = File.path old /\
          File.parent_path new = File.parent_path old /\
          File.name new = File.name old /\
          File.type new = File.type old /\
          File.uid new = File.uid old /\
          File.gid new = File.gid old
    | None =>
        exists new, row_at (DOFS.normalizePath p) t' = Some new /\
          File.mtime new = seconds now_ms /\
          File.ctime new = seconds now_ms /\
          File.atime new = seconds now_ms /\
          File.content new = Some bytes /\
          File.type new = file
    end.
Proof.
  intros Hpay Hparent.
  rewrite (writeFile_payload _ _ _ _ _ _ Hpay).
  rewrite writeFileBuffer_checked
    by (apply require_directory_resolves; exact Hparent).
  eexists. split; [reflexivity|].
  rewrite row_at_written. simpl buffer_of.
  destruct (row_at (DOFS.normalizePath p) t) as [old|].
  - eexists. split; [reflexivity|]. simpl. repeat split; reflexivity.
  - eexists. split; [reflexivity|]. simpl. repeat split; reflexivity.
Qed.

Lemma writeFile_overwrites_or_creates_witness :
  (exists t',
     DOFS.writeFile (H := plain_host) 5000 "/f" (DataString "x")
       WriteDefault [] = (Returned tt, t') /\
     exists new, row_at "/f" t' = Some new /\
       File.mtime new = 5 /\ File.ctime new = 5 /\ File.atime new = 5 /\
       File.content new = Some (list_byte_of_string "x") /\
       File.type new = file) /\
  (exists t',
     DOFS.writeFile (H := plain_host) 9000 "/tmp/f" (DataString "yy")
       WriteDefault tmp_table = (Returned tt, t') /\
     exists new, row_at "/tmp/f" t' = Some new /\
       File.ctime new = 2 /\
       File.content new = Some (list_byte_of_string "yy") /\
       File.size new = 2 /\
       File.mode new = 438 /\
       File.mtime new = 9 /\
       File.atime new = 9 /\
       File.path new = "/tmp/f" /\
       File.parent_path new = Some "/tmp" /\
       File.name new = "f" /\
       File.type new = file /\
       File.uid new = 0 /\
       File.gid new = 0).
Proof.
  split.
  - exact (writeFile_overwrites_or_creates (H := plain_host) 5000 "/f"
             (DataString "x") WriteDefault (list_byte_of_string "x") []
             eq_refl I).
  - exact (writeFile_overwrites_or_creates (H := plain_host) 9000 "/tmp/f"
             (DataString "yy") WriteDefault (list_byte_of_string "yy")
             tmp_table eq_refl
             (ex_intro _ _ (conj eq_refl eq_refl))).
Defined.

(** C7, as the code has it: a [writeFile] that creates a row and is given
    no mode stores the mode 0o666 (438). *)
Theorem writeFile_default_mode `{Host} (now_ms : Z) (p : string)
    (data : Data) (options : WriteFileOptions) (bytes : list byte)
    (t : Table) :
  payload data = Some bytes ->
  parent_resolves p t ->
  supplied_mode options = None ->
  row_at (DOFS.normalizePath p) t = None ->
  exists t' new,
    DOFS.writeFile now_ms p data options t = (Returned tt, t') /\
    row_at (DOFS.normalizePath p) t' = Some new /\
    File.type new = file /\
    File.mode new = 438.
Proof.
  intros Hpay Hparent Hmode Hfree.
  rewrite (writeFile_payload _ _ _ _ _ _ Hpay).
  rewrite writeFileBuffer_checked
    by (apply require_directory_resolves; exact Hparent).
  do 2 eexists. split; [reflexivity|].
  rewrite row_at_written, Hfree. split; [reflexivity|].
  simpl. rewrite Hmode. split; reflexivity.
Qed.

Lemma writeFile_default_mode_witness :
  exists t' new,
    DOFS.writeFile (H := plain_host) 5000 "/notes.txt" (DataString "x")
      WriteDefault [] = (Returned tt, t') /\
    row_at "/notes.txt" t' = Some new /\
    File.type new = file /\
    File.mode new = 438.
Proof.
  exact (writeFile_default_mode (H := plain_host) 5000 "/notes.txt"
           (DataString "x") WriteDefault (list_byte_of_string "x") []
           eq_refl I eq_refl eq_refl).
Defined.

(** C7, as stated, fails: on the empty table [writeFile("/f", "x")]
    creates a row whose mode is 438 (0o666), not 420 (0o644), nor the
    default of the column, nor a mode with the permission bits 0o644. *)
Lemma writeFile_default_mode_is_not_0o644 :
  exists t' new,
    DOFS.writeFile (H := plain_host) 5000 "/f" (DataString "x")
      WriteDefault DOFS.initTables = (Returned tt, t') /\
    row_at "/f" t' = Some new /\
    File.mode new = 438 /\
    File.mode new <> 420 /\
    File.mode new <> DOFS.default_mode /\
    Z.land (File.mode new) 511 <> 420.
Proof.
  do 2 eexists. split; [vm_compute; reflexivity|].
  split; [vm_compute; reflexivity|]. simpl.
  split; [reflexivity|]. repeat split; discriminate.
Qed.

(** For a path in normal form that no directory occupies, what was
    written is what is read back. *)
Lemma write_then_read `{Host} (now_ms later_ms : Z) (p : string)
    (data : Data) (options : WriteFileOptions) (bytes : list byte)
    (t : Table) :
  payload data = Some bytes ->
  parent_resolves p t ->
  DOFS.normalizePath p = p ->
  (forall old, row_at p t = Some old -> File.type old = file) ->
  exists t',
    DOFS.writeFile now_ms p data options t = (Returned tt, t') /\
    fst (DOFS.readFile later_ms p ReadDefault t') = Returned (Buffer bytes).
Proof.
  intros Hpay Hparent Hnorm Hfile.
  rewrite (writeFile_payload _ _ _ _ _ _ Hpay).
  rewrite writeFileBuffer_checked
    by (apply require_directory_resolves; exact Hparent).
  eexists. split; [reflexivity|].
  unfold DOFS.readFile, DOFS.readFileBuffer, bind, select_path.
  pose proof (row_at_written now_ms p (buffer_of (ArrayBuffer bytes))
    {| write_encoding :=
         match options with
         | WriteEncoding e => Some e
         | WriteOptions o => write_encoding o
         | WriteDefault => None
         end;
       write_mode := supplied_mode options |} t) as Hrow.
  rewrite Hnorm in Hrow. rewrite Hrow.
  destruct (row_at p t) as [old|] eqn:Hold.
  - simpl. rewrite (Hfile old eq_refl). reflexivity.
  - reflexivity.
Qed.

(** C9 at a path with a trailing slash: [writeFile("/f/", bytes)] stores
    the row at "/f", and [readFile("/f/")] looks for a row at "/f/" and
    throws. *)
Theorem write_then_read_trailing_slash :
  exists t',
    DOFS.writeFile (H := plain_host) 5000 "/f/"
      (DataBinary (ArrayBuffer [x01; x02; x03])) WriteDefault []
    = (Returned tt, t') /\
    option_map bytes_of (row_at "/f" t') = Some [x01; x02; x03] /\
    fst (DOFS.readFile (H := plain_host) 6000 "/f/" ReadDefault t')
    = Thrown "File does not exist" /\
    fst (DOFS.readFile (H := plain_host) 6000 "/f" ReadDefault t')
    = Returned (Buffer [x01; x02; x03]).
Proof.
  eexists. split; [vm_compute; reflexivity|].
  repeat split; vm_compute; reflexivity.
Qed.

(** At a path that a directory occupies the write goes through and the
    read throws. *)
Lemma write_then_read_directory :
  exists t1 t2,
    DOFS.mkdir 1000 "/d" plain_options [] = (Returned (Some "/d"), t1) /\
    DOFS.writeFile (H := plain_host) 5000 "/d"
      (DataBinary (ArrayBuffer [x01; x02; x03])) WriteDefault t1
    = (Returned tt, t2) /\
    fst (DOFS.readFile (H := plain_host) 6000 "/d" ReadDefault t2)
    = Thrown "Not a file".
Proof.
  do 2 eexists. split; [vm_compute; reflexivity|].
  split; vm_compute; reflexivity.
Qed.

(** ** A directory row with content *)

(** C3 at its failing input: after [mkdir("/d")], [writeFile("/d", "hi")]
    returns and leaves the row of the directory with content and with
    size 2. *)
Theorem writeFile_onto_directory :
  exists t1 t2 row,
    DOFS.mkdir 1000 "/d" plain_options [] = (Returned (Some "/d"), t1) /\
    DOFS.writeFile (H := plain_host) 5000 "/d" (DataString "hi")
      WriteDefault t1 = (Returned tt, t2) /\
    row_at "/d" t2 = Some row /\
    File.type row = directory /\
    File.content row = Some (list_byte_of_string "hi") /\
    File.size row = 2.
Proof.
  do 3 eexists. split; [vm_compute; reflexivity|].
  split; [vm_compute; reflexivity|].
  split; [vm_compute; reflexivity|].
  repeat split.
Qed.

(** ** Paths looked up as they were given *)

(** C4 at its failing inputs: [stat], [readFile] and [copyFile] look up
    the path as it was given.  With a doubled slash the row of "/tmp/f" is
    not found, though the normal form of the path is "/tmp/f"; and
    [copyFile] stores its destination under the key as given. *)
Theorem raw_path_is_looked_up :
  DOFS.normalizePath "/tmp//f" = "/tmp/f" /\
  fst (DOFS.stat "/tmp//f" tmp_table) = Thrown "File does not exist" /\
  (exists s, fst (DOFS.stat "/tmp/f" tmp_table) = Returned s) /\
  fst (DOFS.readFile (H := plain_host) 6000 "/tmp//f" ReadDefault tmp_table)
  = Thrown "File does not exist" /\
  fst (DOFS.readFile (H := plain_host) 6000 "/tmp/f" ReadDefault tmp_table)
  = Returned (Buffer (list_byte_of_string "x")) /\
  fst (DOFS.copyFile 6000 "/tmp//f" "/tmp/g" 0 tmp_table)
  = Thrown "Source file not found" /\
  fst (DOFS.copyFile 6000 "/tmp/f" "/tmp/g" 0 tmp_table) = Returned tt /\
  (exists t' row,
     DOFS.copyFile 6000 "/tmp/f" "/tmp//g" 0 tmp_table = (Returned tt, t') /\
     row_at "/tmp//g" t' = Some row /\
     row_at "/tmp/g" t' = None).
Proof.
  split; [reflexivity|].
  split; [vm_compute; reflexivity|].
  split; [eexists; vm_compute; reflexivity|].
  split; [vm_compute; reflexivity|].
  split; [vm_compute; reflexivity|].
  split; [vm_compute; reflexivity|].
  split; [vm_compute; reflexivity|].
  do 2 eexists. split; [vm_compute; reflexivity|].
  split; vm_compute; reflexivity.
Qed.

(** ** Renaming a directory: where the loop over the children slips *)

(** C1 at a failing input: [rename("/data", "/data$$")] moves the
    directory to "/data$$" and its file to "/data$/a.txt" with parent
    "/data$", because [$$] in the replacement text of [replace] stands
    for one dollar. *)
Theorem rename_dollar_in_new_name :
  exists t' dir child,
    DOFS.rename (H := plain_host) 9000 "/data" "/data$$" data_table
    = (Returned tt, t') /\
    row_at "/data$$" t' = Some dir /\
    File.type dir = directory /\
    row_at "/data$$/a.txt" t' = None /\
    row_at "/data$/a.txt" t' = Some child /\
    File.parent_path child = Some "/data$" /\
    row_at "/data$" t' = None.
Proof.
  do 3 eexists. split; [vm_compute; reflexivity|].
  split; [vm_compute; reflexivity|].
  split; [reflexivity|].
  split; [vm_compute; reflexivity|].
  split; [vm_compute; reflexivity|].
  split; [reflexivity|]. vm_compute; reflexivity.
Qed.

(** The same loop selects its rows with [LIKE], which ignores the case
    of letters: [rename("/docs", "/old")] also picks the row "/Docs/docs",
    which is not below "/docs", and moves it to "/Docs/old". *)
Lemma rename_moves_a_row_outside :
  exists t' moved,
    row_at "/Docs/docs" docs_table <> None /\
    starts_with "/docs/" "/Docs/docs" = false /\
    DOFS.rename (H := plain_host) 9000 "/docs" "/old" docs_table
    = (Returned tt, t') /\
    row_at "/Docs/docs" t' = None /\
    row_at "/Docs/old" t' = Some moved /\
    File.content moved = Some (list_byte_of_string "y").
Proof.
  do 2 eexists. split; [vm_compute; discriminate|].
  split; [reflexivity|].
  split; [vm_compute; reflexivity|].
  split; [vm_compute; reflexivity|].
  split; [vm_compute; reflexivity|]. reflexivity.
Qed.

(** ** The instances *)

Lemma table_of_store (i j : string) (t : Table) (w : World) :
  table_of (store i t w) j = if decide (i = j) then t else table_of w j.
Proof.
  unfold table_of, store. simpl. rewrite lookup_insert.
  destruct (decide (i = j)); reflexivity.
Qed.

Lemma table_of_store_same (i : string) (w : World) (j : string) :
  table_of (store i (table_of w i) w) j = table_of w j.
Proof.
  rewrite table_of_store. destruct (decide (i = j)); congruence.
Qed.

Lemma stat_cases (p : string) (t : Table) :
  DOFS.stat p t = (Thrown "File does not exist", t)
  \/ exists row s, row_at p t = Some row /\ File.mode row = Stats.mode s /\
       DOFS.stat p t = (Returned s, t).
Proof.
  unfold DOFS.stat, bind, select_path.
  destruct (row_at p t) as [row|]; [right|left; reflexivity].
  do 2 eexists. split; [reflexivity|]. split; [|reflexivity]. reflexivity.
Qed.

(** C10: [stat] leaves the table as it was, whether it returns a
    snapshot or throws "File does not exist"; called through the module
    function, it leaves the table of every instance as it was. *)
Theorem stat_never_mutates `{Host} (p : string) :
  (forall t : Table,
     snd (DOFS.stat p t) = t /\
     (fst (DOFS.stat p t) = Thrown "File does not exist"
      \/ exists row,
           row_at p t = Some row /\
           exists s, fst (DOFS.stat p t) = Returned s /\
             Stats.size s = File.size row /\
             Stats.atime s = File.atime row * 1000)) /\
  (forall (w : World) (i : string),
     table_of (snd (stat p w)) i = table_of w i).
Proof.
  split.
  - intros t. unfold DOFS.stat, bind, select_path.
    destruct (row_at p t) as [row|].
    + split; [reflexivity|]. right. exists row. split; [reflexivity|].
      eexists. split; [reflexivity|]. split; reflexivity.
    + split; [reflexivity|]. left. reflexivity.
  - intros w i. unfold stat, call, getInstance.
    destruct (stat_cases p (table_of w (getInstanceName p)))
      as [E|(row & s & _ & _ & E)]; rewrite E; simpl;
      apply table_of_store_same.
Qed.

Lemma table_of_tick (w : World) (i : string) :
  table_of (tick w) i = table_of w i.
Proof. reflexivity. Qed.

Lemma call_unfold {A : Type} (i : Stub) (method : Eff Table A) (w : World) :
  call i method w
  = (fst (method (table_of w i)), store i (snd (method (table_of w i))) w).
Proof. unfold call. destruct (method (table_of w i)); reflexivity. Qed.

Lemma call_at_now_unfold `{Host} {A : Type} (i : Stub)
    (method : Z -> Eff Table A) (w : World) :
  call_at_now i method w
  = (fst (method (Date_now (clock_reads w)) (table_of w i)),
     store i (snd (method (Date_now (clock_reads w)) (table_of w i)))
       (tick w)).
Proof.
  unfold call_at_now.
  destruct (method (Date_now (clock_reads w)) (table_of w i)); reflexivity.
Qed.

Lemma same_stub_decide `{Host} {A : Type} (a b : Stub) (x y : A) :
  stable_stubs ->
  (if same_stub a b then x else y) = (if decide (a = b) then x else y).
Proof.
  intros Hstable. destruct (decide (a = b)) as [Heq|Hne].
  - apply Hstable in Heq. rewrite Heq. reflexivity.
  - destruct (same_stub a b) eqn:E; [|reflexivity].
    apply Hstable in E. contradiction.
Qed.

Lemma plain_host_stable : stable_stubs (H := plain_host).
Proof. intros a b. apply String.eqb_eq. Qed.

(** The name of the instance is the segment after "/Users/". *)
Lemma segment_app (user rest : string) :
  includes "/" user = false ->
  starts_with "/" rest = true \/ rest = "" ->
  segment (user +:+ rest) = user.
Proof.
  intros Huser Hrest. induction user as [|c user IH].
  - destruct Hrest as [Hrest| ->]; [|reflexivity].
    destruct rest as [|d rest]; [reflexivity|].
    cbn [starts_with] in Hrest.
    apply andb_true_iff in Hrest as [Hd _]. apply Ascii.eqb_eq in Hd.
    subst d. reflexivity.
  - cbn [includes] in Huser.
    apply orb_false_iff in Huser as [Hc Huser].
    change (segment (String c (user +:+ rest)) = String c user).
    cbn [segment]. unfold is_slash.
    rewrite Hc. f_equal. apply IH. exact Huser.
Qed.

Lemma getInstanceName_user (user rest : string) :
  user <> "" ->
  includes "/" user = false ->
  starts_with "/" rest = true \/ rest = "" ->
  getInstanceName ("/Users/" +:+ user +:+ rest) = user.
Proof.
  intros Hne Huser Hrest. unfold getInstanceName. simpl.
  change ("" +:+ user +:+ rest) with (user +:+ rest).
  rewrite segment_app by assumption.
  apply String.eqb_neq in Hne. rewrite Hne. reflexivity.
Qed.

Lemma strip_prefix_none (prefix s : string) :
  starts_with prefix s = false -> strip_prefix prefix s = None.
Proof.
  revert s. induction prefix as [|c prefix IH]; intros s; [discriminate|].
  destruct s as [|d s]; [reflexivity|].
  cbn [starts_with strip_prefix].
  destruct (Ascii.eqb c d); [apply IH|reflexivity].
Qed.

Lemma getInstanceName_default (p : string) :
  strip_prefix "/Users/" p = None -> getInstanceName p = "default".
Proof. unfold getInstanceName. intros ->. reflexivity. Qed.

(** Were there one stub per instance name, each of [copyFile], [cp] and
    [rename] would compare the stubs of its two paths, which would be
    the same exactly when the two instance names are equal; with equal
    names it would be one call of the method of [DOFS] on that instance,
    and otherwise the sequence across instances.  The instance name of a
    path is the segment after "/Users/" when the path starts with
    "/Users/" and that segment is not empty, and "default" otherwise. *)
Theorem two_path_dispatch `{Host} (a b : string) :
  stable_stubs ->
  (same_stub (getInstance a) (getInstance b) = true
   <-> getInstanceName a = getInstanceName b) /\
  (forall mode : Z,
     copyFile a b mode
     = if decide (getInstanceName a = getInstanceName b)
       then call_at_now (getInstanceName a)
              (fun now => DOFS.copyFile now a b mode)
       else copyFile_across (getInstanceName a) (getInstanceName b) a b) /\
  (forall (fuel : nat) (options : CopyOptions),
     cp (S fuel) a b options
     = if decide (getInstanceName a = getInstanceName b)
       then call_at_now (getInstanceName a)
              (fun now => DOFS.cp (S fuel) now a b options)
       else cp_across (cp fuel) (getInstanceName a) (getInstanceName b)
              a b options) /\
  (forall fuel : nat,
     rename fuel a b
     = if decide (getInstanceName a = getInstanceName b)
       then call_at_now (getInstanceName a)
              (fun now => DOFS.rename now a b)
       else rename_across fuel a b) /\
  (forall user rest : string,
     user <> "" ->
     includes "/" user = false ->
     starts_with "/" rest = true \/ rest = "" ->
     getInstanceName ("/Users/" +:+ user +:+ rest) = user) /\
  (forall rest : string,
     getInstanceName ("/Users/" +:+ "/" +:+ rest) = "default") /\
  (forall p : string,
     starts_with "/Users/" p = false -> getInstanceName p = "default").
Proof.
  intros Hstable.
  split; [apply Hstable|].
  split; [|split; [|split; [|split; [|split]]]].
  - intros mode. unfold copyFile, getInstance.
    apply same_stub_decide. exact Hstable.
  - intros fuel options. cbn [cp]. unfold getInstance.
    apply same_stub_decide. exact Hstable.
  - intros fuel. unfold rename, getInstance.
    apply same_stub_decide. exact Hstable.
  - apply getInstanceName_user.
  - intros rest. reflexivity.
  - intros p Hp. apply getInstanceName_default.
    apply strip_prefix_none. exact Hp.
Qed.

Lemma two_path_dispatch_witness :
  stable_stubs (H := plain_host) /\
  getInstanceName "/Users/alice/x.txt" = "alice" /\
  getInstanceName "/tmp/x.txt" = "default" /\
  copyFile (H := plain_host) "/Users/alice/x.txt" "/tmp/x.txt" 0
  = copyFile_across (H := plain_host) "alice" "default"
      "/Users/alice/x.txt" "/tmp/x.txt" /\
  copyFile (H := plain_host) "/tmp/x.txt" "/y.txt" 0
  = call_at_now (H := plain_host) "default"
      (fun now => DOFS.copyFile now "/tmp/x.txt" "/y.txt" 0).
Proof.
  destruct (two_path_dispatch (H := plain_host) "/Users/alice/x.txt"
              "/tmp/x.txt" (fun a b => String.eqb_eq a b))
    as (_ & Hcross & _ & _ & Huser & _ & Hdefault).
  destruct (two_path_dispatch (H := plain_host) "/tmp/x.txt" "/y.txt"
              (fun a b => String.eqb_eq a b))
    as (_ & Hsame & _).
  split; [exact (fun a b => String.eqb_eq a b)|].
  split.
  - exact (Huser "alice" "/x.txt" ltac:(discriminate) eq_refl
             (or_introl eq_refl)).
  - split; [exact (Hdefault "/tmp/x.txt" eq_refl)|].
    split; [exact (Hcross 0)|exact (Hsame 0)].
Defined.

(** Were every stub a fresh object, so that no two are the same, the
    three operations would always run the sequence across instances,
    also for two paths of one instance. *)
Lemma fresh_stubs_always_across `{Host} (a b : string) :
  (forall x y : string, same_stub x y = false) ->
  (forall mode : Z,
     copyFile a b mode
     = copyFile_across (getInstanceName a) (getInstanceName b) a b) /\
  (forall (fuel : nat) (options : CopyOptions),
     cp (S fuel) a b options
     = cp_across (cp fuel) (getInstanceName a) (getInstanceName b)
         a b options) /\
  (forall fuel : nat, rename fuel a b = rename_across fuel a b).
Proof.
  intros Hfresh. split; [|split].
  - intros mode. unfold copyFile. rewrite Hfresh. reflexivity.
  - intros fuel options. cbn [cp]. rewrite Hfresh. reflexivity.
  - intros fuel. unfold rename. rewrite Hfresh. reflexivity.
Qed.

(** C2: the two stubs are never the same object.  On the runtime, where
    [get] makes a new stub at every call, [copyFile], [cp] and [rename]
    run the sequence across instances for every two paths, also for two
    paths of one instance, and never the method of the instance.  Both
    "/tmp/f" and "/tmp/g" belong to "default".  [copyFile] of the one to
    the other reads the source through [readFileBuffer], which sets its
    atime to 2, and writes the copy one clock reading later, at 3; the
    method [copyFile] of the instance leaves the atime of the source at
    1 and stores the copy at 2.  [rename] of the one to the other copies
    and removes: the row at "/tmp/f" goes and the row at "/tmp/g" is a
    new one, created at 3 and read at 3; the method [rename] of the
    instance keeps the row, created at 1 and read at 1, and its
    modification time is 2. *)
Theorem one_instance_runs_across :
  (forall (a b : string) (mode : Z),
     copyFile (H := fresh_host) a b mode
     = copyFile_across (H := fresh_host) (getInstanceName a)
         (getInstanceName b) a b) /\
  (forall (a b : string) (fuel : nat) (options : CopyOptions),
     cp (H := fresh_host) (S fuel) a b options
     = cp_across (H := fresh_host) (cp (H := fresh_host) fuel)
         (getInstanceName a) (getInstanceName b) a b options) /\
  (forall (a b : string) (fuel : nat),
     rename (H := fresh_host) fuel a b
     = rename_across (H := fresh_host) fuel a b) /\
  getInstanceName "/tmp/f" = "default" /\
  getInstanceName "/tmp/g" = "default" /\
  (exists across within,
     copyFile (H := fresh_host) "/tmp/f" "/tmp/g" 0 tmp_world
     = (Returned tt, across) /\
     call_at_now (H := fresh_host) "default"
       (fun now => DOFS.copyFile now "/tmp/f" "/tmp/g" 0) tmp_world
     = (Returned tt, within) /\
     option_map File.atime (row_at "/tmp/f" (table_of tmp_world "default"))
     = Some 1 /\
     option_map File.atime (row_at "/tmp/f" (table_of within "default"))
     = Some 1 /\
     option_map File.atime (row_at "/tmp/f" (table_of across "default"))
     = Some 2 /\
     option_map File.ctime (row_at "/tmp/g" (table_of within "default"))
     = Some 2 /\
     option_map File.ctime (row_at "/tmp/g" (table_of across "default"))
     = Some 3) /\
  (exists across within,
     rename (H := fresh_host) 1 "/tmp/f" "/tmp/g" tmp_world
     = (Returned tt, across) /\
     call_at_now (H := fresh_host) "default"
       (fun now => DOFS.rename (H := fresh_host) now "/tmp/f" "/tmp/g")
       tmp_world
     = (Returned tt, within) /\
     row_at "/tmp/f" (table_of within "default") = None /\
     row_at "/tmp/f" (table_of across "default") = None /\
     option_map (fun r => (File.mtime r, File.ctime r, File.atime r))
       (row_at "/tmp/g" (table_of within "default"))
     = Some (2, 1, 1) /\
     option_map (fun r => (File.mtime r, File.ctime r, File.atime r))
       (row_at "/tmp/g" (table_of across "default"))
     = Some (3, 3, 3)).
Proof.
  split; [reflexivity|]. split; [reflexivity|]. split; [reflexivity|].
  split; [reflexivity|]. split; [reflexivity|].
  split.
  - do 2 eexists. split; [vm_compute; reflexivity|].
    split; [vm_compute; reflexivity|]. repeat split; vm_compute; reflexivity.
  - do 2 eexists. split; [vm_compute; reflexivity|].
    split; [vm_compute; reflexivity|]. repeat split; vm_compute; reflexivity.
Qed.

Lemma call_at_now_elsewhere `{Host} {A : Type} (i j : Stub)
    (method : Z -> Eff Table A) (w : World) :
  i <> j -> table_of (snd (call_at_now i method w)) j = table_of w j.
Proof.
  intros Hne. rewrite call_at_now_unfold. cbn [snd].
  rewrite table_of_store, table_of_tick.
  destruct (decide _); [contradiction|reflexivity].
Qed.

(** With equal instance names the three operations touch the table of
    that instance only. *)
Lemma one_instance_one_table `{Host} (a b : string) (w : World) (j : string) :
  stable_stubs ->
  getInstanceName a = getInstanceName b ->
  j <> getInstanceName a ->
  (forall mode, table_of (snd (copyFile a b mode w)) j = table_of w j) /\
  (forall fuel options,
     table_of (snd (cp (S fuel) a b options w)) j = table_of w j) /\
  (forall fuel, table_of (snd (rename fuel a b w)) j = table_of w j).
Proof.
  intros Hstable Hsame Hj.
  assert (same_stub (getInstance a) (getInstance b) = true) as Hstub
    by (apply Hstable; exact Hsame).
  split; [|split].
  - intros mode. unfold copyFile. rewrite Hstub.
    apply call_at_now_elsewhere. unfold getInstance. congruence.
  - intros fuel options. cbn [cp]. rewrite Hstub.
    apply call_at_now_elsewhere. unfold getInstance. congruence.
  - intros fuel. unfold rename. rewrite Hstub.
    apply call_at_now_elsewhere. unfold getInstance. congruence.
Qed.

(** ** Creating directories only appends directory rows *)

Lemma insert_appends (row : File.t) (t : Table) :
  insert row t = (Thrown unique_failed, t)
  \/ insert row t = (Returned tt, (t ++ [row])%list).
Proof.
  unfold insert. destruct (List.existsb _ t); [left|right]; reflexivity.
Qed.

Lemma mkdir_within_appends (fuel : nat) (now_ms : Z) (options : MkdirOptions) :
  forall (p : string) (t : Table),
  exists extra,
    snd (DOFS.mkdir_within fuel now_ms p options t) = (t ++ extra)%list /\
    only_directories extra.
Proof.
  assert (forall t : Table, exists extra,
            t = (t ++ extra)%list /\ only_directories extra) as Hnil.
  { intros t. exists []. split; [symmetry; apply List.app_nil_r|constructor]. }
  induction fuel as [|fuel IH]; intros p t; [apply Hnil|].
  cbn [DOFS.mkdir_within]. unfold bind at 1. unfold select_path at 1.
  destruct (row_at (DOFS.normalizePath p) t) as [existing|].
  { destruct (EntryType_eqb (File.type existing) directory); apply Hnil. }
  set (row := File.make _ _ _ _ _ _ _ _ _ _ _ _).
  assert (forall (first : option string) (t1 : Table) (extra1 : list File.t),
            t1 = (t ++ extra1)%list -> only_directories extra1 ->
            exists extra,
              snd (bind (insert row)
                     (fun _ =>
                        ret (Some (string_or first (DOFS.normalizePath p))))
                     t1) = (t ++ extra)%list /\ only_directories extra)
    as Hinsert.
  { intros first t1 extra1 -> Hdirs. unfold bind.
    destruct (insert_appends row (t ++ extra1)%list) as [E|E]; rewrite E.
    - exists extra1. split; [reflexivity|exact Hdirs].
    - exists (extra1 ++ [row])%list.
      split; [simpl; symmetry; apply List.app_assoc|].
      apply List.Forall_app. split; [exact Hdirs|].
      constructor; [repeat split|constructor]. }
  unfold bind at 1.
  destruct (below_root _) as [q|].
  - unfold bind at 1. unfold select_path at 1.
    destruct (row_at q t) as [parent|].
    + destruct (negb _); [apply Hnil|].
      apply (Hinsert None t []); [symmetry; apply List.app_nil_r|constructor].
    + destruct (mkdir_recursive options); [|apply Hnil].
      destruct (IH q t) as (extra1 & E1 & Hdirs1).
      destruct (DOFS.mkdir_within fuel now_ms q options t) as [[first| |] t1];
        simpl in E1.
      * apply (Hinsert first t1 extra1); assumption.
      * exists extra1. split; assumption.
      * exists extra1. split; assumption.
  - apply (Hinsert None t []); [symmetry; apply List.app_nil_r|constructor].
Qed.

Lemma mkdir_appends (now_ms : Z) (p : string) (options : MkdirOptions)
    (t : Table) :
  exists extra,
    snd (DOFS.mkdir now_ms p options t) = (t ++ extra)%list /\
    only_directories extra.
Proof. apply mkdir_within_appends. Qed.

Lemma ensureParentExists_appends `{Host} (dest : string) (w : World)
    (i : string) :
  exists extra,
    table_of (snd (ensureParentExists dest w)) i
    = (table_of w i ++ extra)%list /\
    only_directories extra.
Proof.
  assert (exists extra,
            table_of w i = (table_of w i ++ extra)%list /\
            only_directories extra) as Hsame.
  { exists []. split; [symmetry; apply List.app_nil_r|constructor]. }
  unfold ensureParentExists.
  destruct (_ || _); [exact Hsame|].
  set (parentPath := if _ <=? 0 then _ else _).
  destruct (String.eqb parentPath "/"); [exact Hsame|].
  unfold try_catch, bind at 1. unfold stat, getInstance.
  rewrite call_unfold.
  set (P := getInstanceName parentPath).
  destruct (stat_cases parentPath (table_of w P))
    as [E|(row & s & _ & _ & E)]; rewrite E; cbn [fst snd].
  - unfold bind, mkdir, getInstance. fold P. rewrite call_at_now_unfold.
    set (w0 := store P (table_of w P) w).
    destruct (mkdir_appends (Date_now (clock_reads w0)) parentPath
                {| mkdir_recursive := true; mkdir_mode := None |}
                (table_of w0 P)) as (extra & E1 & Hdirs).
    assert (table_of w0 P = table_of w P) as HP
      by apply table_of_store_same.
    destruct (DOFS.mkdir _ parentPath _ (table_of w0 P)) as [[first| |] t1];
      cbn [fst snd] in *; unfold ret; cbn [snd];
      rewrite table_of_store, table_of_tick;
      (destruct (decide (P = i)) as [<-|Hne];
       [exists extra; rewrite E1, HP; split; [reflexivity|exact Hdirs]
       |unfold w0; rewrite table_of_store_same; exact Hsame]).
  - unfold ret. cbn [snd]. rewrite table_of_store_same. exact Hsame.
Qed.

(** ** Copying a file from one instance to another *)

Lemma readFileBuffer_cases (now_ms : Z) (p : string) (t : Table) :
  match row_at p t with
  | Some row =>
      if EntryType_eqb (File.type row) file
      then DOFS.readFileBuffer now_ms p t
           = (Returned (bytes_of row), touched (seconds now_ms) p t)
      else DOFS.readFileBuffer now_ms p t = (Thrown "Not a file", t)
  | None => DOFS.readFileBuffer now_ms p t = (Thrown "File does not exist", t)
  end.
Proof.
  unfold DOFS.readFileBuffer, bind, select_path.
  destruct (row_at p t) as [row|]; [|reflexivity].
  destruct (EntryType_eqb (File.type row) file); reflexivity.
Qed.

Lemma row_at_touched (now : Z) (p : string) (t : Table) :
  row_at p (touched now p t) = option_map (File.set_atime now) (row_at p t).
Proof. apply row_at_update. reflexivity. Qed.

Lemma row_at_touched_other (now : Z) (p q : string) (t : Table) :
  p <> q -> row_at q (touched now p t) = row_at q t.
Proof. apply row_at_update_other. reflexivity. Qed.

Lemma EntryType_eqb_eq (a b : EntryType) : EntryType_eqb a b = true <-> a = b.
Proof. destruct a, b; simpl; split; congruence. Qed.

Section Across.
Context `{Host}.
Variables (src dest : string) (w w1 : World).
Hypothesis Hstubs : same_stub (getInstance src) (getInstance dest) = false.
Hypothesis Hensure : ensureParentExists dest w = (Returned tt, w1).

Local Abbreviation source := (getInstanceName src).
Local Abbreviation target := (getInstanceName dest).
Local Abbreviation read_at := (seconds (Date_now (clock_reads w1))).

Lemma copyFile_is_across (mode : Z) :
  copyFile src dest mode w = copyFile_across source target src dest w.
Proof.
  unfold copyFile. rewrite Hstubs. reflexivity.
Qed.

Lemma copyFile_across_read_fails :
  (forall row,
     row_at src (table_of w1 source) = Some row -> File.type row <> file) ->
  exists e w',
    copyFile_across source target src dest w = (Thrown e, w') /\
    (e = "File does not exist" \/ e = "Not a file") /\
    forall i, table_of w' i = table_of w1 i.
Proof.
  intros Hno. unfold copyFile_across, bind at 1. rewrite Hensure.
  unfold bind at 1. rewrite call_at_now_unfold.
  pose proof (readFileBuffer_cases (Date_now (clock_reads w1)) src
                (table_of w1 source)) as Hread.
  destruct (row_at src (table_of w1 source)) as [row|].
  - destruct (EntryType_eqb (File.type row) file) eqn:Hty.
    + apply EntryType_eqb_eq in Hty. destruct (Hno row eq_refl Hty).
    + rewrite Hread. cbn [fst snd]. do 2 eexists. split; [reflexivity|].
      split; [right; reflexivity|]. intros i.
      rewrite table_of_store, table_of_tick. destruct (decide _); congruence.
  - rewrite Hread. cbn [fst snd]. do 2 eexists. split; [reflexivity|].
    split; [left; reflexivity|]. intros i.
    rewrite table_of_store, table_of_tick. destruct (decide _); congruence.
Qed.

Lemma copyFile_across_read_succeeds (row : File.t) :
  row_at src (table_of w1 source) = Some row ->
  File.type row = file ->
  exists w3,
    clock_reads w3 = S (clock_reads w1) /\
    (forall i,
       table_of w3 i
       = if decide (source = i)
         then touched read_at src (table_of w1 source)
         else table_of w1 i) /\
    copyFile_across source target src dest w
    = call_at_now target (fun now =>
        DOFS.writeFileBuffer now dest (ArrayBuffer (bytes_of row))
          {| write_encoding := None; write_mode := Some (File.mode row) |})
        w3.
Proof.
  intros Hrow Hty. unfold copyFile_across, bind at 1. rewrite Hensure.
  unfold bind at 1. rewrite call_at_now_unfold.
  pose proof (readFileBuffer_cases (Date_now (clock_reads w1)) src
                (table_of w1 source)) as Hread.
  rewrite Hrow, Hty in Hread. cbn [EntryType_eqb] in Hread.
  rewrite Hread. cbn [fst snd].
  unfold bind at 1. rewrite call_unfold.
  set (w2 := store source (touched read_at src (table_of w1 source))
               (tick w1)).
  assert (table_of w2 source = touched read_at src (table_of w1 source))
    as H2.
  { unfold w2. rewrite table_of_store. destruct (decide _); congruence. }
  destruct (stat_cases src (table_of w2 source))
    as [E|(row' & s & Hrow' & Hmode & E)].
  - exfalso. unfold DOFS.stat, bind, select_path in E.
    rewrite H2, row_at_touched, Hrow in E. discriminate.
  - rewrite E. cbn [fst snd].
    rewrite H2, row_at_touched, Hrow in Hrow'. injection Hrow' as <-.
    cbn [File.set_atime File.mode] in Hmode. rewrite <- Hmode.
    exists (store source (table_of w2 source) w2).
    split; [reflexivity|]. split; [|reflexivity].
    intros i. rewrite table_of_store_same. unfold w2.
    rewrite table_of_store, table_of_tick. reflexivity.
Qed.

End Across.

Lemma copyFile_across_outcome `{Host} (src dest : string) (mode : Z)
    (w w1 w' : World) (r : Outcome unit) :
  same_stub (getInstance src) (getInstance dest) = false ->
  getInstanceName src <> getInstanceName dest ->
  ensureParentExists dest w = (Returned tt, w1) ->
  copyFile src dest mode w = (r, w') ->
  let source := getInstanceName src in
  let target := getInstanceName dest in
  let read_at := seconds (Date_now (clock_reads w1)) in
  let write_at := Date_now (S (clock_reads w1)) in
  match r with
  | Returned _ =>
      exists row,
        row_at src (table_of w1 source) = Some row /\
        File.type row = file /\
        forall i,
          table_of w' i
          = if decide (target = i)
            then written write_at dest (bytes_of row)
                   {| write_encoding := None;
                      write_mode := Some (File.mode row) |}
                   (table_of w1 target)
            else if decide (source = i)
                 then touched read_at src (table_of w1 source)
                 else table_of w1 i
  | Thrown e =>
      (e = "File does not exist" /\
       row_at src (table_of w1 source) = None /\
       forall i, table_of w' i = table_of w1 i)
      \/ (e = "Not a file" /\
          (exists row, row_at src (table_of w1 source) = Some row /\
                       File.type row = directory) /\
          forall i, table_of w' i = table_of w1 i)
      \/ (e = "Parent directory does not exist" /\
          (exists row, row_at src (table_of w1 source) = Some row /\
                       File.type row = file) /\
          forall i,
            table_of w' i
            = if decide (source = i)
              then touched read_at src (table_of w1 source)
              else table_of w1 i)
  | Unfinished => False
  end.
Proof.
  intros Hstubs Hshards Hensure Hcopy. cbv zeta.
  rewrite copyFile_is_across in Hcopy by exact Hstubs.
  destruct (row_at src (table_of w1 (getInstanceName src))) as [row|] eqn:Hrow.
  - destruct (File.type row) eqn:Hty.
    + destruct (copyFile_across_read_succeeds src dest w w1 Hensure row
                  Hrow Hty) as (w3 & Hclock & Htables & E).
      rewrite E, call_at_now_unfold in Hcopy. rewrite Hclock in Hcopy.
      assert (table_of w3 (getInstanceName dest)
              = table_of w1 (getInstanceName dest)) as Htarget.
      { rewrite Htables. destruct (decide _) as [Heq|]; [|reflexivity].
        destruct (Hshards Heq). }
      rewrite Htarget in Hcopy.
      destruct (writeFileBuffer_cases (Date_now (S (clock_reads w1))) dest
                  (ArrayBuffer (bytes_of row))
                  {| write_encoding := None;
                     write_mode := Some (File.mode row) |}
                  (table_of w1 (getInstanceName dest))) as [Ew|Ew];
        rewrite Ew in Hcopy; cbn [fst snd] in Hcopy;
        injection Hcopy as <- <-.
      * exists row. split; [reflexivity|]. split; [exact Hty|].
        intros i. rewrite table_of_store, table_of_tick.
        destruct (decide (getInstanceName dest = i)); [reflexivity|].
        apply Htables.
      * right. right. split; [reflexivity|].
        split; [exists row; split; [reflexivity|exact Hty]|].
        intros i. rewrite table_of_store, table_of_tick.
        destruct (decide (getInstanceName dest = i)) as [<-|]; [|apply Htables].
        destruct (decide _) as [Heq|]; [destruct (Hshards Heq)|reflexivity].
    + destruct (copyFile_across_read_fails src dest w w1 Hensure)
        as (e & w2 & E & He & Htables).
      { intros row' Hrow'. congruence. }
      rewrite E in Hcopy. injection Hcopy as <- <-.
      destruct He as [->| ->].
      * exfalso. unfold copyFile_across, bind at 1 in E. rewrite Hensure in E.
        unfold bind at 1 in E. rewrite call_at_now_unfold in E.
        pose proof (readFileBuffer_cases (Date_now (clock_reads w1)) src
                      (table_of w1 (getInstanceName src))) as Hread.
        rewrite Hrow, Hty in Hread. cbn [EntryType_eqb] in Hread.
        rewrite Hread in E. discriminate.
      * right. left. split; [reflexivity|].
        split; [exists row; split; [reflexivity|exact Hty]|exact Htables].
  - destruct (copyFile_across_read_fails src dest w w1 Hensure)
      as (e & w2 & E & He & Htables).
    { intros row' Hrow'. congruence. }
    rewrite E in Hcopy. injection Hcopy as <- <-.
    destruct He as [->| ->].
    + left. split; [reflexivity|]. split; [reflexivity|exact Htables].
    + exfalso. unfold copyFile_across, bind at 1 in E. rewrite Hensure in E.
      unfold bind at 1 in E. rewrite call_at_now_unfold in E.
      pose proof (readFileBuffer_cases (Date_now (clock_reads w1)) src
                    (table_of w1 (getInstanceName src))) as Hread.
      rewrite Hrow in Hread. rewrite Hread in E.
      discriminate.
Qed.

Lemma copyFile_across_ensure_fails `{Host} (src dest : string) (mode : Z)
    (w w1 : World) (r : Outcome unit) :
  same_stub (getInstance src) (getInstance dest) = false ->
  ensureParentExists dest w = (r, w1) ->
  r <> Returned tt ->
  copyFile src dest mode w = (r, w1).
Proof.
  intros Hstubs Hensure Hr.
  rewrite copyFile_is_across by exact Hstubs.
  unfold copyFile_across, bind at 1. rewrite Hensure.
  destruct r as [[]| |]; [destruct (Hr eq_refl)|reflexivity|reflexivity].
Qed.

(** The steps of [copyFile] across instances.  When the stubs of the two
    paths differ and the paths belong to two instances, [copyFile] first
    makes sure that the parent of the destination exists, which can only
    add rows of directories; when that step throws, the copy throws the
    same error and does nothing more.  Then it reads the source, and then
    it writes the destination.  When the read throws, every table is as
    the first step left it; when the write throws, every table is as the
    first step left it except that the read has set the atime of the source
    row; when the copy returns, the destination table has the row
    written and the source table has the atime set. *)
Theorem copyFile_across_steps `{Host} (src dest : string) (mode : Z)
    (w : World) :
  same_stub (getInstance src) (getInstance dest) = false ->
  getInstanceName src <> getInstanceName dest ->
  (forall i, exists extra,
     table_of (snd (ensureParentExists dest w)) i
     = (table_of w i ++ extra)%list /\ only_directories extra) /\
  (forall e w1,
     ensureParentExists dest w = (Thrown e, w1) ->
     copyFile src dest mode w = (Thrown e, w1)) /\
  (forall w1 e w',
     ensureParentExists dest w = (Returned tt, w1) ->
     copyFile src dest mode w = (Thrown e, w') ->
     (e = "File does not exist" /\
      row_at src (table_of w1 (getInstanceName src)) = None /\
      forall i, table_of w' i = table_of w1 i)
     \/ (e = "Not a file" /\
         (exists row,
            row_at src (table_of w1 (getInstanceName src)) = Some row /\
            File.type row = directory) /\
         forall i, table_of w' i = table_of w1 i)
     \/ (e = "Parent directory does not exist" /\
         (exists row,
            row_at src (table_of w1 (getInstanceName src)) = Some row /\
            File.type row = file) /\
         forall i,
           table_of w' i
           = if decide (getInstanceName src = i)
             then touched (seconds (Date_now (clock_reads w1))) src
                    (table_of w1 (getInstanceName src))
             else table_of w1 i)) /\
  (forall w1 w',
     ensureParentExists dest w = (Returned tt, w1) ->
     copyFile src dest mode w = (Returned tt, w') ->
     exists row,
       row_at src (table_of w1 (getInstanceName src)) = Some row /\
       File.type row = file /\
       forall i,
         table_of w' i
         = if decide (getInstanceName dest = i)
           then written (Date_now (S (clock_reads w1))) dest (bytes_of row)
                  {| write_encoding := None;
                     write_mode := Some (File.mode row) |}
                  (table_of w1 (getInstanceName dest))
           else if decide (getInstanceName src = i)
                then touched (seconds (Date_now (clock_reads w1))) src
                       (table_of w1 (getInstanceName src))
                else table_of w1 i).
Proof.
  intros Hstubs Hshards.
  split; [intros i; apply ensureParentExists_appends|].
  split.
  { intros e w1 Hensure.
    apply copyFile_across_ensure_fails; [exact Hstubs|exact Hensure|].
    discriminate. }
  split.
  - intros w1 e w' Hensure Hcopy.
    exact (copyFile_across_outcome src dest mode w w1 w' (Thrown e)
             Hstubs Hshards Hensure Hcopy).
  - intros w1 w' Hensure Hcopy.
    exact (copyFile_across_outcome src dest mode w w1 w' (Returned tt)
             Hstubs Hshards Hensure Hcopy).
Qed.

(** A write that fails leaves its trace in the source.
    [copyFile("/Users/alice/x.txt", "/Users/bob/notes/x.txt")], where
    "/Users/bob/notes" is a file, throws in the write after the read has
    gone through, and the table of the source is not what it was: the
    atime of the source row went from 1 to 4. *)
Lemma copyFile_across_failure_changes_source :
  exists w',
    copyFile (H := ticking_host) "/Users/alice/x.txt"
      "/Users/bob/notes/x.txt" 0 two_users
    = (Thrown "Parent directory does not exist", w') /\
    option_map File.atime
      (row_at "/Users/alice/x.txt" (table_of two_users "alice")) = Some 1 /\
    option_map File.atime
      (row_at "/Users/alice/x.txt" (table_of w' "alice")) = Some 4 /\
    table_of w' "alice" <> table_of two_users "alice" /\
    table_of w' "bob" = table_of two_users "bob".
Proof.
  eexists. split; [vm_compute; reflexivity|].
  split; [vm_compute; reflexivity|].
  split; [vm_compute; reflexivity|].
  split; [vm_compute; discriminate|vm_compute; reflexivity].
Qed.

Lemma copyFile_across_steps_witness :
  getInstanceName "/Users/alice/x.txt"
    <> getInstanceName "/Users/bob/notes/x.txt" /\
  exists w1 w',
    ensureParentExists (H := ticking_host) "/Users/bob/notes/x.txt" two_users
    = (Returned tt, w1) /\
    copyFile (H := ticking_host) "/Users/alice/x.txt"
      "/Users/bob/notes/x.txt" 0 two_users
    = (Thrown "Parent directory does not exist", w') /\
    table_of w' "bob" = table_of w1 "bob" /\
    table_of w' "alice"
    = touched 4 "/Users/alice/x.txt" (table_of w1 "alice").
Proof.
  assert (getInstanceName "/Users/alice/x.txt"
            <> getInstanceName "/Users/bob/notes/x.txt") as Hne
    by (vm_compute; discriminate).
  split; [exact Hne|].
  destruct (copyFile_across_steps (H := ticking_host) "/Users/alice/x.txt"
              "/Users/bob/notes/x.txt" 0 two_users eq_refl Hne)
    as (_ & _ & Hthrown & _).
  eexists. eexists.
  assert (ensureParentExists (H := ticking_host) "/Users/bob/notes/x.txt"
            two_users = (Returned tt, _)) as Hensure
    by (vm_compute; reflexivity).
  assert (copyFile (H := ticking_host) "/Users/alice/x.txt"
            "/Users/bob/notes/x.txt" 0 two_users
          = (Thrown "Parent directory does not exist", _)) as Hcopy
    by (vm_compute; reflexivity).
  split; [exact Hensure|]. split; [exact Hcopy|].
  destruct (Hthrown _ _ _ Hensure Hcopy)
    as [(He & _)|[(He & _)|(_ & _ & Htables)]];
    [discriminate He|discriminate He|].
  split; [exact (Htables "bob")|exact (Htables "alice")].
Defined.

(** C5: the parent of the destination is made in the instance of the
    parent path, which need not be the instance of the destination.  In
    [copyFile("/tmp/f", "/Users/carol")] the source belongs to "default"
    and the destination to "carol", but its parent "/Users" belongs to
    "default".  The first step finds no "/Users" in "default" and makes
    it there, at 2; "carol" gets nothing.  The read then sets the atime
    of the source to 3, and the write, in "carol", finds no parent and
    throws.  After the failure "default" has one row more and one row
    changed, and "carol" is still without the parent. *)
Theorem copyFile_across_parent_elsewhere :
  getInstanceName "/tmp/f" = "default" /\
  getInstanceName "/Users/carol" = "carol" /\
  getInstanceName "/Users" = "default" /\
  row_at "/Users" (table_of tmp_world "default") = None /\
  exists w1 w',
    ensureParentExists (H := ticking_host) "/Users/carol" tmp_world
    = (Returned tt, w1) /\
    table_of w1 "default"
    = (table_of tmp_world "default"
       ++ [made_directory 2000 "/Users" recursively])%list /\
    table_of w1 "carol" = [] /\
    copyFile (H := ticking_host) "/tmp/f" "/Users/carol" 0 tmp_world
    = (Thrown "Parent directory does not exist", w') /\
    table_of w' "carol" = [] /\
    table_of w' "default" = touched 3 "/tmp/f" (table_of w1 "default") /\
    option_map File.atime (row_at "/tmp/f" (table_of tmp_world "default"))
    = Some 1 /\
    option_map File.atime (row_at "/tmp/f" (table_of w' "default"))
    = Some 3.
Proof.
  split; [reflexivity|]. split; [reflexivity|]. split; [reflexivity|].
  split; [reflexivity|]. do 2 eexists.
  split; [vm_compute; reflexivity|]. split; [vm_compute; reflexivity|].
  split; [vm_compute; reflexivity|]. split; [vm_compute; reflexivity|].
  repeat split; vm_compute; reflexivity.
Qed.

(** C6, as the code has it.  When the stubs of the two paths differ, the
    paths belong to two instances and [copyFile] returns for a source
    that is a file, with a mode as every stored row has one, the
    destination instance holds at the normal form of the destination a
    row with the bytes and the mode of the source, and the source row is
    as it was except for its atime, which is the second of the clock
    reading that the read makes, the first reading after the parent of
    the destination has been seen to. *)
Theorem copyFile_across_copies `{Host} (src dest : string) (mode : Z)
    (w w' : World) (row : File.t) :
  same_stub (getInstance src) (getInstance dest) = false ->
  getInstanceName src <> getInstanceName dest ->
  row_at src (table_of w (getInstanceName src)) = Some row ->
  File.type row = file ->
  mode_set row ->
  copyFile src dest mode w = (Returned tt, w') ->
  (exists copy,
     row_at (DOFS.normalizePath dest) (table_of w' (getInstanceName dest))
     = Some copy /\
     File.content copy = Some (bytes_of row) /\
     File.mode copy = File.mode row) /\
  row_at src (table_of w' (getInstanceName src))
  = Some (File.set_atime
            (seconds
               (Date_now (clock_reads (snd (ensureParentExists dest w)))))
            row).
Proof.
  intros Hstubs Hshards Hrow Hty Hmode Hcopy.
  destruct (ensureParentExists dest w) as [r w1] eqn:Hensure.
  assert (r = Returned tt) as ->.
  { destruct r as [[]| |]; [reflexivity| |];
      rewrite (copyFile_across_ensure_fails src dest mode w w1 _ Hstubs
                 Hensure) in Hcopy by discriminate; discriminate. }
  assert (row_at src (table_of w1 (getInstanceName src)) = Some row) as Hrow1.
  { destruct (ensureParentExists_appends dest w (getInstanceName src))
      as (extra & E & _).
    rewrite Hensure in E. cbn [snd] in E. rewrite E.
    apply row_at_app_some. exact Hrow. }
  destruct (copyFile_across_outcome src dest mode w w1 w' (Returned tt)
              Hstubs Hshards Hensure Hcopy) as (row' & Hrow' & _ & Htables).
  rewrite Hrow1 in Hrow'. injection Hrow' as <-.
  split.
  - rewrite Htables. destruct (decide _) as [_|Hne]; [|destruct (Hne eq_refl)].
    rewrite row_at_written. eexists. split; [reflexivity|].
    assert (number_or (Some (File.mode row)) 438 = File.mode row) as Hor.
    { unfold number_or. apply Z.eqb_neq in Hmode. rewrite Hmode.
      reflexivity. }
    destruct (row_at (DOFS.normalizePath dest) _);
      cbn [File.content File.mode File.set_written created_row write_mode];
      split; try reflexivity; exact Hor.
  - cbn [snd]. rewrite Htables.
    destruct (decide _) as [Heq|_]; [destruct (Hshards (eq_sym Heq))|].
    destruct (decide _) as [_|Hne]; [|destruct (Hne eq_refl)].
    rewrite row_at_touched, Hrow1. reflexivity.
Qed.

Lemma copyFile_across_copies_witness :
  exists w' row copy,
    copyFile (H := ticking_host) "/Users/alice/x.txt" "/Users/bob/x.txt" 0
      two_users = (Returned tt, w') /\
    row_at "/Users/alice/x.txt" (table_of two_users "alice") = Some row /\
    File.mode row = 438 /\
    row_at "/Users/bob/x.txt" (table_of w' "bob") = Some copy /\
    File.content copy = Some (list_byte_of_string "Alice data") /\
    File.mode copy = File.mode row /\
    row_at "/Users/alice/x.txt" (table_of w' "alice")
    = Some (File.set_atime 4 row).
Proof.
  eexists. eexists.
  assert (copyFile (H := ticking_host) "/Users/alice/x.txt"
            "/Users/bob/x.txt" 0 two_users = (Returned tt, _)) as Hcopy
    by (vm_compute; reflexivity).
  assert (getInstanceName "/Users/alice/x.txt"
            <> getInstanceName "/Users/bob/x.txt") as Hne
    by (vm_compute; discriminate).
  assert (row_at "/Users/alice/x.txt"
            (table_of two_users (getInstanceName "/Users/alice/x.txt"))
          = Some _) as Hrow by (vm_compute; reflexivity).
  destruct (copyFile_across_copies (H := ticking_host) "/Users/alice/x.txt"
              "/Users/bob/x.txt" 0 two_users _ _ eq_refl Hne Hrow eq_refl
              ltac:(discriminate) Hcopy)
    as ((copy & Hat & Hcontent & Hmode) & Hsource).
  exists copy. split; [exact Hcopy|]. split; [exact Hrow|].
  split; [reflexivity|]. split; [exact Hat|]. split; [exact Hcontent|].
  split; [exact Hmode|exact Hsource].
Defined.

(** The claim of an untouched source fails: after
    [copyFile("/Users/alice/x.txt", "/Users/bob/x.txt")] the source row
    is not what it was, its atime went from 1 to 4. *)
Lemma copyFile_across_touches_source :
  exists w' before after,
    copyFile (H := ticking_host) "/Users/alice/x.txt" "/Users/bob/x.txt" 0
      two_users = (Returned tt, w') /\
    row_at "/Users/alice/x.txt" (table_of two_users "alice") = Some before /\
    row_at "/Users/alice/x.txt" (table_of w' "alice") = Some after /\
    File.atime before = 1 /\
    File.atime after = 4 /\
    after <> before.
Proof.
  do 3 eexists. split; [vm_compute; reflexivity|].
  split; [vm_compute; reflexivity|].
  split; [vm_compute; reflexivity|].
  split; [reflexivity|]. split; [reflexivity|]. discriminate.
Qed.

(** ** [mkdir] completes: the length of the path is fuel enough *)

Section Lengths.
Local Open Scope nat_scope.

Lemma strip_trailing_slashes_length (s : string) :
  String.length (strip_trailing_slashes s) <= String.length s.
Proof.
  induction s as [|c s IH]; [reflexivity|].
  cbn [strip_trailing_slashes].
  destruct (all_slashes (String c s)); cbn [String.length]; lia.
Qed.

Lemma collapse_slashes_length (s : string) :
  String.length (collapse_slashes s) <= String.length s.
Proof.
  induction s as [|c s IH]; [reflexivity|].
  cbn [collapse_slashes].
  destruct (is_slash c); [destruct s as [|d s]; [reflexivity|];
    destruct (is_slash d)|]; cbn [String.length] in *; lia.
Qed.

Lemma normalizePath_length (p : string) :
  String.length (DOFS.normalizePath p) <= String.length p.
Proof.
  unfold DOFS.normalizePath. destruct (String.eqb_spec p "/") as [->|_].
  - reflexivity.
  - pose proof (collapse_slashes_length (strip_trailing_slashes p)).
    pose proof (strip_trailing_slashes_length p). lia.
Qed.

Lemma lastIndexOf_bound (c : ascii) (s : string) :
  (lastIndexOf c s < Z.of_nat (String.length s))%Z.
Proof.
  induction s as [|d s IH]; [reflexivity|].
  cbn [lastIndexOf String.length].
  destruct (0 <=? lastIndexOf c s)%Z; [lia|].
  destruct (Ascii.eqb d c); lia.
Qed.

Lemma take_length (n : nat) (s : string) :
  String.length (take n s) = Nat.min n (String.length s).
Proof.
  revert s. induction n as [|n IH]; intros [|c s]; cbn; auto.
Qed.

Lemma substring_prefix_length (s : string) (k : Z) :
  (0 < k < Z.of_nat (String.length s))%Z ->
  String.length (substring s 0 k) = Z.to_nat k.
Proof.
  intros Hk. unfold substring, clamp_index.
  change (Z.to_nat 0) with 0%nat. rewrite Nat.min_0_l.
  rewrite Nat.max_0_l, Nat.min_0_l, Nat.sub_0_r.
  change (drop 0 s) with s.
  rewrite take_length. lia.
Qed.

Lemma below_root_some (p : option string) (q : string) :
  below_root p = Some q -> p = Some q /\ q <> "/"%string.
Proof.
  unfold below_root. destruct p as [r|]; [|discriminate].
  destruct (String.eqb r "") eqn:E1; [discriminate|].
  destruct (String.eqb_spec r "/") as [->|Hne]; [discriminate|].
  simpl. intros [= <-]. split; [reflexivity|exact Hne].
Qed.

Lemma getParentPath_shorter (p q : string) :
  below_root (DOFS.getParentPath p) = Some q ->
  String.length q < String.length (DOFS.normalizePath p).
Proof.
  intros Hq. apply below_root_some in Hq as [Hq Hne].
  unfold DOFS.getParentPath in Hq.
  destruct (String.eqb (DOFS.normalizePath p) "/"); [discriminate|].
  injection Hq as Hq.
  pose proof (lastIndexOf_bound "/" (DOFS.normalizePath p)) as Hlt.
  destruct (Z.leb_spec (lastIndexOf "/" (DOFS.normalizePath p)) 0) as [|Hpos].
  - congruence.
  - subst q. rewrite substring_prefix_length by lia. lia.
Qed.

Lemma mkdir_within_completes (fuel : nat) (now_ms : Z)
    (options : MkdirOptions) :
  forall (p : string) (t : Table),
    String.length (DOFS.normalizePath p) < fuel ->
    fst (DOFS.mkdir_within fuel now_ms p options t) <> Unfinished.
Proof.
  induction fuel as [|fuel IH]; intros p t Hfuel; [lia|].
  cbn [DOFS.mkdir_within]. unfold bind at 1. unfold select_path at 1.
  destruct (row_at (DOFS.normalizePath p) t) as [existing|].
  { destruct (EntryType_eqb (File.type existing) directory); discriminate. }
  set (row := File.make _ _ _ _ _ _ _ _ _ _ _ _).
  assert (forall (first : option string) (t1 : Table),
            fst (bind (insert row)
                   (fun _ =>
                      ret (Some (string_or first (DOFS.normalizePath p))))
                   t1) <> Unfinished) as Hinsert.
  { intros first t1. unfold bind.
    destruct (insert_appends row t1) as [E|E]; rewrite E; discriminate. }
  unfold bind at 1.
  destruct (below_root _) as [q|] eqn:Hq; [|apply Hinsert].
  unfold bind at 1. unfold select_path at 1.
  destruct (row_at q t) as [parent|].
  - destruct (negb _); [discriminate|apply Hinsert].
  - destruct (mkdir_recursive options); [|discriminate].
    assert (String.length (DOFS.normalizePath q) < fuel) as Hq'.
    { apply getParentPath_shorter in Hq.
      pose proof (normalizePath_length q).
      pose proof (normalizePath_length (DOFS.normalizePath p)). lia. }
    specialize (IH q t Hq').
    destruct (DOFS.mkdir_within fuel now_ms q options t) as [[first| |] t1];
      [apply Hinsert|discriminate|destruct (IH eq_refl)].
Qed.

Lemma mkdir_completes (now_ms : Z) (p : string) (options : MkdirOptions)
    (t : Table) :
  fst (DOFS.mkdir now_ms p options t) <> Unfinished.
Proof.
  apply mkdir_within_completes. pose proof (normalizePath_length p). lia.
Qed.

End Lengths.

(** Across instances or not, [copyFile] completes: it returns or throws. *)
Lemma ensureParentExists_completes `{Host} (dest : string) (w : World) :
  fst (ensureParentExists dest w) <> Unfinished.
Proof.
  unfold ensureParentExists.
  destruct (_ || _); [discriminate|].
  set (parentPath := if _ <=? 0 then _ else _).
  destruct (String.eqb parentPath "/"); [discriminate|].
  unfold try_catch, bind at 1. unfold stat. rewrite call_unfold.
  destruct (stat_cases parentPath
              (table_of w (getInstance parentPath)))
    as [E|(row & s & _ & _ & E)]; rewrite E; cbn [fst snd];
    [|discriminate].
  unfold bind, mkdir. rewrite call_at_now_unfold.
  match goal with
  | |- context [DOFS.mkdir ?now ?p ?o ?t] =>
      pose proof (mkdir_completes now p o t) as Hdone;
      destruct (DOFS.mkdir now p o t) as [[first| |] t1]
  end; cbn [fst snd] in *; [discriminate|discriminate|destruct (Hdone eq_refl)].
Qed.

Lemma copyFile_completes `{Host} (src dest : string) (mode : Z) (w : World) :
  fst (copyFile src dest mode w) <> Unfinished.
Proof.
  unfold copyFile. destruct (same_stub _ _).
  - rewrite call_at_now_unfold. cbn [fst].
    unfold DOFS.copyFile, bind at 1. unfold select_path at 1.
    destruct (row_at src _) as [srcFile|]; [|discriminate].
    destruct (negb _); [discriminate|].
    unfold bind.
    match goal with
    | |- context [DOFS.require_directory ?p ?m ?t] =>
        destruct (require_directory_cases p m t) as [E|E]; rewrite E
    end; discriminate.
  - unfold copyFile_across, bind at 1.
    pose proof (ensureParentExists_completes dest w) as Hdone.
    destruct (ensureParentExists dest w) as [[[]| |] w1]; cbn [fst] in *;
      [|discriminate|destruct (Hdone eq_refl)].
    unfold bind at 1. rewrite call_at_now_unfold.
    pose proof (readFileBuffer_cases (Date_now (clock_reads w1)) src
                  (table_of w1 (getInstance src))) as Hread.
    destruct (row_at src (table_of w1 (getInstance src))) as [row|];
      [destruct (EntryType_eqb (File.type row) file)|];
      rewrite Hread; cbn [fst snd]; try discriminate.
    unfold bind at 1. rewrite call_unfold.
    match goal with
    | |- context [DOFS.stat ?p ?t] =>
        destruct (stat_cases p t) as [E|(row' & s & _ & _ & E)]; rewrite E
    end; cbn [fst snd]; [discriminate|].
    rewrite call_at_now_unfold. cbn [fst].
    match goal with
    | |- context [DOFS.writeFileBuffer ?now ?p ?d ?o ?t] =>
        destruct (writeFileBuffer_cases now p d o t) as [E'|E']; rewrite E'
    end; discriminate.
Qed.

(** ** Directory rows: every method but [writeFile] onto a directory
    keeps them without content *)

Section Invariant.
Context `{Host}.

Lemma keeps_ret {A : Type} (a : A) : keeps_directories_empty (ret a).
Proof. intros t Ht. exact Ht. Qed.

Lemma keeps_throw {A : Type} (e : string) :
  keeps_directories_empty (throw (A := A) e).
Proof. intros t Ht. exact Ht. Qed.

Lemma keeps_unfinished {A : Type} :
  keeps_directories_empty (unfinished (A := A)).
Proof. intros t Ht. exact Ht. Qed.

Lemma keeps_bind {A B : Type} (m : Eff Table A) (k : A -> Eff Table B) :
  keeps_directories_empty m ->
  (forall a, keeps_directories_empty (k a)) ->
  keeps_directories_empty (bind m k).
Proof.
  intros Hm Hk t Ht. unfold bind. specialize (Hm t Ht).
  destruct (m t) as [[a| |] t1]; cbn [snd] in *; [apply Hk|..]; exact Hm.
Qed.

Lemma keeps_for_each {A : Type} (xs : list A) (body : A -> Eff Table unit) :
  (forall x, keeps_directories_empty (body x)) ->
  keeps_directories_empty (for_each xs body).
Proof.
  intros Hbody. induction xs as [|x xs IH]; cbn [for_each].
  - apply keeps_ret.
  - apply keeps_bind; [apply Hbody|intros _; exact IH].
Qed.

Lemma keeps_select_path (p : string) : keeps_directories_empty (select_path p).
Proof. intros t Ht. exact Ht. Qed.

Lemma keeps_select_parent (p : string) :
  keeps_directories_empty (select_parent p).
Proof. intros t Ht. exact Ht. Qed.

Lemma keeps_select_like (limit : nat) (p : string) :
  keeps_directories_empty (select_like limit p).
Proof.
  intros t Ht. unfold select_like. destruct (like_fails limit p t); exact Ht.
Qed.

Lemma keeps_count_parent (p : string) :
  keeps_directories_empty (count_parent p).
Proof. intros t Ht. exact Ht. Qed.

Lemma keeps_insert (row : File.t) :
  directory_row_ok row -> keeps_directories_empty (insert row).
Proof.
  intros Hrow t Ht. destruct (insert_appends row t) as [E|E]; rewrite E.
  - exact Ht.
  - apply List.Forall_app. split; [exact Ht|].
    constructor; [exact Hrow|constructor].
Qed.

Lemma directories_empty_filter (keep : File.t -> bool) (t : Table) :
  directories_empty t -> directories_empty (List.filter keep t).
Proof.
  unfold directories_empty. rewrite !List.Forall_forall.
  intros Ht r Hr. apply List.filter_In in Hr as [Hr _]. auto.
Qed.

Lemma directories_empty_map (f : File.t -> File.t) (t : Table) :
  (forall r, directory_row_ok r -> directory_row_ok (f r)) ->
  directories_empty t -> directories_empty (List.map f t).
Proof.
  intros Hf Ht. unfold directories_empty in *. rewrite List.Forall_map.
  revert Ht. apply List.Forall_impl. exact Hf.
Qed.

Lemma keeps_insert_or_replace (row : File.t) :
  directory_row_ok row -> keeps_directories_empty (insert_or_replace row).
Proof.
  intros Hrow t Ht. unfold insert_or_replace. cbn [snd].
  apply List.Forall_app. split.
  - apply directories_empty_filter. exact Ht.
  - constructor; [exact Hrow|constructor].
Qed.

Lemma keeps_update_where_path (p : string) (set : File.t -> File.t) :
  (forall r, has_path p r = true -> directory_row_ok r ->
     directory_row_ok (set r)) ->
  keeps_directories_empty (update_where_path p set).
Proof.
  intros Hset t Ht. unfold update_where_path. cbn [snd].
  apply directories_empty_map; [|exact Ht].
  intros r Hr.
  destruct (has_path p r) eqn:Hp; [apply Hset; assumption|exact Hr].
Qed.

Lemma keeps_update_path_where_path (p : string) (set : File.t -> File.t) :
  (forall r, directory_row_ok r -> directory_row_ok (set r)) ->
  keeps_directories_empty (update_path_where_path p set).
Proof.
  intros Hset t Ht. unfold update_path_where_path.
  destruct (row_at p t) as [row|]; [|exact Ht].
  destruct (_ && _); [exact Ht|]. cbn [snd].
  apply directories_empty_map; [|exact Ht].
  intros r Hr. destruct (has_path p r); [apply Hset|]; exact Hr.
Qed.

Lemma keeps_delete_where_path (p : string) :
  keeps_directories_empty (delete_where_path p).
Proof. intros t Ht. apply directories_empty_filter. exact Ht. Qed.

Lemma keeps_delete_like (limit : nat) (p : string) :
  keeps_directories_empty (delete_like limit p).
Proof.
  intros t Ht. unfold delete_like.
  destruct (like_fails limit p t); [exact Ht|].
  apply directories_empty_filter. exact Ht.
Qed.

Lemma keeps_require_directory (p : option string) (message : string) :
  keeps_directories_empty (DOFS.require_directory p message).
Proof.
  intros t Ht.
  destruct (require_directory_cases p message t) as [E|E]; rewrite E; exact Ht.
Qed.

Lemma file_row_ok (r : File.t) : File.type r = file -> directory_row_ok r.
Proof. intros Hfile Hdir. congruence. Qed.

Lemma keeps_mkdir (now_ms : Z) (p : string) (options : MkdirOptions) :
  keeps_directories_empty (DOFS.mkdir now_ms p options).
Proof.
  intros t Ht.
  destruct (mkdir_appends now_ms p options t) as (extra & E & Hextra).
  rewrite E. apply List.Forall_app. split; [exact Ht|].
  revert Hextra. apply List.Forall_impl. intros r (_ & Hc & Hs) _. auto.
Qed.

Lemma keeps_copyFile (now_ms : Z) (src dest : string) (mode : Z) :
  keeps_directories_empty (DOFS.copyFile now_ms src dest mode).
Proof.
  unfold DOFS.copyFile. apply keeps_bind; [apply keeps_select_path|].
  intros [srcFile|]; [|apply keeps_throw].
  destruct (negb _); [apply keeps_throw|].
  apply keeps_bind; [apply keeps_require_directory|]. intros _.
  apply keeps_insert_or_replace. apply file_row_ok. reflexivity.
Qed.

Lemma keeps_cp (fuel : nat) (now_ms : Z) (options : CopyOptions) :
  forall src dest : string,
    keeps_directories_empty (DOFS.cp fuel now_ms src dest options).
Proof.
  induction fuel as [|fuel IH]; intros src dest; cbn [DOFS.cp].
  - apply keeps_unfinished.
  - apply keeps_bind; [apply keeps_select_path|].
    intros [srcFile|]; [|apply keeps_throw].
    destruct (File.type srcFile); [apply keeps_copyFile|].
    destruct (negb _); [apply keeps_throw|].
    apply keeps_bind; [apply keeps_mkdir|]. intros _.
    apply keeps_bind; [apply keeps_select_parent|]. intros children.
    apply keeps_for_each. intros child. apply IH.
Qed.

Lemma keeps_rename (now_ms : Z) (oldPath newPath : string) :
  keeps_directories_empty (DOFS.rename now_ms oldPath newPath).
Proof.
  unfold DOFS.rename. apply keeps_bind; [apply keeps_select_path|].
  intros [row|]; [|apply keeps_throw].
  apply keeps_bind; [apply keeps_require_directory|]. intros _.
  apply keeps_bind.
  { apply keeps_update_path_where_path. intros r Hr. exact Hr. }
  intros _. destruct (File.type row); [apply keeps_ret|].
  apply keeps_bind; [apply keeps_select_like|]. intros children.
  apply keeps_for_each. intros child.
  apply keeps_update_path_where_path. intros r Hr. exact Hr.
Qed.

Lemma keeps_rm (p : string) (options : RmOptions) :
  keeps_directories_empty (DOFS.rm p options).
Proof.
  unfold DOFS.rm. apply keeps_bind; [apply keeps_select_path|].
  intros [row|];
    [|destruct (rm_force options); [apply keeps_ret|apply keeps_throw]].
  apply keeps_bind; [|intros _; apply keeps_delete_where_path].
  destruct (File.type row); [apply keeps_ret|].
  destruct (negb _); [|apply keeps_delete_like].
  apply keeps_bind; [apply keeps_count_parent|].
  intros count. destruct (0 <? count); [apply keeps_throw|apply keeps_ret].
Qed.

Lemma keeps_readFile (now_ms : Z) (p : string) (options : ReadFileOptions) :
  keeps_directories_empty (DOFS.readFile now_ms p options).
Proof.
  unfold DOFS.readFile. apply keeps_bind.
  - unfold DOFS.readFileBuffer. apply keeps_bind; [apply keeps_select_path|].
    intros [row|]; [|apply keeps_throw].
    destruct (negb _); [apply keeps_throw|].
    apply keeps_bind; [|intros _; apply keeps_ret].
    apply keeps_update_where_path. intros r _ Hr. exact Hr.
  - intros buffer. destruct options as [|e|[e|]]; try apply keeps_ret;
      (destruct (String.eqb e ""); [apply keeps_ret|]);
      (destruct (TextDecoder_decode e buffer);
       [apply keeps_ret|apply keeps_throw]).
Qed.

(** [writeFile] keeps the invariant when no directory occupies the path. *)
Lemma keeps_writeFile (now_ms : Z) (p : string) (data : Data)
    (options : WriteFileOptions) (t : Table) :
  (forall r, List.In r t -> File.path r = DOFS.normalizePath p ->
             File.type r = file) ->
  directories_empty t ->
  directories_empty (snd (DOFS.writeFile now_ms p data options t)).
Proof.
  intros Hfree Ht.
  assert (forall bytes o,
            directories_empty
              (snd (DOFS.writeFileBuffer now_ms p (ArrayBuffer bytes) o t)))
    as Hbuffer.
  { intros bytes o.
    destruct (writeFileBuffer_cases now_ms p (ArrayBuffer bytes) o t)
      as [E|E]; rewrite E; cbn [snd]; [|exact Ht].
    unfold written. destruct (row_at (DOFS.normalizePath p) t).
    - unfold directories_empty in *. rewrite List.Forall_map.
      rewrite List.Forall_forall in *. intros r Hr.
      destruct (has_path (DOFS.normalizePath p) r) eqn:Hp; [|auto].
      apply has_path_true in Hp. apply file_row_ok.
      cbn [File.set_written File.type]. auto.
    - apply List.Forall_app. split; [exact Ht|].
      constructor; [apply file_row_ok; reflexivity|constructor]. }
  unfold DOFS.writeFile.
  destruct data as [text|[bytes|buffer off len]|]; [apply Hbuffer..|exact Ht].
Qed.

End Invariant.

(** ** Renaming a directory: where the loop over the children is right *)

Section PathFacts.
Local Open Scope nat_scope.

Lemma starts_with_app (a b s : string) :
  starts_with (a +:+ b) s
  = starts_with a s && starts_with b (drop (String.length a) s).
Proof.
  revert s. induction a as [|c a IH]; intros s; [reflexivity|].
  change (String c a +:+ b) with (String c (a +:+ b)).
  destruct s as [|d s]; [reflexivity|].
  cbn [starts_with String.length drop]. rewrite IH.
  destruct (Ascii.eqb c d); reflexivity.
Qed.

Lemma starts_with_split (a s : string) :
  starts_with a s = true -> s = a +:+ drop (String.length a) s.
Proof.
  revert s. induction a as [|c a IH]; intros s Hs; [reflexivity|].
  destruct s as [|d s]; [discriminate|].
  cbn [starts_with] in Hs. apply andb_true_iff in Hs as [Hc Hs].
  apply Ascii.eqb_eq in Hc. subst d.
  change (String c a +:+ drop (String.length (String c a)) (String c s))
    with (String c (a +:+ drop (String.length a) s)).
  f_equal. apply IH. exact Hs.
Qed.

Lemma starts_with_refl_app (a b : string) : starts_with a (a +:+ b) = true.
Proof.
  induction a as [|c a IH]; [reflexivity|].
  change (String c a +:+ b) with (String c (a +:+ b)).
  cbn [starts_with]. rewrite Ascii.eqb_refl. exact IH.
Qed.

Lemma drop_app (a b : string) : drop (String.length a) (a +:+ b) = b.
Proof. induction a as [|c a IH]; [destruct b; reflexivity|exact IH]. Qed.

Lemma app_length (a b : string) :
  String.length (a +:+ b) = String.length a + String.length b.
Proof.
  induction a as [|c a IH]; [reflexivity|].
  change (String c a +:+ b) with (String c (a +:+ b)).
  cbn [String.length]. rewrite IH. reflexivity.
Qed.

Lemma starts_with_length (a s : string) :
  starts_with a s = true -> String.length a <= String.length s.
Proof.
  intros Hs. rewrite (starts_with_split a s Hs), app_length. lia.
Qed.

Lemma app_inv_head (a b c : string) : a +:+ b = a +:+ c -> b = c.
Proof.
  induction a as [|x a IH]; [auto|].
  change (String x a +:+ b) with (String x (a +:+ b)).
  change (String x a +:+ c) with (String x (a +:+ c)).
  intros [= E]. auto.
Qed.

Lemma get_substitution_plain (matched before after template : string) :
  includes "$" template = false ->
  get_substitution matched before after template = template.
Proof.
  induction template as [|c template IH]; [reflexivity|].
  cbn [includes]. intros Hc. apply orb_false_iff in Hc as [Hc Ht].
  cbn [get_substitution]. rewrite Hc. f_equal. apply IH. exact Ht.
Qed.

Lemma replace_prefix (p old new : string) :
  starts_with old p = true ->
  includes "$" new = false ->
  replace p old new = new +:+ drop (String.length old) p.
Proof.
  intros Hp Hnew. unfold replace.
  destruct p as [|c p]; cbn [replace_from]; rewrite Hp;
    rewrite get_substitution_plain by exact Hnew; reflexivity.
Qed.

Lemma like_chars_percent_unfold (pattern subject : list N) :
  like_chars (37%N :: pattern) subject
  = like_chars pattern subject
    || match subject with
       | [] => false
       | _ :: rest => like_chars (37%N :: pattern) rest
       end.
Proof. destruct subject; reflexivity. Qed.

Lemma like_chars_percent (subject : list N) : like_chars [37%N] subject = true.
Proof.
  induction subject as [|c subject IH]; [reflexivity|].
  rewrite like_chars_percent_unfold. rewrite IH. apply orb_true_r.
Qed.

Lemma like_char_refl (c : N) : like_char c c = true.
Proof. unfold like_char. apply N.eqb_refl. Qed.

Lemma like_chars_cons (c : N) (pattern subject : list N) :
  like_chars pattern subject = true ->
  like_chars (c :: pattern) (c :: subject) = true.
Proof.
  intros Hl.
  destruct (N.eqb_spec c 37) as [->|Hpercent].
  - rewrite like_chars_percent_unfold.
    destruct subject as [|d subject].
    + rewrite like_chars_percent_unfold. rewrite Hl. apply orb_true_r.
    + rewrite (like_chars_percent_unfold pattern (d :: subject)).
      rewrite Hl. cbn [orb]. apply orb_true_r.
  - cbn [like_chars]. apply N.eqb_neq in Hpercent. rewrite Hpercent.
    destruct (c =? 95)%N; [exact Hl|].
    rewrite like_char_refl. exact Hl.
Qed.

Lemma like_chars_app (prefix pattern subject : list N) :
  like_chars pattern subject = true ->
  like_chars (prefix ++ pattern) (prefix ++ subject) = true.
Proof.
  intros Hl. induction prefix as [|c prefix IH]; [exact Hl|].
  cbn [List.app]. apply like_chars_cons. exact IH.
Qed.

Lemma like_chars_refl (chars : list N) : like_chars chars chars = true.
Proof.
  rewrite <- (List.app_nil_r chars). apply like_chars_app. reflexivity.
Qed.

(** The characters of a text that goes on: those of the first part, and
    then those of the rest, read from where the first part ends, unless
    the first part holds a zero byte. *)
Lemma utf8_chars_from_app (a : string) :
  forall pending,
    (exists prefix pending',
       forall tail,
         utf8_chars_from pending (a +:+ tail)
         = (prefix ++ utf8_chars_from pending' tail)%list)
    \/ (exists prefix,
         forall tail, utf8_chars_from pending (a +:+ tail) = prefix).
Proof.
  induction a as [|byte a IH]; intros pending.
  - left. exists [], pending. reflexivity.
  - assert (forall (front : list N) (next : option N),
      (exists prefix pending',
         forall tail,
           (front ++ utf8_chars_from next (a +:+ tail))%list
           = (prefix ++ utf8_chars_from pending' tail)%list)
      \/ (exists prefix,
           forall tail,
             (front ++ utf8_chars_from next (a +:+ tail))%list = prefix))
      as Hnext.
    { intros front next.
      destruct (IH next) as [(prefix & pending' & E)|(prefix & E)].
      - left. exists (front ++ prefix)%list, pending'. intros tail.
        rewrite E. apply List.app_assoc.
      - right. exists (front ++ prefix)%list. intros tail.
        rewrite E. reflexivity. }
    change (String byte a +:+ ?tail) with (String byte (a +:+ tail)).
    cbn [utf8_chars_from]. cbv zeta.
    destruct pending as [c|].
    + destruct (is_continuation (N_of_ascii byte)).
      * apply (Hnext []).
      * destruct (N_of_ascii byte =? 0)%N.
        -- right. exists [utf8_close c]. reflexivity.
        -- destruct (N_of_ascii byte <? 192)%N.
           ++ apply (Hnext [utf8_close c; N_of_ascii byte]).
           ++ apply (Hnext [utf8_close c]).
    + destruct (N_of_ascii byte =? 0)%N.
      * right. exists []. reflexivity.
      * destruct (N_of_ascii byte <? 192)%N.
        -- apply (Hnext [N_of_ascii byte]).
        -- apply (Hnext []).
Qed.

Lemma like_below (old p : string) :
  starts_with (old +:+ "/") p = true -> like (old +:+ "/%") p = true.
Proof.
  intros Hp. apply starts_with_split in Hp. rewrite Hp.
  generalize (drop (String.length (old +:+ "/")) p). intros rest.
  unfold like, utf8_chars.
  replace ((old +:+ "/") +:+ rest) with (old +:+ String "/" rest).
  2:{ clear. induction old as [|c old IH]; [reflexivity|].
      change (String c old +:+ ?x) with (String c (old +:+ x)).
      rewrite IH. reflexivity. }
  destruct (utf8_chars_from_app old None)
    as [(prefix & pending' & E)|(prefix & E)]; rewrite !E.
  - apply like_chars_app.
    destruct pending' as [c|]; cbn; repeat apply like_chars_cons;
      apply like_chars_percent.
  - apply like_chars_refl.
Qed.

Lemma not_below_self (s : string) : starts_with (s +:+ "/") s = false.
Proof.
  destruct (starts_with (s +:+ "/") s) eqn:E; [|reflexivity].
  apply starts_with_length in E. rewrite app_length in E.
  cbn [String.length] in E. lia.
Qed.

End PathFacts.

Lemma existsb_has_path (p : string) (rows : list File.t) :
  List.existsb (has_path p) rows = false <-> ~ List.In p (paths rows).
Proof.
  unfold paths. induction rows as [|r rows IH]; cbn; [tauto|].
  rewrite orb_false_iff, IH. unfold has_path.
  rewrite String.eqb_neq. tauto.
Qed.

Lemma has_path_sym (a b : File.t) :
  has_path (File.path a) b = has_path (File.path b) a.
Proof. unfold has_path. apply String.eqb_sym. Qed.

Section MoveLoop.
Variable target : string -> string.
Variable parent : string -> option string.

Lemma move_loop :
  forall (children : list File.t) (t : Table),
    (forall c, List.In c children ->
               ~ List.In (target (File.path c)) (paths t)) ->
    (forall c, List.In c children ->
               ~ List.In (target (File.path c)) (paths children)) ->
    List.NoDup (List.map (fun c => target (File.path c)) children) ->
    for_each children (fun child =>
      update_path_where_path (File.path child)
        (File.set_moved (target (File.path child))
           (parent (target (File.path child))))) t
    = (Returned tt,
       List.map (fun r =>
         if List.existsb (has_path (File.path r)) children
         then move target parent r
         else r) t).
Proof.
  induction children as [|c children IH]; intros t Hfresh Hapart Hdistinct.
  - cbn [for_each List.existsb]. unfold ret. f_equal.
    symmetry. apply List.map_id.
  - cbn [for_each]. unfold bind, update_path_where_path.
    assert (List.existsb (has_path (target (File.path c))) t = false) as Hc.
    { apply existsb_has_path. apply Hfresh. left. reflexivity. }
    assert (List.existsb (has_path (target (File.path c))) children = false)
      as Hc'.
    { apply existsb_has_path. intros Hin.
      apply (Hapart c (or_introl eq_refl)). right. exact Hin. }
    apply List.NoDup_cons_iff in Hdistinct as [Hnew Hdistinct].
    destruct (row_at (File.path c) t) as [row|] eqn:Hrow.
    + cbn [File.set_moved File.path]. rewrite Hc, andb_false_r.
      rewrite IH.
      * f_equal. rewrite List.map_map. apply List.map_ext. intros r.
        cbn [List.existsb]. rewrite (has_path_sym r c).
        destruct (has_path (File.path c) r) eqn:Hr; [|reflexivity].
        cbn [orb File.set_moved File.path]. rewrite Hc'.
        apply has_path_true in Hr. unfold move. rewrite Hr. reflexivity.
      * intros c' Hc'in Hin. unfold paths in Hin.
        rewrite List.map_map in Hin. apply List.in_map_iff in Hin
          as (r & Hr & Hrin).
        destruct (has_path (File.path c) r).
        -- cbn [File.set_moved File.path] in Hr. apply Hnew.
           rewrite Hr. apply (List.in_map (fun c => target (File.path c))).
           exact Hc'in.
        -- apply (Hfresh c' (or_intror Hc'in)). rewrite <- Hr.
           apply List.in_map. exact Hrin.
      * intros c' Hc'in Hin. apply (Hapart c' (or_intror Hc'in)).
        right. exact Hin.
      * exact Hdistinct.
    + rewrite IH.
      * f_equal. apply List.map_ext_in. intros r Hr.
        cbn [List.existsb]. rewrite (has_path_sym r c).
        assert (has_path (File.path c) r = false) as Hno.
        { destruct (has_path (File.path c) r) eqn:E; [|reflexivity].
          unfold row_at in Hrow.
          pose proof (List.find_none _ _ Hrow r Hr). congruence. }
        rewrite Hno. reflexivity.
      * intros c' Hc'in. apply Hfresh. right. exact Hc'in.
      * intros c' Hc'in Hin. apply (Hapart c' (or_intror Hc'in)).
        right. exact Hin.
      * exact Hdistinct.
Qed.

End MoveLoop.

Section RenamePlain.
Variables (old new : string) (now : Z) (t : Table).
Hypothesis Hunique : List.NoDup (paths t).
Hypothesis Hplain : includes "$" new = false.
Hypothesis Hlike : forall p, List.In p (paths t) ->
  like (old +:+ "/%") p = true -> starts_with (old +:+ "/") p = true.
Hypothesis Hnew : like (old +:+ "/%") new = false.
Hypothesis Hfresh : forall p, List.In p (paths t) ->
  p <> new /\ starts_with (new +:+ "/") p = false.

Local Abbreviation renamed :=
  (File.set_renamed new (DOFS.getParentPath new) (DOFS.getFileName new) now).
Local Abbreviation first_update :=
  (fun r => if has_path old r then renamed r else r).
Local Abbreviation selected :=
  (fun row : File.t => like (old +:+ "/%") (File.path row)).
Local Abbreviation below :=
  (fun row : File.t => starts_with (old +:+ "/") (File.path row)).

Lemma selected_is_below (r : File.t) :
  List.In r t -> selected r = below r.
Proof.
  intros Hr. destruct (below r) eqn:Hb.
  - apply like_below. exact Hb.
  - destruct (selected r) eqn:Hs; [|reflexivity].
    rewrite <- Hb. symmetry.
    apply Hlike; [apply List.in_map; exact Hr|exact Hs].
Qed.

Lemma children_are_below :
  List.filter selected (List.map first_update t) = List.filter below t.
Proof.
  assert (forall rows, (forall r, List.In r rows -> List.In r t) ->
            List.filter selected (List.map first_update rows)
            = List.filter below rows) as Hgen.
  { induction rows as [|r rows IH]; intros Hsub; [reflexivity|].
    cbn [List.map List.filter].
    rewrite IH by (intros r' Hr'; apply Hsub; right; exact Hr').
    destruct (has_path old r) eqn:Hold.
    - cbn [File.set_renamed File.path]. rewrite Hnew.
      apply has_path_true in Hold. rewrite Hold, not_below_self. reflexivity.
    - rewrite selected_is_below by (apply Hsub; left; reflexivity).
      reflexivity. }
  apply Hgen. auto.
Qed.

Lemma child_facts (c : File.t) :
  List.In c (List.filter below t) ->
  List.In c t /\ below c = true /\
  replace (File.path c) old new
  = new +:+ drop (String.length old) (File.path c) /\
  starts_with (new +:+ "/") (replace (File.path c) old new) = true.
Proof.
  intros Hc. apply List.filter_In in Hc as [Hin Hb].
  split; [exact Hin|]. split; [exact Hb|].
  cbn beta in Hb. rewrite starts_with_app in Hb.
  apply andb_true_iff in Hb as [Hprefix Hslash].
  rewrite replace_prefix by assumption. split; [reflexivity|].
  rewrite starts_with_app, starts_with_refl_app, drop_app. exact Hslash.
Qed.

Lemma target_not_in_table (c : File.t) :
  List.In c (List.filter below t) ->
  ~ List.In (replace (File.path c) old new)
      (paths (List.map first_update t)).
Proof.
  intros Hc Hin. destruct (child_facts c Hc) as (_ & _ & Hrep & Hstart).
  unfold paths in Hin. rewrite List.map_map in Hin.
  apply List.in_map_iff in Hin as (r & Hr & Hrin).
  destruct (has_path old r).
  - cbn [File.set_renamed File.path] in Hr. rewrite <- Hr in Hstart.
    rewrite not_below_self in Hstart. discriminate.
  - destruct (Hfresh (File.path r) (List.in_map _ _ _ Hrin)) as [_ Hno].
    rewrite Hr in Hno. congruence.
Qed.

Lemma filter_paths_NoDup (keep : File.t -> bool) (rows : list File.t) :
  List.NoDup (paths rows) -> List.NoDup (paths (List.filter keep rows)).
Proof.
  unfold paths. induction rows as [|r rows IH]; [auto|].
  cbn [List.map List.filter]. intros Hnd.
  apply List.NoDup_cons_iff in Hnd as [Hr Hnd].
  destruct (keep r); [|auto].
  cbn [List.map]. constructor; [|auto].
  intros Hin. apply Hr. apply List.in_map_iff in Hin as (r' & E & Hin).
  apply List.filter_In in Hin as [Hin _].
  rewrite <- E. apply List.in_map. exact Hin.
Qed.

Lemma targets_distinct :
  List.NoDup
    (List.map (fun c => replace (File.path c) old new)
       (List.filter below t)).
Proof.
  pose proof (filter_paths_NoDup below t Hunique) as Hnd.
  assert (forall c, List.In c (List.filter below t) ->
            replace (File.path c) old new
            = new +:+ drop (String.length old) (File.path c) /\
            File.path c = old +:+ drop (String.length old) (File.path c))
    as Hshape.
  { intros c Hc. destruct (child_facts c Hc) as (_ & Hb & Hrep & _).
    split; [exact Hrep|]. apply starts_with_split.
    cbn beta in Hb. rewrite starts_with_app in Hb.
    apply andb_true_iff in Hb as [Hb _]. exact Hb. }
  revert Hnd Hshape. generalize (List.filter below t).
  unfold paths. induction l as [|c l IH]; intros Hnd Hshape; [constructor|].
  cbn [List.map] in *. apply List.NoDup_cons_iff in Hnd as [Hc Hnd].
  constructor.
  - intros Hin. apply Hc. apply List.in_map_iff in Hin as (c' & E & Hc').
    destruct (Hshape c (or_introl eq_refl)) as [E1 E2].
    destruct (Hshape c' (or_intror Hc')) as [E1' E2'].
    rewrite E1, E1' in E. apply app_inv_head in E.
    rewrite E2, <- E, <- E2'. apply List.in_map. exact Hc'.
  - apply IH; [exact Hnd|]. intros c' Hc'. apply Hshape. right. exact Hc'.
Qed.

Lemma rename_loop :
  for_each (List.filter selected (List.map first_update t)) (fun child =>
    update_path_where_path (File.path child)
      (File.set_moved (replace (File.path child) old new)
         (DOFS.getParentPath (replace (File.path child) old new))))
    (List.map first_update t)
  = (Returned tt, List.map (rename_row old new now) t).
Proof.
  rewrite children_are_below.
  rewrite (move_loop (fun p => replace p old new) DOFS.getParentPath).
  - f_equal. rewrite List.map_map. apply List.map_ext_in. intros r Hr.
    unfold rename_row. destruct (has_path old r) eqn:Hold.
    + cbn [File.set_renamed File.path].
      assert (List.existsb (has_path new) (List.filter below t) = false)
        as ->; [|reflexivity].
      apply existsb_has_path. intros Hin. unfold paths in Hin.
      apply List.in_map_iff in Hin as (c & E & Hc).
      apply List.filter_In in Hc as [Hc _].
      destruct (Hfresh (File.path c) (List.in_map _ _ _ Hc)) as [Hne _].
      congruence.
    + destruct (starts_with (old +:+ "/") (File.path r)) eqn:Hb.
      * assert (List.In r (List.filter below t)) as Hc
          by (apply List.filter_In; split; assumption).
        assert (List.existsb (has_path (File.path r)) (List.filter below t)
                = true) as ->.
        { apply List.existsb_exists. exists r. split; [exact Hc|].
          apply has_path_true. reflexivity. }
        unfold move. destruct (child_facts r Hc) as (_ & _ & -> & _).
        reflexivity.
      * assert (List.existsb (has_path (File.path r)) (List.filter below t)
                = false) as ->; [|reflexivity].
        apply existsb_has_path. intros Hin. unfold paths in Hin.
        apply List.in_map_iff in Hin as (c & E & Hc).
        apply List.filter_In in Hc as [_ Hc]. cbn beta in Hc.
        rewrite E in Hc. congruence.
  - exact target_not_in_table.
  - intros c Hc Hin. apply (target_not_in_table c Hc).
    unfold paths in *. apply List.in_map_iff in Hin as (c' & E & Hc').
    apply List.filter_In in Hc' as [Hc' Hb'].
    rewrite <- E. rewrite List.map_map. apply List.in_map_iff.
    exists c'. split; [|exact Hc'].
    destruct (has_path old c') eqn:Hold; [|reflexivity].
    apply has_path_true in Hold. cbn beta in Hb'.
    rewrite Hold, not_below_self in Hb'. discriminate.
  - exact targets_distinct.
Qed.

End RenamePlain.

(** When the store accepts the pattern, the table holds no path that
    [LIKE] confuses with a path below the old one, the new path has no
    dollar and is free, with nothing below it, [rename] of a directory
    returns, and the table is the old one with every row rewritten by
    [rename_row]. *)
Lemma rename_directory_plain `{Host} (now_ms : Z) (oldPath newPath : string)
    (t : Table) (dir : File.t) :
  List.NoDup (paths t) ->
  row_at (DOFS.normalizePath oldPath) t = Some dir ->
  File.type dir = directory ->
  parent_resolves newPath t ->
  (String.length (DOFS.normalizePath oldPath +:+ "/%")
   <= like_pattern_limit)%nat ->
  includes "$" (DOFS.normalizePath newPath) = false ->
  (forall p, List.In p (paths t) ->
     like (DOFS.normalizePath oldPath +:+ "/%") p = true ->
     starts_with (DOFS.normalizePath oldPath +:+ "/") p = true) ->
  like (DOFS.normalizePath oldPath +:+ "/%") (DOFS.normalizePath newPath)
  = false ->
  (forall p, List.In p (paths t) ->
     p <> DOFS.normalizePath newPath /\
     starts_with (DOFS.normalizePath newPath +:+ "/") p = false) ->
  DOFS.rename now_ms oldPath newPath t
  = (Returned tt,
     List.map (rename_row (DOFS.normalizePath oldPath)
                 (DOFS.normalizePath newPath) (seconds now_ms)) t).
Proof.
  intros Hunique Hdir Htype Hparent Hlimit Hplain Hlike Hnew Hfresh.
  unfold DOFS.rename, bind at 1. unfold select_path at 1. rewrite Hdir.
  unfold bind at 1.
  rewrite (require_directory_resolves newPath _ t Hparent).
  unfold bind at 1. unfold update_path_where_path at 1. rewrite Hdir.
  cbn [File.set_renamed File.path].
  assert (List.existsb (has_path (DOFS.normalizePath newPath)) t = false)
    as ->.
  { apply existsb_has_path. intros Hin. destruct (Hfresh _ Hin) as [Hne _].
    apply Hne. reflexivity. }
  rewrite andb_false_r, Htype.
  unfold bind at 1. unfold select_like at 1. unfold like_fails.
  apply Nat.ltb_ge in Hlimit. rewrite Hlimit. cbn [andb].
  apply rename_loop; assumption.
Qed.

Lemma rename_row_below (old new : string) (now : Z) (r : File.t) :
  starts_with (old +:+ "/") (File.path r) = true ->
  File.path (rename_row old new now r)
  = new +:+ drop (String.length old) (File.path r) /\
  File.parent_path (rename_row old new now r)
  = DOFS.getParentPath (new +:+ drop (String.length old) (File.path r)) /\
  File.name (rename_row old new now r) = File.name r /\
  File.content (rename_row old new now r) = File.content r /\
  File.type (rename_row old new now r) = File.type r.
Proof.
  intros Hbelow. unfold rename_row.
  destruct (has_path old r) eqn:Hold.
  - apply has_path_true in Hold. rewrite Hold, not_below_self in Hbelow.
    discriminate.
  - rewrite Hbelow. repeat split.
Qed.

Lemma rename_row_outside (old new : string) (now : Z) (r : File.t) :
  File.path r <> old ->
  starts_with (old +:+ "/") (File.path r) = false ->
  rename_row old new now r = r.
Proof.
  intros Hne Hout. unfold rename_row.
  destruct (has_path old r) eqn:Hold.
  - apply has_path_true in Hold. contradiction.
  - rewrite Hout. reflexivity.
Qed.

(** The lemma at work: [rename("/data", "/archive")] on the table with
    "/data" and "/data/a.txt". *)
Lemma rename_directory_plain_example :
  DOFS.rename (H := plain_host) 9000 "/data" "/archive" data_table
  = (Returned tt, List.map (rename_row "/data" "/archive" 9) data_table) /\
  option_map File.name (row_at "/archive/a.txt"
    (List.map (rename_row "/data" "/archive" 9) data_table)) = Some "a.txt".
Proof.
  split; [|vm_compute; reflexivity].
  assert (paths data_table = ["/data"; "/data/a.txt"]) as Hpaths
    by (vm_compute; reflexivity).
  assert (exists dir, row_at (DOFS.normalizePath "/data") data_table
                      = Some dir /\ File.type dir = directory)
    as (dir & Hdir & Htype) by (eexists; split; vm_compute; reflexivity).
  apply (rename_directory_plain (H := plain_host) 9000 "/data" "/archive"
           data_table dir).
  - rewrite Hpaths. repeat constructor; cbn; intuition discriminate.
  - exact Hdir.
  - exact Htype.
  - exact I.
  - vm_compute. lia.
  - reflexivity.
  - rewrite Hpaths. intros p [<-|[<-|[]]]; vm_compute; intuition.
  - reflexivity.
  - rewrite Hpaths. intros p [<-|[<-|[]]]; split;
      try discriminate; vm_compute; reflexivity.
Qed.

(** The parent of "/Users/bob" is "/Users", which belongs to the instance
    "default": that is where [ensureParentExists("/Users/bob")] creates it,
    not in the instance "bob" of the destination. *)
Lemma ensureParentExists_in_the_parents_instance :
  getInstanceName "/Users/bob" = "bob" /\
  table_of two_users "default" = [] /\
  exists w1 row,
    ensureParentExists (H := ticking_host) "/Users/bob" two_users
    = (Returned tt, w1) /\
    table_of w1 "default" = [row] /\
    File.path row = "/Users" /\
    File.type row = directory /\
    table_of w1 "bob" = table_of two_users "bob".
Proof.
  split; [reflexivity|]. split; [reflexivity|].
  do 2 eexists. split; [vm_compute; reflexivity|].
  split; [vm_compute; reflexivity|].
  split; [reflexivity|]. split; [reflexivity|]. vm_compute. reflexivity.
Qed.


(** ** The string operations on examples *)

Example normalizePath_examples :
  DOFS.normalizePath "/" = "/" /\
  DOFS.normalizePath "/a//b/" = "/a/b" /\
  DOFS.normalizePath "a/b///" = "a/b" /\
  DOFS.normalizePath "//" = "".
Proof. repeat split. Qed.

Example getParentPath_examples :
  DOFS.getParentPath "/" = None /\
  DOFS.getParentPath "/a" = Some "/" /\
  DOFS.getParentPath "/a/b/" = Some "/a" /\
  DOFS.getParentPath "a" = Some "/".
Proof. repeat split. Qed.

Example getFileName_examples :
  DOFS.getFileName "/" = "" /\
  DOFS.getFileName "/a/b.txt" = "b.txt" /\
  DOFS.getFileName "/a/b/" = "b".
Proof. repeat split. Qed.

Example getInstanceName_examples :
  getInstanceName "/Users/alice/x.txt" = "alice" /\
  getInstanceName "/Users/alice" = "alice" /\
  getInstanceName "/Users/" = "default" /\
  getInstanceName "/Users//x" = "default" /\
  getInstanceName "/tmp/x" = "default" /\
  getInstanceName "//Users/alice" = "default".
Proof. repeat split. Qed.

Example replace_examples :
  replace "/d/f" "/d" "/e" = "/e/f" /\
  replace "/d/f/d" "/d" "/e" = "/e/f/d" /\
  replace "/d/f" "/d" "/a$$" = "/a$/f" /\
  replace "xay" "a" "[$`|$&|$']" = "x[x|a|y]y" /\
  replace "xay" "a" "$1$" = "x$1$y" /\
  replace "xay" "b" "c" = "xay".
Proof. repeat split. Qed.

Example like_examples :
  like "/a/%" "/a/b" = true /\
  like "/a/%" "/a/" = true /\
  like "/a/%" "/a" = false /\
  like "/a/%" "/ab/c" = false /\
  like "/a/%" "/A/b" = true /\
  like "/a_b/%" "/axb/c" = true /\
  like "/a%/%" "/abc/d/e" = true.
Proof. repeat split. Qed.

(** LIKE reads characters, not bytes: [é] is two bytes, 0xC3 and 0xA9,
    and one character for [_]; only the letters of ASCII match
    regardless of case, and [É] is 0xC3 and 0x89. *)
Example like_reads_characters :
  String.length "é" = 2%nat /\
  utf8_chars "/aé" = [47; 97; 233]%N /\
  like "/a_/%" "/aé/x" = true /\
  like "/a__/%" "/aé/x" = false /\
  like "/é/%" "/É/x" = false /\
  like "/a_" "/aé" = true.
Proof. repeat split. Qed.

(** ** The normal form of paths *)

Section NormalForm.

Lemma strip_empty_iff (s : string) :
  strip_trailing_slashes s = "" <-> all_slashes s = true.
Proof.
  destruct s as [|c s]; [split; reflexivity|].
  cbn [strip_trailing_slashes].
  destruct (all_slashes (String c s)); split; intros; try reflexivity;
    discriminate.
Qed.

Lemma ends_with_slash_cons (c : ascii) (s : string) :
  ends_with_slash (String c s)
  = match s with EmptyString => is_slash c | _ => ends_with_slash s end.
Proof. destruct s; reflexivity. Qed.

Lemma has_double_slash_cons (c : ascii) (s : string) :
  has_double_slash (String c s)
  = (is_slash c && head_slash s) || has_double_slash s.
Proof. reflexivity. Qed.

Lemma strip_no_trailing_slash (s : string) :
  ends_with_slash (strip_trailing_slashes s) = false.
Proof.
  induction s as [|c s IH]; [reflexivity|].
  cbn [strip_trailing_slashes].
  destruct (all_slashes (String c s)) eqn:Hall; [reflexivity|].
  rewrite ends_with_slash_cons.
  destruct (strip_trailing_slashes s) as [|d s'] eqn:Hs; [|exact IH].
  apply strip_empty_iff in Hs.
  cbn [all_slashes] in Hall. rewrite Hs, andb_true_r in Hall. exact Hall.
Qed.

Lemma not_all_slashes (s : string) :
  s <> "" -> ends_with_slash s = false -> all_slashes s = false.
Proof.
  induction s as [|c s IH]; [congruence|]. intros _ Hend.
  rewrite ends_with_slash_cons in Hend. cbn [all_slashes].
  destruct s as [|d s].
  - rewrite Hend. reflexivity.
  - rewrite IH by (congruence || exact Hend). apply andb_false_r.
Qed.

Lemma strip_fixed (s : string) :
  ends_with_slash s = false -> strip_trailing_slashes s = s.
Proof.
  induction s as [|c s IH]; [reflexivity|]. intros Hend.
  cbn [strip_trailing_slashes].
  rewrite not_all_slashes by (congruence || exact Hend).
  f_equal. rewrite ends_with_slash_cons in Hend.
  destruct s as [|d s]; [reflexivity|]. apply IH. exact Hend.
Qed.

Lemma collapse_cons (c : ascii) (s : string) :
  collapse_slashes (String c s)
  = if is_slash c && head_slash s then collapse_slashes s
    else String c (collapse_slashes s).
Proof.
  destruct s as [|d s]; cbn [collapse_slashes head_slash];
    destruct (is_slash c); try destruct (is_slash d); reflexivity.
Qed.

Lemma collapse_head (s : string) :
  head_slash (collapse_slashes s) = head_slash s.
Proof.
  induction s as [|c s IH]; [reflexivity|].
  rewrite collapse_cons.
  cbn [head_slash].
  destruct (is_slash c) eqn:Hc; [|cbn [andb head_slash]; exact Hc].
  destruct (head_slash s) eqn:Hs; cbn [andb head_slash]; congruence.
Qed.

Lemma collapse_nonempty (c : ascii) (s : string) :
  collapse_slashes (String c s) <> "".
Proof.
  revert c. induction s as [|d s IH]; intros c; rewrite collapse_cons.
  - rewrite andb_false_r. discriminate.
  - destruct (is_slash c && head_slash (String d s)); [apply IH|discriminate].
Qed.

Lemma collapse_no_double_slash (s : string) :
  has_double_slash (collapse_slashes s) = false.
Proof.
  induction s as [|c s IH]; [reflexivity|].
  rewrite collapse_cons.
  destruct (is_slash c && head_slash s) eqn:Hcs; [exact IH|].
  cbn [has_double_slash]. rewrite collapse_head, Hcs, IH. reflexivity.
Qed.

Lemma collapse_fixed (s : string) :
  has_double_slash s = false -> collapse_slashes s = s.
Proof.
  induction s as [|c s IH]; [reflexivity|]. intros Hd.
  cbn [has_double_slash] in Hd. apply orb_false_iff in Hd as [Hcd Hd].
  rewrite collapse_cons, Hcd, IH by exact Hd. reflexivity.
Qed.

Lemma collapse_keeps_end (s : string) :
  ends_with_slash (collapse_slashes s) = ends_with_slash s.
Proof.
  induction s as [|c s IH]; [reflexivity|].
  rewrite collapse_cons.
  destruct (is_slash c && head_slash s) eqn:Hcs.
  - rewrite IH, ends_with_slash_cons.
    destruct s; [rewrite andb_false_r in Hcs; discriminate|reflexivity].
  - rewrite !ends_with_slash_cons, IH.
    destruct s as [|d s]; [reflexivity|].
    pose proof (collapse_nonempty d s).
    destruct (collapse_slashes (String d s)); [congruence|reflexivity].
Qed.

Lemma normalizePath_shape (p : string) :
  p <> "/" ->
  ends_with_slash (DOFS.normalizePath p) = false /\
  has_double_slash (DOFS.normalizePath p) = false.
Proof.
  intros Hp. unfold DOFS.normalizePath.
  apply String.eqb_neq in Hp. rewrite Hp. split.
  - rewrite collapse_keeps_end. apply strip_no_trailing_slash.
  - apply collapse_no_double_slash.
Qed.

Lemma normalizePath_fixed (n : string) :
  ends_with_slash n = false -> has_double_slash n = false ->
  DOFS.normalizePath n = n.
Proof.
  intros Hend Hdouble. unfold DOFS.normalizePath.
  destruct (String.eqb n "/") eqn:Hn.
  - apply String.eqb_eq in Hn. subst n. discriminate.
  - rewrite strip_fixed, collapse_fixed; auto.
Qed.

Lemma normalizePath_again (p : string) :
  DOFS.normalizePath (DOFS.normalizePath p) = DOFS.normalizePath p.
Proof.
  destruct (String.eqb p "/") eqn:Hp.
  - apply String.eqb_eq in Hp. subst p. reflexivity.
  - apply String.eqb_neq in Hp.
    destruct (normalizePath_shape p Hp). apply normalizePath_fixed; assumption.
Qed.

End NormalForm.

(** ** Parent and name of a path *)

Section Splitting.

Lemma lastIndexOf_absent (c : ascii) (s : string) :
  lastIndexOf c s < 0 -> includes c s = false.
Proof.
  induction s as [|d s IH]; [reflexivity|].
  cbn [lastIndexOf includes].
  destruct (0 <=? lastIndexOf c s) eqn:Hr; [lia|].
  apply Z.leb_gt in Hr.
  destruct (Ascii.eqb d c); [lia|]. intros _. apply IH. exact Hr.
Qed.

Lemma lastIndexOf_present (c : ascii) (s : string) :
  0 <= lastIndexOf c s ->
  s = take (Z.to_nat (lastIndexOf c s)) s
      +:+ String c (drop (S (Z.to_nat (lastIndexOf c s))) s)
  /\ includes c (drop (S (Z.to_nat (lastIndexOf c s))) s) = false.
Proof.
  induction s as [|d s IH]; cbn [lastIndexOf]; [lia|].
  destruct (0 <=? lastIndexOf c s) eqn:Hr.
  - apply Z.leb_le in Hr. intros _. destruct (IH Hr) as [Hs Hno].
    replace (Z.to_nat (lastIndexOf c s + 1))
      with (S (Z.to_nat (lastIndexOf c s))) by lia.
    cbn [take drop].
    change (String d ?a +:+ ?b) with (String d (a +:+ b)).
    split; [f_equal; exact Hs|exact Hno].
  - apply Z.leb_gt in Hr.
    destruct (Ascii.eqb d c) eqn:Hd; [|lia]. intros _.
    apply Ascii.eqb_eq in Hd. subst d. cbn [Z.to_nat take drop].
    split; [reflexivity|]. apply lastIndexOf_absent. exact Hr.
Qed.

Lemma substring_prefix (s : string) (k : Z) :
  0 < k < Z.of_nat (String.length s) ->
  substring s 0 k = take (Z.to_nat k) s.
Proof.
  intros Hk. unfold substring, clamp_index.
  change (Z.to_nat 0) with 0%nat. rewrite Nat.min_0_l.
  rewrite (Nat.min_l (Z.to_nat k)) by lia.
  rewrite Nat.max_0_l, Nat.min_0_l, Nat.sub_0_r. reflexivity.
Qed.

Lemma substring_from_suffix (s : string) (k : Z) :
  -1 <= k < Z.of_nat (String.length s) ->
  substring_from s (k + 1) = drop (Z.to_nat (k + 1)) s.
Proof.
  intros Hk. unfold substring_from, clamp_index.
  rewrite Nat.min_l by lia. reflexivity.
Qed.

Lemma no_double_slash_before (a b : string) :
  has_double_slash (a +:+ String "/" b) = false ->
  has_double_slash a = false /\ ends_with_slash a = false.
Proof.
  induction a as [|c a IH]; [split; reflexivity|].
  change (String c a +:+ ?x) with (String c (a +:+ x)).
  rewrite has_double_slash_cons. intros Hd.
  apply orb_false_iff in Hd as [Hc Hd]. destruct (IH Hd) as [IHd IHe].
  rewrite has_double_slash_cons, ends_with_slash_cons, IHd, orb_false_r.
  destruct a as [|d a].
  - cbn in Hc. rewrite andb_true_r in Hc. rewrite Hc. split; reflexivity.
  - split; [exact Hc|exact IHe].
Qed.

Lemma ends_with_slash_app (a b : string) :
  ends_with_slash (a +:+ String "/" b) = false -> b <> "".
Proof.
  intros He ->. induction a as [|c a IH]; [discriminate|].
  change (String c a +:+ ?x) with (String c (a +:+ x)) in He.
  rewrite ends_with_slash_cons in He.
  destruct (a +:+ "/") eqn:Ha; [destruct a; discriminate|]. auto.
Qed.

(** The three shapes of a normalized path other than the root: no slash,
    one leading slash, or a parent, a slash and a name. *)
Lemma normal_path_cases (n : string) :
  ends_with_slash n = false -> has_double_slash n = false ->
  includes "/" (DOFS.getFileName n) = false /\
  (DOFS.getParentPath n = Some "/" /\
     (n = "/" +:+ DOFS.getFileName n \/ n = DOFS.getFileName n)
   \/ exists q,
       DOFS.getParentPath n = Some q /\
       ends_with_slash q = false /\ has_double_slash q = false /\
       q <> "" /\ n = q +:+ "/" +:+ DOFS.getFileName n).
Proof.
  intros Hend Hdouble.
  unfold DOFS.getParentPath, DOFS.getFileName.
  rewrite (normalizePath_fixed n Hend Hdouble).
  destruct (String.eqb n "/") eqn:Hroot.
  { apply String.eqb_eq in Hroot. subst n. discriminate. }
  pose proof (lastIndexOf_bound "/" n) as Hbound.
  destruct (Z.ltb_spec (lastIndexOf "/" n) 0) as [Hneg|Hpos].
  - assert (lastIndexOf "/" n = -1) as Hminus.
    { clear -Hneg. induction n as [|d n IH]; [reflexivity|].
      cbn [lastIndexOf] in *.
      destruct (0 <=? lastIndexOf "/" n) eqn:Hr; [apply Z.leb_le in Hr; lia|].
      destruct (Ascii.eqb d "/"); [lia|reflexivity]. }
    rewrite Hminus. cbn [Z.leb Z.compare].
    unfold substring_from, clamp_index.
    change (Z.to_nat (-1 + 1)) with 0%nat. rewrite Nat.min_0_l.
    cbn [drop]. split; [apply lastIndexOf_absent; lia|]. left. tauto.
  - destruct (lastIndexOf_present "/" n Hpos) as [Hsplit Hname].
    rewrite substring_from_suffix by lia.
    replace (Z.to_nat (lastIndexOf "/" n + 1))
      with (S (Z.to_nat (lastIndexOf "/" n))) by lia.
    split; [exact Hname|].
    destruct (Z.leb_spec (lastIndexOf "/" n) 0) as [Hzero|Hmore].
    + left. split; [reflexivity|]. left.
      replace (lastIndexOf "/" n) with 0 in * by lia. exact Hsplit.
    + right. rewrite substring_prefix by lia.
      exists (take (Z.to_nat (lastIndexOf "/" n)) n).
      rewrite Hsplit in Hdouble.
      destruct (no_double_slash_before _ _ Hdouble) as [Hd He].
      repeat split; try assumption.
      * intros Hempty.
        assert (String.length (take (Z.to_nat (lastIndexOf "/" n)) n)
                = Z.to_nat (lastIndexOf "/" n)) as Hlen
          by (rewrite <- substring_prefix by lia;
              apply substring_prefix_length; lia).
        rewrite Hempty in Hlen. cbn in Hlen. lia.
Qed.

End Splitting.

Section PathTheorems.

Lemma collapse_empty (s : string) : collapse_slashes s = "" <-> s = "".
Proof.
  split; [|intros ->; reflexivity].
  destruct s as [|c s]; [reflexivity|]. intros Hc.
  destruct (collapse_nonempty c s Hc).
Qed.

Lemma getParentPath_normalized (p : string) :
  DOFS.getParentPath (DOFS.normalizePath p) = DOFS.getParentPath p.
Proof. unfold DOFS.getParentPath. rewrite normalizePath_again. reflexivity. Qed.

Lemma getFileName_normalized (p : string) :
  DOFS.getFileName (DOFS.normalizePath p) = DOFS.getFileName p.
Proof. unfold DOFS.getFileName. rewrite normalizePath_again. reflexivity. Qed.

Lemma normalizePath_root (p : string) :
  DOFS.normalizePath p = "/" <-> p = "/".
Proof.
  split; [|intros ->; reflexivity]. intros Hn.
  destruct (String.eqb_spec p "/") as [|Hp]; [assumption|].
  destruct (normalizePath_shape p Hp) as [Hend _].
  rewrite Hn in Hend. discriminate.
Qed.

Lemma strip_prefix_some (prefix s rest : string) :
  strip_prefix prefix s = Some rest -> s = prefix +:+ rest.
Proof.
  revert s. induction prefix as [|a prefix IH]; intros s; cbn [strip_prefix].
  - intros [= ->]. reflexivity.
  - destruct s as [|b s]; [discriminate|].
    destruct (Ascii.eqb a b) eqn:Hab; [|discriminate].
    apply Ascii.eqb_eq in Hab. subst b. intros Hs.
    change (String a prefix +:+ rest) with (String a (prefix +:+ rest)).
    f_equal. apply IH. exact Hs.
Qed.

Lemma segment_split (s : string) :
  includes "/" (segment s) = false /\
  exists rest, s = segment s +:+ rest /\
    (rest = "" \/ starts_with "/" rest = true).
Proof.
  induction s as [|c s (Hno & rest & Hs & Hrest)].
  - split; [reflexivity|]. exists "". split; [reflexivity|left; reflexivity].
  - cbn [segment]. destruct (is_slash c) eqn:Hc.
    + split; [reflexivity|]. exists (String c s). split; [reflexivity|].
      right. cbn [starts_with]. unfold is_slash in Hc.
      rewrite Ascii.eqb_sym, Hc. reflexivity.
    + split.
      * cbn [includes]. unfold is_slash in Hc. rewrite Hc. exact Hno.
      * exists rest. split; [|exact Hrest].
        change (String c ?a +:+ ?b) with (String c (a +:+ b)).
        f_equal. exact Hs.
Qed.

End PathTheorems.

(** X1: [normalizePath] yields a normal form.  Normalizing twice is
    normalizing once; the root stays, and only the root gives the root;
    any other result neither ends with a slash nor holds two slashes in
    a row. *)
Theorem normalizePath_normal_form (p : string) :
  DOFS.normalizePath (DOFS.normalizePath p) = DOFS.normalizePath p /\
  (DOFS.normalizePath p = "/" <-> p = "/") /\
  (p = "/" \/
   ends_with_slash (DOFS.normalizePath p) = false /\
   has_double_slash (DOFS.normalizePath p) = false).
Proof.
  split; [apply normalizePath_again|]. split; [apply normalizePath_root|].
  destruct (String.eqb_spec p "/") as [|Hp]; [left; assumption|].
  right. apply normalizePath_shape. exact Hp.
Qed.

(** X2: a path made of slashes only, other than the root itself, is
    normalized to the empty string and not to the root; no other path
    is. *)
Theorem normalizePath_empty (p : string) :
  DOFS.normalizePath p = "" <-> all_slashes p = true /\ p <> "/".
Proof.
  unfold DOFS.normalizePath. destruct (String.eqb_spec p "/") as [->|Hp].
  - split; [discriminate|]. intros [_ Hne]. congruence.
  - rewrite collapse_empty, strip_empty_iff. tauto.
Qed.

(** X3: parent and name split a path.  The root has no parent and the
    empty name.  Any other path has a name without a slash and either
    the parent [/], the normalized path being the name or a slash and the
    name, or a parent that is itself normalized, not empty and not the
    root, the normalized path being the parent, a slash and the name. *)
Theorem path_splits (p : string) :
  DOFS.normalizePath p = "/" /\
    DOFS.getParentPath p = None /\ DOFS.getFileName p = ""
  \/ DOFS.normalizePath p <> "/" /\
     includes "/" (DOFS.getFileName p) = false /\
     (DOFS.getParentPath p = Some "/" /\
        (DOFS.normalizePath p = "/" +:+ DOFS.getFileName p
         \/ DOFS.normalizePath p = DOFS.getFileName p)
      \/ exists q,
          DOFS.getParentPath p = Some q /\
          DOFS.normalizePath q = q /\ q <> "/" /\ q <> "" /\
          DOFS.normalizePath p = q +:+ "/" +:+ DOFS.getFileName p).
Proof.
  destruct (String.eqb_spec p "/") as [->|Hp]; [left; repeat split|].
  right. destruct (normalizePath_shape p Hp) as [Hend Hdouble].
  split; [rewrite normalizePath_root; exact Hp|].
  destruct (normal_path_cases _ Hend Hdouble) as [Hname Hcases].
  rewrite getFileName_normalized, getParentPath_normalized in *.
  split; [exact Hname|].
  destruct Hcases as [Hroot|(q & Hq & Hqend & Hqdouble & Hqne & Hsplit)];
    [left; exact Hroot|].
  right. exists q. repeat split; try assumption.
  - apply normalizePath_fixed; assumption.
  - intros ->. discriminate.
Qed.

(** X4: the instance of a path.  A name other than [default] is the
    instance of exactly the paths that start with [/Users/], the name,
    and then end or go on with a slash, the name being non-empty and
    free of slashes. *)
Theorem getInstanceName_characterised (p user : string) :
  user <> "default" ->
  (getInstanceName p = user <->
   user <> "" /\ includes "/" user = false /\
   exists rest, p = "/Users/" +:+ user +:+ rest /\
     (rest = "" \/ starts_with "/" rest = true)).
Proof.
  intros Hdefault. split.
  - unfold getInstanceName.
    destruct (strip_prefix "/Users/" p) as [tail|] eqn:Htail; [|congruence].
    destruct (String.eqb_spec (segment tail) "") as [|Hne]; [congruence|].
    intros <-. split; [exact Hne|].
    destruct (segment_split tail) as (Hno & rest & Hs & Hrest).
    split; [exact Hno|]. exists rest. split; [|exact Hrest].
    apply strip_prefix_some in Htail. rewrite Htail at 1. rewrite Hs at 1.
    reflexivity.
  - intros (Hne & Hno & rest & -> & Hrest).
    apply getInstanceName_user; [assumption|assumption|].
    destruct Hrest; [right|left]; assumption.
Qed.

Lemma getInstanceName_characterised_witness :
  "alice" <> "default" /\
  (getInstanceName "/Users/alice/x.txt" = "alice" <->
   "alice" <> "" /\ includes "/" "alice" = false /\
   exists rest, "/Users/alice/x.txt" = "/Users/" +:+ "alice" +:+ rest /\
     (rest = "" \/ starts_with "/" rest = true)).
Proof.
  split; [discriminate|].
  apply (getInstanceName_characterised "/Users/alice/x.txt" "alice").
  discriminate.
Defined.

(** ** Creating directories *)

Section Mkdir.
Variables (now_ms : Z) (options : MkdirOptions).

Lemma parent_present_app (t extra : Table) (r : File.t) :
  parent_present t r -> parent_present (t ++ extra)%list r.
Proof.
  unfold parent_present. destruct (below_root _) as [q|]; [|trivial].
  intros (d & Hd & Hdir). exists d. split; [|exact Hdir].
  apply row_at_app_some. exact Hd.
Qed.

Lemma row_at_fresh (p : string) (t : Table) :
  List.Forall (fun r => File.path r <> p) t -> row_at p t = None.
Proof.
  unfold row_at. induction 1 as [|r t Hr _ IH]; [reflexivity|].
  cbn [List.find]. unfold has_path at 1.
  destruct (String.eqb_spec (File.path r) p); [contradiction|exact IH].
Qed.

Lemma parent_is_normal (n q : string) :
  ends_with_slash n = false -> has_double_slash n = false ->
  below_root (DOFS.getParentPath n) = Some q ->
  DOFS.normalizePath q = q /\ q <> "" /\ n <> "".
Proof.
  intros Hend Hdouble Hq. apply below_root_some in Hq as [Hq Hroot].
  destruct (normal_path_cases n Hend Hdouble)
    as [_ [[Hp _]|(q' & Hp & Hqe & Hqd & Hne & Hsplit)]]; [congruence|].
  assert (q' = q) as -> by congruence.
  split; [apply normalizePath_fixed; assumption|]. split; [exact Hne|].
  intros ->. destruct q; discriminate.
Qed.

Lemma nearest_ancestor_within_any (t : Table) (fuel : nat) :
  forall (fuel' : nat) (n : string),
    (String.length n <= fuel)%nat -> (String.length n <= fuel')%nat ->
    nearest_ancestor_within fuel t n = nearest_ancestor_within fuel' t n.
Proof.
  induction fuel as [|fuel IH]; intros [|fuel'] n Hfuel Hfuel';
    cbn [nearest_ancestor_within]; try reflexivity;
    destruct (below_root (DOFS.getParentPath n)) as [q|] eqn:Hq;
    try reflexivity;
    apply getParentPath_shorter in Hq;
    pose proof (normalizePath_length n); try lia.
  destruct (row_at q t); [reflexivity|]. apply IH; lia.
Qed.

Lemma nearest_ancestor_step (t : Table) (n q : string) :
  below_root (DOFS.getParentPath n) = Some q ->
  nearest_ancestor t n
  = match row_at q t with
    | Some r => Some r
    | None => nearest_ancestor t q
    end.
Proof.
  intros Hq. unfold nearest_ancestor.
  pose proof (getParentPath_shorter n q Hq) as Hshorter.
  pose proof (normalizePath_length n) as Hlength.
  destruct (String.length n) as [|k] eqn:Hn; [lia|].
  cbn [nearest_ancestor_within]. rewrite Hq.
  destruct (row_at q t); [reflexivity|].
  apply nearest_ancestor_within_any; lia.
Qed.

(** What a call of [mkdir] does, by its outcome. *)
Lemma insert_made_directory (t : Table) (n : string)
    (first : option string) (extra : list File.t) :
  row_at n t = None ->
  List.Forall (fun r =>
    r = made_directory now_ms (File.path r) options /\
    row_at (File.path r) t = None /\
    parent_present (t ++ extra)%list r /\
    (String.length (File.path r) < String.length n)%nat /\
    File.path r <> "") extra ->
  parent_present (t ++ extra)%list (made_directory now_ms n options) ->
  match first, extra with
  | None, [] => True
  | Some f, head :: _ => f = File.path head /\ n <> ""
  | _, _ => False
  end ->
  bind (insert (made_directory now_ms n options))
    (fun _ => ret (Some (string_or first n))) (t ++ extra)%list
  = (Returned (Some (string_or first n)),
     (t ++ extra ++ [made_directory now_ms n options])%list) /\
  mkdir_created now_ms options t n (string_or first n)
    (t ++ extra ++ [made_directory now_ms n options])%list.
Proof.
  set (row := made_directory now_ms n options).
  intros Hfree Hextra Hrowparent Hfirst.
  assert (row_at n (t ++ extra)%list = None) as Hfree'.
  { rewrite row_at_app_none by exact Hfree. apply row_at_fresh.
    eapply List.Forall_impl; [|exact Hextra].
    cbn beta. intros r (_ & _ & _ & Hlen & _) Heq.
    rewrite Heq in Hlen. lia. }
  split.
  { unfold bind, insert. change (File.path row) with n.
    apply existsb_row_at in Hfree'. rewrite Hfree'. unfold ret.
    rewrite List.app_assoc. reflexivity. }
  assert (row_at n (t ++ extra ++ [row])%list = Some row) as Hthere.
  { rewrite List.app_assoc, row_at_app_none by exact Hfree'.
    unfold row_at. cbn [List.find]. unfold has_path.
    change (File.path row) with n. rewrite String.eqb_refl. reflexivity. }
  assert (List.Forall (fun r =>
    r = made_directory now_ms (File.path r) options /\
    row_at (File.path r) t = None /\
    parent_present (t ++ extra ++ [row])%list r /\
    (String.length (File.path r) <= String.length n)%nat /\
    (n <> "" -> File.path r <> "")) (extra ++ [row])%list) as Hall.
  { apply List.Forall_app. split.
    - eapply List.Forall_impl; [|exact Hextra]. cbn beta.
      intros r (Hshape & Hnew & Hpar & Hlen & Hne).
      split; [exact Hshape|]. split; [exact Hnew|].
      split; [rewrite List.app_assoc; apply parent_present_app; exact Hpar|].
      split; [lia|]. intros _. exact Hne.
    - constructor; [|constructor]. change (File.path row) with n.
      split; [reflexivity|]. split; [exact Hfree|].
      split; [rewrite List.app_assoc; apply parent_present_app;
              exact Hrowparent|].
      split; [lia|tauto]. }
  unfold mkdir_created. fold row.
  destruct first as [f|], extra as [|head rest]; try contradiction.
  - destruct Hfirst as [-> Hne].
    inversion Hextra as [|? ? (_ & _ & _ & _ & Hhead) _]; subst.
    exists head, (rest ++ [row])%list. cbn [List.app] in *.
    unfold string_or. destruct (String.eqb_spec (File.path head) "");
      [contradiction|].
    split; [reflexivity|]. split; [reflexivity|].
    split; [exact Hthere|exact Hall].
  - exists row, []. cbn [List.app] in *.
    split; [reflexivity|]. split; [reflexivity|].
    split; [exact Hthere|exact Hall].
Qed.

Lemma mkdir_within_spec (fuel : nat) :
  forall (p : string) (t : Table),
    (String.length (DOFS.normalizePath p) < fuel)%nat ->
    match DOFS.mkdir_within fuel now_ms p options t with
    | (Returned None, t') =>
        t' = t /\
        exists r, row_at (DOFS.normalizePath p) t = Some r /\
          File.type r = directory
    | (Returned (Some first), t') =>
        row_at (DOFS.normalizePath p) t = None /\
        mkdir_created now_ms options t (DOFS.normalizePath p) first t'
    | (Thrown message, t') =>
        t' = t /\ mkdir_refused options t (DOFS.normalizePath p) message
    | (Unfinished, _) => False
    end.
Proof.
  induction fuel as [|fuel IH]; intros p t Hfuel; [lia|].
  cbn [DOFS.mkdir_within]. unfold bind at 1. unfold select_path at 1.
  unfold mkdir_refused.
  destruct (row_at (DOFS.normalizePath p) t) as [existing|] eqn:Hfree.
  { destruct (EntryType_eqb (File.type existing) directory) eqn:Htype.
    - split; [reflexivity|]. exists existing.
      split; [reflexivity|apply EntryType_eqb_eq; exact Htype].
    - split; [reflexivity|]. left. split; [reflexivity|]. exists existing.
      split; [reflexivity|].
      destruct (File.type existing); [reflexivity|discriminate]. }
  set (n := DOFS.normalizePath p) in *.
  pose proof (nearest_ancestor_step t n) as Hstep.
  change (File.make n (DOFS.getParentPath n) (DOFS.getFileName n) directory
            None 0 (number_or (mkdir_mode options) 511) 0 0
            (seconds now_ms) (seconds now_ms) (seconds now_ms))
    with (made_directory now_ms n options).
  pose proof (insert_made_directory t n) as Hinsert.
  unfold bind at 1.
  destruct (below_root (DOFS.getParentPath n)) as [q|] eqn:Hq.
  - unfold bind at 1. unfold select_path at 1.
    destruct (row_at q t) as [parent|] eqn:Hparentrow.
    + destruct (EntryType_eqb (File.type parent) directory) eqn:Htype;
        cbn [negb].
      * destruct (Hinsert None []) as [E Hmade];
          [exact Hfree|constructor| |exact I|].
        { unfold parent_present. cbn [made_directory File.parent_path].
          rewrite Hq. exists parent. rewrite List.app_nil_r.
          split; [exact Hparentrow|apply EntryType_eqb_eq; exact Htype]. }
        rewrite List.app_nil_r in E. unfold ret at 1. rewrite E.
        split; [reflexivity|exact Hmade].
      * split; [reflexivity|]. right. right.
        split; [reflexivity|]. split; [reflexivity|]. exists q, parent.
        split; [reflexivity|].
        split; [rewrite (Hstep q eq_refl), Hparentrow; reflexivity|].
        split; [|intros _; exact Hparentrow].
        destruct (File.type parent); [reflexivity|discriminate].
    + destruct (mkdir_recursive options) eqn:Hrec.
      2:{ split; [reflexivity|]. right. left.
          split; [reflexivity|]. split; [reflexivity|].
          split; [reflexivity|]. exists q.
          split; [reflexivity|exact Hparentrow]. }
      assert (p <> "/") as Hp.
      { intros ->. discriminate. }
      destruct (normalizePath_shape p Hp) as [Hend Hdouble].
      fold n in Hend, Hdouble.
      destruct (parent_is_normal n q Hend Hdouble Hq)
        as (Hqfixed & Hqne & Hnne).
      assert (String.length q < String.length n)%nat as Hshorter.
      { apply getParentPath_shorter in Hq. unfold n in *.
        rewrite normalizePath_again in Hq. exact Hq. }
      assert (String.length (DOFS.normalizePath q) < fuel)%nat as Hfuel'.
      { rewrite Hqfixed. lia. }
      specialize (IH q t Hfuel'). rewrite Hqfixed in IH.
      destruct (DOFS.mkdir_within fuel now_ms q options t)
        as [[[first|]| |] t1].
      * destruct IH as (_ & head & rest & -> & -> & Hthere & Hall).
        destruct (Hinsert (Some (File.path head)) (head :: rest))
          as [E Hmade]; [exact Hfree| | |split; [reflexivity|exact Hnne]|].
        { eapply List.Forall_impl; [|exact Hall]. cbn beta.
          intros r (Hshape & Hnew & Hpar & Hlen & Hne).
          split; [exact Hshape|]. split; [exact Hnew|].
          split; [exact Hpar|]. split; [lia|]. apply Hne. exact Hqne. }
        { unfold parent_present. cbn [made_directory File.parent_path].
          rewrite Hq. eexists. split; [exact Hthere|reflexivity]. }
        rewrite E. split; [reflexivity|exact Hmade].
      * destruct IH as (_ & r & Hr & _). congruence.
      * destruct IH as (-> & [(_ & r & Hr & _)|[(_ & Hno & _)|
          (-> & _ & q' & r & _ & Hnear & Hfile & _)]]);
          [congruence|congruence|].
        split; [reflexivity|]. right. right.
        split; [reflexivity|]. split; [reflexivity|]. exists q, r.
        split; [reflexivity|].
        split; [rewrite (Hstep q eq_refl), Hparentrow; exact Hnear|].
        split; [exact Hfile|discriminate].
      * exact IH.
  - destruct (Hinsert None []) as [E Hmade];
      [exact Hfree|constructor| |exact I|].
    { unfold parent_present. cbn [made_directory File.parent_path].
      rewrite Hq. exact I. }
    rewrite List.app_nil_r in E. unfold ret at 1. rewrite E.
    split; [reflexivity|exact Hmade].
Qed.

End Mkdir.

Lemma mkdir_spec (now_ms : Z) (options : MkdirOptions) (p : string)
    (t : Table) :
  match DOFS.mkdir now_ms p options t with
  | (Returned None, t') =>
      t' = t /\
      exists r, row_at (DOFS.normalizePath p) t = Some r /\
        File.type r = directory
  | (Returned (Some first), t') =>
      row_at (DOFS.normalizePath p) t = None /\
      mkdir_created now_ms options t (DOFS.normalizePath p) first t'
  | (Thrown message, t') =>
      t' = t /\ mkdir_refused options t (DOFS.normalizePath p) message
  | (Unfinished, _) => False
  end.
Proof.
  apply mkdir_within_spec. pose proof (normalizePath_length p). lia.
Qed.

Lemma mkdir_existing (now_ms : Z) (options : MkdirOptions) (p : string)
    (t : Table) (r : File.t) :
  row_at (DOFS.normalizePath p) t = Some r -> File.type r = directory ->
  DOFS.mkdir now_ms p options t = (Returned None, t).
Proof.
  intros Hr Hdir. unfold DOFS.mkdir. cbn [DOFS.mkdir_within].
  unfold bind, select_path. rewrite Hr, Hdir. reflexivity.
Qed.

(** X5: a [mkdir] that throws has changed nothing, and throws one of
    three errors, each for its own reason.  [File exists and is not a
    directory]: a file holds the normalized path.  [Parent directory
    does not exist]: [recursive] is off, the path is free, and the
    parent, which is not the root, holds no row.  [Parent is not a
    directory]: the path is free and the nearest ancestor that holds a
    row is a file; without [recursive] that ancestor is the parent.  The
    primary key is never violated. *)
Theorem mkdir_throws_cleanly (now_ms : Z) (p : string)
    (options : MkdirOptions) (t : Table) (message : string) :
  fst (DOFS.mkdir now_ms p options t) = Thrown message ->
  snd (DOFS.mkdir now_ms p options t) = t /\
  (message = "File exists and is not a directory" /\
     (exists r, row_at (DOFS.normalizePath p) t = Some r /\
        File.type r = file)
   \/ message = "Parent directory does not exist" /\
      mkdir_recursive options = false /\
      row_at (DOFS.normalizePath p) t = None /\
      (exists q,
         below_root (DOFS.getParentPath (DOFS.normalizePath p)) = Some q /\
         row_at q t = None)
   \/ message = "Parent is not a directory" /\
      row_at (DOFS.normalizePath p) t = None /\
      (exists q r,
         below_root (DOFS.getParentPath (DOFS.normalizePath p)) = Some q /\
         nearest_ancestor t (DOFS.normalizePath p) = Some r /\
         File.type r = file /\
         (mkdir_recursive options = false -> row_at q t = Some r))).
Proof.
  pose proof (mkdir_spec now_ms options p t) as Hspec.
  destruct (DOFS.mkdir now_ms p options t) as [[result|thrown|] t'];
    cbn [fst snd]; intros [=]. subst thrown. exact Hspec.
Qed.

Lemma mkdir_throws_cleanly_witness :
  fst (DOFS.mkdir 1000 "/tmp/f/a/b" recursively tmp_table)
  = Thrown "Parent is not a directory" /\
  snd (DOFS.mkdir 1000 "/tmp/f/a/b" recursively tmp_table) = tmp_table /\
  row_at "/tmp/f/a/b" tmp_table = None /\
  exists q r,
    below_root (DOFS.getParentPath "/tmp/f/a/b") = Some q /\
    nearest_ancestor tmp_table "/tmp/f/a/b" = Some r /\
    File.path r = "/tmp/f" /\ File.type r = file.
Proof.
  split; [reflexivity|].
  destruct (mkdir_throws_cleanly 1000 "/tmp/f/a/b" recursively tmp_table
              "Parent is not a directory" eq_refl)
    as [Hsame [(Hmessage & _)|[(Hmessage & _)|
         (_ & Hfree & q & r & Hq & Hnear & Hfile & _)]]];
    [discriminate Hmessage|discriminate Hmessage|].
  split; [exact Hsame|]. split; [exact Hfree|]. exists q, r.
  split; [exact Hq|]. split; [exact Hnear|]. split; [|exact Hfile].
  vm_compute in Hnear. injection Hnear as <-. reflexivity.
Defined.

(** X6: a [mkdir] that returns.  It returns [undefined] exactly when it
    changed nothing, a directory holding the normalized path already.
    Otherwise the path was free and rows were appended: the row of the
    returned path first, the row of the normalized path among them, each
    a directory as [mkdir] makes it, on a path that was free, with a
    parent that is the root or a directory of the new table. *)
Theorem mkdir_returns (now_ms : Z) (p : string) (options : MkdirOptions)
    (t : Table) (result : option string) (t' : Table) :
  DOFS.mkdir now_ms p options t = (Returned result, t') ->
  match result with
  | None =>
      t' = t /\
      exists r, row_at (DOFS.normalizePath p) t = Some r /\
        File.type r = directory
  | Some first =>
      row_at (DOFS.normalizePath p) t = None /\
      exists head rest,
        t' = (t ++ head :: rest)%list /\
        first = File.path head /\
        row_at (DOFS.normalizePath p) t'
        = Some (made_directory now_ms (DOFS.normalizePath p) options) /\
        List.Forall (fun r =>
          r = made_directory now_ms (File.path r) options /\
          row_at (File.path r) t = None /\
          parent_present t' r) (head :: rest)
  end.
Proof.
  pose proof (mkdir_spec now_ms options p t) as Hspec. intros Hrun.
  rewrite Hrun in Hspec. destruct result as [first|]; [|exact Hspec].
  destruct Hspec as (Hfree & head & rest & Ht' & Hfirst & Hthere & Hall).
  split; [exact Hfree|]. exists head, rest.
  repeat (split; [assumption|]).
  eapply List.Forall_impl; [|exact Hall]. cbn beta. tauto.
Qed.

Lemma mkdir_returns_witness :
  DOFS.mkdir 1000 "/a//b/" recursively []
  = (Returned (Some "/a"),
     [made_directory 1000 "/a" recursively;
      made_directory 1000 "/a/b" recursively]) /\
  (row_at (DOFS.normalizePath "/a//b/") [] = None /\
   exists head rest,
     [made_directory 1000 "/a" recursively;
      made_directory 1000 "/a/b" recursively] = ([] ++ head :: rest)%list /\
     "/a" = File.path head /\
     row_at (DOFS.normalizePath "/a//b/")
       [made_directory 1000 "/a" recursively;
        made_directory 1000 "/a/b" recursively]
     = Some (made_directory 1000 (DOFS.normalizePath "/a//b/") recursively) /\
     List.Forall (fun r =>
       r = made_directory 1000 (File.path r) recursively /\
       row_at (File.path r) [] = None /\
       parent_present
         [made_directory 1000 "/a" recursively;
          made_directory 1000 "/a/b" recursively] r) (head :: rest)).
Proof.
  split; [reflexivity|].
  apply (mkdir_returns 1000 "/a//b/" recursively [] (Some "/a")).
  reflexivity.
Defined.

(** X7: [mkdir] is idempotent.  After a [mkdir] that returned, a second
    [mkdir] of the same path, at any time and with any options, returns
    [undefined] and changes nothing. *)
Theorem mkdir_twice (now_ms later_ms : Z) (p : string)
    (options options' : MkdirOptions) (t : Table) (result : option string)
    (t' : Table) :
  DOFS.mkdir now_ms p options t = (Returned result, t') ->
  DOFS.mkdir later_ms p options' t' = (Returned None, t').
Proof.
  pose proof (mkdir_spec now_ms options p t) as Hspec. intros Hrun.
  rewrite Hrun in Hspec. destruct result as [first|].
  - destruct Hspec as (_ & head & rest & _ & _ & Hthere & _).
    eapply mkdir_existing; [exact Hthere|reflexivity].
  - destruct Hspec as (-> & r & Hr & Hdir).
    eapply mkdir_existing; [exact Hr|exact Hdir].
Qed.

Lemma mkdir_twice_witness :
  DOFS.mkdir 1000 "/a/b" recursively []
  = (Returned (Some "/a"),
     [made_directory 1000 "/a" recursively;
      made_directory 1000 "/a/b" recursively]) /\
  DOFS.mkdir 2000 "/a/b/" plain_options
    [made_directory 1000 "/a" recursively;
     made_directory 1000 "/a/b" recursively]
  = (Returned None,
     [made_directory 1000 "/a" recursively;
      made_directory 1000 "/a/b" recursively]).
Proof.
  split; [reflexivity|].
  apply (mkdir_twice 1000 2000 "/a/b" recursively plain_options []
           (Some "/a")).
  reflexivity.
Defined.

(** ** Listing a directory *)

Section Readdir.

Local Abbreviation by_name :=
  (fun a b : File.t => String.leb (File.name a) (File.name b) = true).

Lemma insert_by_name_permutation (row : File.t) (rows : list File.t) :
  Permutation (insert_by_name row rows) (row :: rows).
Proof.
  induction rows as [|r rows IH]; cbn [insert_by_name]; [reflexivity|].
  destruct (String.leb (File.name row) (File.name r)); [reflexivity|].
  rewrite IH. apply perm_swap.
Qed.

Lemma order_by_name_permutation (rows : list File.t) :
  Permutation (order_by_name rows) rows.
Proof.
  unfold order_by_name.
  induction rows as [|r rows IH]; cbn [List.fold_right]; [reflexivity|].
  rewrite insert_by_name_permutation, IH. reflexivity.
Qed.

Lemma insert_by_name_sorted (row : File.t) (rows : list File.t) :
  Sorted by_name rows -> Sorted by_name (insert_by_name row rows).
Proof.
  induction 1 as [|r rows Hsorted IH Hhead]; cbn [insert_by_name].
  - repeat constructor.
  - destruct (String.leb (File.name row) (File.name r)) eqn:Hle.
    + repeat constructor; assumption.
    + constructor; [exact IH|].
      assert (String.leb (File.name r) (File.name row) = true) as Hge.
      { destruct (String.leb_total (File.name r) (File.name row));
          [assumption|congruence]. }
      destruct Hhead as [|s rows Hrs]; cbn [insert_by_name].
      * constructor. exact Hge.
      * destruct (String.leb (File.name row) (File.name s));
          constructor; assumption.
Qed.

Lemma order_by_name_sorted (rows : list File.t) :
  Sorted by_name (order_by_name rows).
Proof.
  unfold order_by_name.
  induction rows as [|r rows IH]; cbn [List.fold_right]; [constructor|].
  apply insert_by_name_sorted. exact IH.
Qed.

Lemma names_sorted (rows : list File.t) :
  Sorted by_name rows ->
  Sorted (fun a b : string => String.leb a b = true)
    (List.map File.name rows).
Proof.
  induction 1 as [|r rows Hsorted IH Hhead]; cbn [List.map];
    constructor; [exact IH|].
  destruct Hhead; cbn [List.map]; constructor. assumption.
Qed.

Lemma readdir_lists_children_of (p : string) (t : Table) (dir : File.t) :
  row_at (DOFS.normalizePath p) t = Some dir ->
  File.type dir = directory ->
  exists names,
    DOFS.readdir p {| withFileTypes := false |} t
    = (Returned (Names names), t) /\
    Permutation names
      (List.map File.name
         (List.filter (has_parent (DOFS.normalizePath p)) t)).
Proof.
  intros Hdir Htype.
  unfold DOFS.readdir, bind, select_path, select_parent.
  rewrite Hdir, Htype. cbn [EntryType_eqb negb withFileTypes ret].
  eexists. split; [reflexivity|].
  apply Permutation_map, order_by_name_permutation.
Qed.

End Readdir.

(** X8: [readdir] only reads.  Whatever it is given, the table stays as
    it is; it throws [Directory does not exist] exactly when no row holds
    the normalized path, and [Not a directory] exactly when a file holds
    it. *)
Theorem readdir_reads_only (p : string) (options : ReaddirOptions)
    (t : Table) :
  snd (DOFS.readdir p options t) = t /\
  (fst (DOFS.readdir p options t) = Thrown "Directory does not exist"
   <-> row_at (DOFS.normalizePath p) t = None) /\
  (fst (DOFS.readdir p options t) = Thrown "Not a directory"
   <-> exists r, row_at (DOFS.normalizePath p) t = Some r /\
         File.type r = file).
Proof.
  unfold DOFS.readdir, bind, select_path, select_parent.
  destruct (row_at (DOFS.normalizePath p) t) as [dir|].
  - destruct (File.type dir) eqn:Htype; cbn [EntryType_eqb negb].
    + split; [reflexivity|]. split; [split; discriminate|].
      split; [eauto|reflexivity].
    + destruct (withFileTypes options); cbn [fst snd ret];
        (split; [reflexivity|]; split; [split; discriminate|];
         split; [discriminate|]; intros (r & [= <-] & Hfile); congruence).
  - split; [reflexivity|]. split; [split; reflexivity|].
    split; [discriminate|]. intros (r & Hr & _). discriminate.
Qed.

(** X9: [readdir] of a directory lists its children in order.  The
    names are those of the rows whose parent is the normalized path, each
    row once, in ascending order of the names; with [withFileTypes] the
    entries carry the same names in the same order, each a file or a
    directory and none a symbolic link. *)
Theorem readdir_lists_children (p : string) (t : Table) (dir : File.t) :
  row_at (DOFS.normalizePath p) t = Some dir ->
  File.type dir = directory ->
  exists names entries,
    DOFS.readdir p {| withFileTypes := false |} t
    = (Returned (Names names), t) /\
    DOFS.readdir p {| withFileTypes := true |} t
    = (Returned (Dirents entries), t) /\
    Sorted (fun a b : string => String.leb a b = true) names /\
    Permutation names
      (List.map File.name
         (List.filter (has_parent (DOFS.normalizePath p)) t)) /\
    List.map Dirent.name entries = names /\
    List.Forall (fun entry =>
      Dirent.isFile entry = negb (Dirent.isDirectory entry) /\
      Dirent.isSymbolicLink entry = false) entries.
Proof.
  intros Hdir Htype.
  unfold DOFS.readdir, bind, select_path, select_parent.
  rewrite Hdir, Htype. cbn [EntryType_eqb negb withFileTypes ret].
  set (rows := List.filter _ t).
  eexists. eexists. split; [reflexivity|]. split; [reflexivity|].
  split; [apply names_sorted, order_by_name_sorted|].
  split; [apply Permutation_map, order_by_name_permutation|].
  split.
  - rewrite List.map_map. reflexivity.
  - apply List.Forall_map, List.Forall_forall. intros r _.
    cbn [Dirent.isFile Dirent.isDirectory Dirent.isSymbolicLink].
    destruct (File.type r); split; reflexivity.
Qed.

Lemma readdir_lists_children_witness :
  row_at (DOFS.normalizePath "/docs/") docs_table
  = Some (made_directory 1000 "/docs" plain_options) /\
  File.type (made_directory 1000 "/docs" plain_options) = directory /\
  exists names entries,
    DOFS.readdir "/docs/" {| withFileTypes := false |} docs_table
    = (Returned (Names names), docs_table) /\
    DOFS.readdir "/docs/" {| withFileTypes := true |} docs_table
    = (Returned (Dirents entries), docs_table) /\
    Sorted (fun a b : string => String.leb a b = true) names /\
    Permutation names
      (List.map File.name
         (List.filter (has_parent (DOFS.normalizePath "/docs/")) docs_table))
    /\
    List.map Dirent.name entries = names /\
    List.Forall (fun entry =>
      Dirent.isFile entry = negb (Dirent.isDirectory entry) /\
      Dirent.isSymbolicLink entry = false) entries.
Proof.
  split; [reflexivity|]. split; [reflexivity|].
  apply (readdir_lists_children "/docs/" docs_table
           (made_directory 1000 "/docs" plain_options)); reflexivity.
Defined.

(** ** Removing *)

Section Rm.

Lemma row_at_filter (keep : File.t -> bool) (q : string) (t : Table) :
  (forall r, File.path r = q -> keep r = true) ->
  row_at q (List.filter keep t) = row_at q t.
Proof.
  intros Hkeep. unfold row_at.
  induction t as [|r t IH]; [reflexivity|]. cbn [List.filter List.find].
  destruct (has_path q r) eqn:Hr.
  - rewrite Hkeep by (apply has_path_true; exact Hr).
    cbn [List.find]. rewrite Hr. reflexivity.
  - destruct (keep r); [cbn [List.find]; rewrite Hr|]; exact IH.
Qed.

Lemma row_at_filter_none (keep : File.t -> bool) (q : string) (t : Table) :
  (forall r, File.path r = q -> keep r = false) ->
  row_at q (List.filter keep t) = None.
Proof.
  intros Hdrop. unfold row_at.
  induction t as [|r t IH]; [reflexivity|]. cbn [List.filter].
  destruct (keep r) eqn:Hkeep; [|exact IH].
  cbn [List.find]. destruct (has_path q r) eqn:Hr; [|exact IH].
  apply has_path_true in Hr. rewrite Hdrop in Hkeep by exact Hr.
  discriminate.
Qed.

Lemma row_at_delete_where_path (p q : string) (t : Table) :
  row_at q (snd (delete_where_path p t))
  = if String.eqb q p then None else row_at q t.
Proof.
  unfold delete_where_path. cbn [snd].
  destruct (String.eqb_spec q p) as [->|Hne].
  - apply row_at_filter_none. intros r Hr. unfold has_path.
    rewrite Hr, String.eqb_refl. reflexivity.
  - apply row_at_filter. intros r Hr. unfold has_path.
    rewrite Hr. apply negb_true_iff, String.eqb_neq. exact Hne.
Qed.

Lemma row_at_delete_like (pattern q : string) (t : Table) :
  row_at q (List.filter (fun r => negb (like pattern (File.path r))) t)
  = if like pattern q then None else row_at q t.
Proof.
  destruct (like pattern q) eqn:Hlike.
  - apply row_at_filter_none. intros r ->. rewrite Hlike. reflexivity.
  - apply row_at_filter. intros r ->. rewrite Hlike. reflexivity.
Qed.

Lemma like_fails_not (limit : nat) (pattern : string) (t : Table)
    (r : File.t) :
  row_at (File.path r) t = Some r \/ List.In r t ->
  like_fails limit pattern t = (limit <? String.length pattern)%nat.
Proof.
  intros Hr. unfold like_fails. destruct t as [|x t]; [|apply andb_true_r].
  destruct Hr as [Hr|[]]. discriminate.
Qed.

Lemma count_parent_positive (p : string) (t : Table) :
  (0 <? Z.of_nat (List.length (List.filter (has_parent p) t))) = true ->
  exists child, List.In child t /\ File.parent_path child = Some p.
Proof.
  intros Hcount. apply Z.ltb_lt in Hcount.
  destruct (List.filter (has_parent p) t) as [|child rest] eqn:Hrows;
    [cbn in Hcount; lia|].
  assert (List.In child (List.filter (has_parent p) t)) as Hin
    by (rewrite Hrows; left; reflexivity).
  apply List.filter_In in Hin as [Hin Hparent]. exists child.
  split; [exact Hin|]. unfold has_parent in Hparent.
  destruct (File.parent_path child) as [q|]; [|discriminate].
  apply String.eqb_eq in Hparent. congruence.
Qed.

(** What [rm] does, by the row at the normalized path. *)
Lemma rm_cases `{Host} (p : string) (options : RmOptions) (t : Table) :
  DOFS.rm p options t
  = match row_at (DOFS.normalizePath p) t with
    | None =>
        if rm_force options then (Returned tt, t)
        else (Thrown "File does not exist", t)
    | Some row =>
        match File.type row with
        | file =>
            (Returned tt, snd (delete_where_path (DOFS.normalizePath p) t))
        | directory =>
            if rm_recursive options then
              if (like_pattern_limit
                  <? String.length (DOFS.normalizePath p +:+ "/%"))%nat
              then (Thrown like_too_complex, t)
              else
                (Returned tt,
                 snd (delete_where_path (DOFS.normalizePath p)
                        (List.filter
                           (fun r =>
                              negb (like (DOFS.normalizePath p +:+ "/%")
                                      (File.path r))) t)))
            else if 0 <? Z.of_nat
                           (List.length
                              (List.filter
                                 (has_parent (DOFS.normalizePath p)) t))
                 then (Thrown "Directory not empty", t)
                 else
                   (Returned tt,
                    snd (delete_where_path (DOFS.normalizePath p) t))
        end
    end.
Proof.
  unfold DOFS.rm, bind, select_path.
  destruct (row_at (DOFS.normalizePath p) t) as [row|] eqn:Hrow.
  - destruct (File.type row); [reflexivity|].
    destruct (rm_recursive options); cbn [negb].
    + unfold delete_like.
      rewrite (like_fails_not _ _ t row)
        by (left; rewrite (row_at_path _ _ _ Hrow); exact Hrow).
      destruct (_ <? _)%nat; reflexivity.
    + unfold count_parent. destruct (0 <? _); reflexivity.
  - destruct (rm_force options); reflexivity.
Qed.

End Rm.

(** X10: an [rm] that throws has changed nothing, and throws one of
    three errors: no row holds the normalized path and [force] is not
    set; or a directory holds it, [recursive] is not set and some row
    names it as its parent; or a directory holds it, [recursive] is set
    and the pattern of the DELETE is longer than the store accepts. *)
Theorem rm_throws_cleanly `{Host} (p : string) (options : RmOptions)
    (t : Table) (message : string) :
  fst (DOFS.rm p options t) = Thrown message ->
  snd (DOFS.rm p options t) = t /\
  (message = "File does not exist" /\ rm_force options = false /\
     row_at (DOFS.normalizePath p) t = None
   \/ message = "Directory not empty" /\ rm_recursive options = false /\
      (exists dir, row_at (DOFS.normalizePath p) t = Some dir /\
         File.type dir = directory) /\
      (exists child, List.In child t /\
         File.parent_path child = Some (DOFS.normalizePath p))
   \/ message = like_too_complex /\ rm_recursive options = true /\
      (exists dir, row_at (DOFS.normalizePath p) t = Some dir /\
         File.type dir = directory) /\
      (like_pattern_limit
       < String.length (DOFS.normalizePath p +:+ "/%"))%nat).
Proof.
  rewrite rm_cases.
  destruct (row_at (DOFS.normalizePath p) t) as [row|] eqn:Hrow.
  - destruct (File.type row) eqn:Htype; [discriminate|].
    destruct (rm_recursive options).
    + destruct (_ <? _)%nat eqn:Hlimit; [|discriminate].
      cbn [fst snd]. intros [= <-]. split; [reflexivity|]. right. right.
      split; [reflexivity|]. split; [reflexivity|].
      split; [exists row; split; [reflexivity|exact Htype]|].
      apply Nat.ltb_lt. exact Hlimit.
    + destruct (0 <? _) eqn:Hcount; [|discriminate].
      cbn [fst snd]. intros [= <-]. split; [reflexivity|]. right. left.
      split; [reflexivity|]. split; [reflexivity|].
      split; [exists row; split; [reflexivity|exact Htype]|].
      apply count_parent_positive. exact Hcount.
  - destruct (rm_force options); [discriminate|].
    cbn [fst snd]. intros [= <-]. split; [reflexivity|]. left.
    repeat split; reflexivity.
Qed.

Lemma rm_throws_cleanly_witness :
  fst (DOFS.rm (H := plain_host) "/data/"
         {| rm_force := true; rm_recursive := false |} data_table)
  = Thrown "Directory not empty" /\
  snd (DOFS.rm (H := plain_host) "/data/"
         {| rm_force := true; rm_recursive := false |} data_table)
  = data_table.
Proof.
  split; [reflexivity|].
  apply (rm_throws_cleanly (H := plain_host) "/data/"
           {| rm_force := true; rm_recursive := false |} data_table
           "Directory not empty").
  reflexivity.
Defined.

(** X11: an [rm] that returns.  When no row held the normalized path,
    [force] is set and the table is as it was.  When a directory held it
    and [recursive] is set, the rows that are left are those on the
    paths that are neither the normalized path nor matched by the
    pattern of the DELETE, each as it was, and no row is left on a path
    below the normalized path.  In every other case the rows that are
    left are those on the paths other than the normalized path, each as
    it was. *)
Theorem rm_removes `{Host} (p : string) (options : RmOptions) (t : Table) :
  fst (DOFS.rm p options t) = Returned tt ->
  match row_at (DOFS.normalizePath p) t with
  | None => rm_force options = true /\ snd (DOFS.rm p options t) = t
  | Some row =>
      match File.type row, rm_recursive options with
      | directory, true =>
          (forall q,
             row_at q (snd (DOFS.rm p options t))
             = if String.eqb q (DOFS.normalizePath p)
                  || like (DOFS.normalizePath p +:+ "/%") q
               then None else row_at q t) /\
          (forall q,
             starts_with (DOFS.normalizePath p +:+ "/") q = true ->
             row_at q (snd (DOFS.rm p options t)) = None)
      | _, _ =>
          forall q,
            row_at q (snd (DOFS.rm p options t))
            = if String.eqb q (DOFS.normalizePath p) then None
              else row_at q t
      end
  end.
Proof.
  rewrite rm_cases.
  destruct (row_at (DOFS.normalizePath p) t) as [row|] eqn:Hrow.
  - destruct (File.type row) eqn:Htype.
    + intros _. cbn [snd].
      destruct (rm_recursive options); intros q;
        apply row_at_delete_where_path.
    + destruct (rm_recursive options).
      * destruct (_ <? _)%nat; [discriminate|]. intros _. cbn [snd].
        assert (forall q,
          row_at q
            (List.filter
               (fun r => negb (has_path (DOFS.normalizePath p) r))
               (List.filter
                  (fun r =>
                     negb (like (DOFS.normalizePath p +:+ "/%")
                             (File.path r))) t))
          = if String.eqb q (DOFS.normalizePath p)
               || like (DOFS.normalizePath p +:+ "/%") q
            then None else row_at q t) as Hat.
        { intros q.
          change (List.filter (fun r => negb (has_path ?n r)) ?rows)
            with (snd (delete_where_path n rows)).
          rewrite row_at_delete_where_path.
          destruct (String.eqb q (DOFS.normalizePath p)); [reflexivity|].
          apply row_at_delete_like. }
        split; [exact Hat|]. intros q Hq.
        rewrite Hat, like_below by exact Hq. rewrite orb_true_r. reflexivity.
      * destruct (0 <? _); [discriminate|]. intros _. cbn [snd].
        intros q. apply row_at_delete_where_path.
  - destruct (rm_force options); [|discriminate]. intros _.
    split; reflexivity.
Qed.

Lemma rm_removes_witness :
  fst (DOFS.rm (H := plain_host) "/data"
         {| rm_force := false; rm_recursive := true |} data_table)
  = Returned tt /\
  (forall q,
     row_at q
       (snd (DOFS.rm (H := plain_host) "/data"
               {| rm_force := false; rm_recursive := true |} data_table))
     = if String.eqb q "/data" || like "/data/%" q
       then None else row_at q data_table) /\
  (forall q,
     starts_with "/data/" q = true ->
     row_at q
       (snd (DOFS.rm (H := plain_host) "/data"
               {| rm_force := false; rm_recursive := true |} data_table))
     = None).
Proof.
  split; [reflexivity|].
  apply (rm_removes (H := plain_host) "/data"
           {| rm_force := false; rm_recursive := true |} data_table).
  reflexivity.
Defined.

(** ** Copying a file within one instance *)

Section CopyWithin.

Lemma row_at_insert_or_replace (row : File.t) (q : string) (t : Table) :
  row_at q (snd (insert_or_replace row t))
  = if String.eqb q (File.path row) then Some row else row_at q t.
Proof.
  unfold insert_or_replace. cbn [snd].
  set (kept := List.filter _ t).
  destruct (String.eqb_spec q (File.path row)) as [->|Hne].
  - assert (row_at (File.path row) kept = None) as Hgone.
    { apply row_at_filter_none. intros r Hr. unfold has_path.
      rewrite Hr, String.eqb_refl. reflexivity. }
    rewrite row_at_app_none by exact Hgone.
    unfold row_at. cbn [List.find]. unfold has_path.
    rewrite String.eqb_refl. reflexivity.
  - assert (row_at q kept = row_at q t) as Hkept.
    { apply row_at_filter. intros r Hr. unfold has_path.
      rewrite Hr. apply negb_true_iff, String.eqb_neq. exact Hne. }
    rewrite <- Hkept. destruct (row_at q kept) as [r|] eqn:Hq.
    + apply row_at_app_some. exact Hq.
    + rewrite row_at_app_none by exact Hq.
      unfold row_at. cbn [List.find]. unfold has_path.
      apply not_eq_sym, String.eqb_neq in Hne. rewrite Hne. reflexivity.
Qed.

Lemma require_directory_refuses (p message : string) (t : Table) :
  DOFS.require_directory (DOFS.getParentPath p) message t
  = (Thrown message, t) ->
  ~ parent_resolves p t.
Proof.
  intros Hthrown Hresolves.
  apply (require_directory_resolves p message) in Hresolves.
  rewrite getParentPath_normalized in Hresolves. congruence.
Qed.

Lemma require_directory_accepts (p message : string) (t : Table) :
  parent_resolves p t ->
  DOFS.require_directory (DOFS.getParentPath p) message t = (Returned tt, t).
Proof.
  intros Hresolves. rewrite <- getParentPath_normalized.
  apply require_directory_resolves. exact Hresolves.
Qed.

End CopyWithin.

(** X12: [copyFile] within an instance.  When the source is a file and
    the parent of the destination resolves, the call returns; the row at
    the destination, as given and not normalized, is a file with the
    content, size, mode and owner of the source and the current time as
    its three timestamps, replacing whatever row held the path; every
    other row, the source with its access time included, is as it was. *)
Theorem copyFile_within (now_ms : Z) (src dest : string) (mode : Z)
    (t : Table) (srcFile : File.t) :
  row_at src t = Some srcFile ->
  File.type srcFile = file ->
  parent_resolves dest t ->
  exists t',
    DOFS.copyFile now_ms src dest mode t = (Returned tt, t') /\
    row_at dest t' = Some (copied_row now_ms dest srcFile) /\
    forall q, q <> dest -> row_at q t' = row_at q t.
Proof.
  intros Hsrc Htype Hparent.
  unfold DOFS.copyFile, bind at 1. unfold select_path at 1.
  rewrite Hsrc, Htype. cbn [EntryType_eqb negb]. unfold bind.
  rewrite require_directory_accepts by exact Hparent.
  fold (copied_row now_ms dest srcFile).
  set (row := copied_row now_ms dest srcFile).
  exists (snd (insert_or_replace row t)). split; [reflexivity|].
  split.
  - rewrite row_at_insert_or_replace. change (File.path row) with dest.
    rewrite String.eqb_refl. reflexivity.
  - intros q Hq. rewrite row_at_insert_or_replace.
    change (File.path row) with dest.
    apply String.eqb_neq in Hq. rewrite Hq. reflexivity.
Qed.

Lemma copyFile_within_witness :
  row_at "/tmp/f" tmp_table
  = Some (created_row 2000 "/tmp/f" (list_byte_of_string "x")
            {| write_encoding := None; write_mode := None |}) /\
  File.type (created_row 2000 "/tmp/f" (list_byte_of_string "x")
               {| write_encoding := None; write_mode := None |}) = file /\
  parent_resolves "/tmp/g" tmp_table /\
  exists t',
    DOFS.copyFile 3000 "/tmp/f" "/tmp/g" 0 tmp_table = (Returned tt, t') /\
    row_at "/tmp/g" t'
    = Some (copied_row 3000 "/tmp/g"
              (created_row 2000 "/tmp/f" (list_byte_of_string "x")
                 {| write_encoding := None; write_mode := None |})) /\
    forall q, q <> "/tmp/g" -> row_at q t' = row_at q tmp_table.
Proof.
  assert (parent_resolves "/tmp/g" tmp_table) as Hparent.
  { eexists. split; reflexivity. }
  split; [reflexivity|]. split; [reflexivity|]. split; [exact Hparent|].
  apply (copyFile_within 3000 "/tmp/f" "/tmp/g" 0 tmp_table);
    [reflexivity|reflexivity|exact Hparent].
Defined.

(** X13: a [copyFile] within an instance that throws has changed
    nothing, and throws one of two errors: the source is missing or is a
    directory; or the source is a file and the parent of the destination
    does not resolve. *)
Theorem copyFile_throws_cleanly (now_ms : Z) (src dest : string) (mode : Z)
    (t : Table) (message : string) :
  fst (DOFS.copyFile now_ms src dest mode t) = Thrown message ->
  snd (DOFS.copyFile now_ms src dest mode t) = t /\
  (message = "Source file not found" /\
     (row_at src t = None
      \/ exists dir, row_at src t = Some dir /\ File.type dir = directory)
   \/ message = "Destination directory does not exist" /\
      (exists srcFile, row_at src t = Some srcFile /\
         File.type srcFile = file) /\
      ~ parent_resolves dest t).
Proof.
  unfold DOFS.copyFile, bind, select_path.
  destruct (row_at src t) as [srcFile|] eqn:Hsrc.
  - destruct (File.type srcFile) eqn:Htype; cbn [EntryType_eqb negb].
    + destruct (require_directory_cases (DOFS.getParentPath dest)
                  "Destination directory does not exist" t) as [E|E];
        rewrite E; [discriminate|].
      cbn [fst snd]. intros [= <-]. split; [reflexivity|]. right.
      split; [reflexivity|]. split; [eauto|].
      eapply require_directory_refuses. exact E.
    + cbn [throw fst snd]. intros [= <-]. split; [reflexivity|]. left.
      split; [reflexivity|]. right. eauto.
  - cbn [throw fst snd]. intros [= <-]. split; [reflexivity|]. left.
    split; [reflexivity|]. left. reflexivity.
Qed.

Lemma copyFile_throws_cleanly_witness :
  fst (DOFS.copyFile 3000 "/tmp" "/tmp/g" 0 tmp_table)
  = Thrown "Source file not found" /\
  snd (DOFS.copyFile 3000 "/tmp" "/tmp/g" 0 tmp_table) = tmp_table /\
  ("Source file not found" = "Source file not found" /\
     (row_at "/tmp" tmp_table = None
      \/ exists dir, row_at "/tmp" tmp_table = Some dir /\
           File.type dir = directory)
   \/ "Source file not found" = "Destination directory does not exist" /\
      (exists srcFile, row_at "/tmp" tmp_table = Some srcFile /\
         File.type srcFile = file) /\
      ~ parent_resolves "/tmp/g" tmp_table).
Proof.
  split; [reflexivity|].
  apply (copyFile_throws_cleanly 3000 "/tmp" "/tmp/g" 0 tmp_table).
  reflexivity.
Defined.

(** ** Renaming a file *)

Section RenameFile.

Lemma row_at_moved (p p' q : string) (set : File.t -> File.t) (t : Table) :
  (forall r, File.path (set r) = p') ->
  p' = p \/ row_at p' t = None ->
  row_at q (List.map (fun r => if has_path p r then set r else r) t)
  = if String.eqb q p' then option_map set (row_at p t)
    else if String.eqb q p then None
    else row_at q t.
Proof.
  intros Hset Hfree. unfold row_at in *.
  induction t as [|r t IH]; cbn [List.map List.find option_map].
  - destruct (String.eqb q p'), (String.eqb q p); reflexivity.
  - assert (p' = p \/ List.find (has_path p') t = None
            /\ has_path p' r = false) as Hfree'.
    { destruct Hfree as [->|Hnone]; [left; reflexivity|right].
      cbn [List.find] in Hnone.
      destruct (has_path p' r); [discriminate|].
      split; [exact Hnone|reflexivity]. }
    assert (p' = p \/ List.find (has_path p') t = None) as Hrest by tauto.
    specialize (IH Hrest).
    destruct (has_path p r) eqn:Hr.
    + unfold has_path at 1. rewrite Hset.
      destruct (String.eqb_spec p' q) as [<-|Hq].
      * rewrite String.eqb_refl. reflexivity.
      * rewrite IH. apply not_eq_sym, String.eqb_neq in Hq. rewrite Hq.
        apply has_path_true in Hr.
        destruct (String.eqb_spec q p) as [->|Hqp]; [reflexivity|].
        unfold has_path. rewrite Hr.
        apply not_eq_sym, String.eqb_neq in Hqp. rewrite Hqp. reflexivity.
    + destruct (has_path q r) eqn:Hqr.
      * apply has_path_true in Hqr.
        destruct (String.eqb_spec q p') as [->|_].
        { destruct Hfree' as [->|[_ Hno]].
          - unfold has_path in Hr. rewrite Hqr, String.eqb_refl in Hr.
            discriminate.
          - unfold has_path in Hno. rewrite Hqr, String.eqb_refl in Hno.
            discriminate. }
        destruct (String.eqb_spec q p) as [->|_]; [|reflexivity].
        unfold has_path in Hr. rewrite Hqr, String.eqb_refl in Hr.
        discriminate.
      * exact IH.
Qed.

Lemma for_each_throws {A : Type} (P : string -> Prop)
    (body : A -> Eff Table unit) (xs : list A) :
  (forall x t message, fst (body x t) = Thrown message -> P message) ->
  forall t message,
    fst (for_each xs body t) = Thrown message -> P message.
Proof.
  intros Hbody. induction xs as [|x xs IH]; intros t message;
    cbn [for_each]; [discriminate|].
  unfold bind. specialize (Hbody x t).
  destruct (body x t) as [[[]|thrown|] t1]; cbn [fst] in *.
  - apply IH.
  - intros [= <-]. apply Hbody. reflexivity.
  - discriminate.
Qed.

Lemma update_path_where_path_throws (p : string) (set : File.t -> File.t)
    (t : Table) (message : string) :
  fst (update_path_where_path p set t) = Thrown message ->
  message = unique_failed.
Proof.
  unfold update_path_where_path.
  destruct (row_at p t) as [row|]; [|discriminate].
  destruct (_ && _); [|discriminate]. intros [= <-]. reflexivity.
Qed.

End RenameFile.

(** X14: [rename] of a file within an instance.  When a file holds the
    normalized old path, the parent of the new path resolves, and the
    normalized new path is free or is the old one, the call returns; the
    row is then at the normalized new path, with the new parent, name and
    modification time and everything else as before; no row is left at
    the old path; every row on another path is as it was. *)
Theorem rename_file `{Host} (now_ms : Z) (oldPath newPath : string)
    (t : Table) (row : File.t) :
  row_at (DOFS.normalizePath oldPath) t = Some row ->
  File.type row = file ->
  parent_resolves newPath t ->
  DOFS.normalizePath newPath = DOFS.normalizePath oldPath
  \/ row_at (DOFS.normalizePath newPath) t = None ->
  exists t',
    DOFS.rename now_ms oldPath newPath t = (Returned tt, t') /\
    row_at (DOFS.normalizePath newPath) t'
    = Some (File.set_renamed (DOFS.normalizePath newPath)
              (DOFS.getParentPath newPath) (DOFS.getFileName newPath)
              (seconds now_ms) row) /\
    (DOFS.normalizePath newPath <> DOFS.normalizePath oldPath ->
     row_at (DOFS.normalizePath oldPath) t' = None) /\
    forall q, q <> DOFS.normalizePath oldPath ->
      q <> DOFS.normalizePath newPath -> row_at q t' = row_at q t.
Proof.
  intros Hrow Htype Hparent Hfree.
  unfold DOFS.rename, bind at 1. unfold select_path at 1. rewrite Hrow.
  unfold bind at 1.
  rewrite require_directory_resolves by exact Hparent.
  rewrite getParentPath_normalized, getFileName_normalized.
  set (old := DOFS.normalizePath oldPath) in *.
  set (new := DOFS.normalizePath newPath) in *.
  set (renamed := File.set_renamed new _ _ _).
  unfold bind, update_path_where_path. rewrite Hrow, Htype.
  assert (negb (String.eqb (File.path (renamed row)) old)
          && List.existsb (has_path (File.path (renamed row))) t = false)
    as Hkey.
  { change (File.path (renamed row)) with new.
    destruct Hfree as [->|Hnone].
    - rewrite String.eqb_refl. reflexivity.
    - apply existsb_row_at in Hnone. rewrite Hnone. apply andb_false_r. }
  rewrite Hkey. eexists. split; [reflexivity|].
  assert (forall q,
    row_at q (List.map (fun r => if has_path old r then renamed r else r) t)
    = if String.eqb q new then option_map renamed (row_at old t)
      else if String.eqb q old then None else row_at q t) as Hat.
  { intros q. apply row_at_moved; [reflexivity|exact Hfree]. }
  split; [rewrite Hat, String.eqb_refl, Hrow; reflexivity|]. split.
  - intros Hne. rewrite Hat, String.eqb_refl.
    apply not_eq_sym, String.eqb_neq in Hne. rewrite Hne. reflexivity.
  - intros q Hold Hnew. rewrite Hat.
    apply String.eqb_neq in Hold, Hnew. rewrite Hold, Hnew. reflexivity.
Qed.

Lemma rename_file_witness :
  row_at (DOFS.normalizePath "/tmp/f") tmp_table
  = Some (created_row 2000 "/tmp/f" (list_byte_of_string "x")
            {| write_encoding := None; write_mode := None |}) /\
  File.type (created_row 2000 "/tmp/f" (list_byte_of_string "x")
               {| write_encoding := None; write_mode := None |}) = file /\
  parent_resolves "/tmp/g/" tmp_table /\
  (DOFS.normalizePath "/tmp/g/" = DOFS.normalizePath "/tmp/f"
   \/ row_at (DOFS.normalizePath "/tmp/g/") tmp_table = None) /\
  exists t',
    DOFS.rename (H := plain_host) 3000 "/tmp/f" "/tmp/g/" tmp_table
    = (Returned tt, t') /\
    row_at (DOFS.normalizePath "/tmp/g/") t'
    = Some (File.set_renamed (DOFS.normalizePath "/tmp/g/")
              (DOFS.getParentPath "/tmp/g/") (DOFS.getFileName "/tmp/g/")
              (seconds 3000)
              (created_row 2000 "/tmp/f" (list_byte_of_string "x")
                 {| write_encoding := None; write_mode := None |})) /\
    (DOFS.normalizePath "/tmp/g/" <> DOFS.normalizePath "/tmp/f" ->
     row_at (DOFS.normalizePath "/tmp/f") t' = None) /\
    forall q, q <> DOFS.normalizePath "/tmp/f" ->
      q <> DOFS.normalizePath "/tmp/g/" -> row_at q t' = row_at q tmp_table.
Proof.
  assert (parent_resolves "/tmp/g/" tmp_table) as Hparent.
  { eexists. split; reflexivity. }
  split; [reflexivity|]. split; [reflexivity|]. split; [exact Hparent|].
  split; [right; reflexivity|].
  apply (rename_file (H := plain_host) 3000 "/tmp/f" "/tmp/g/" tmp_table);
    [reflexivity|reflexivity|exact Hparent|right; reflexivity].
Defined.

(** X15: [rename] does not overwrite.  When a row holds the normalized
    old path, the parent of the new path resolves, and another row holds
    the normalized new path, the call throws the violation of the primary
    key and changes nothing. *)
Theorem rename_onto_existing `{Host} (now_ms : Z)
    (oldPath newPath : string) (t : Table) (row other : File.t) :
  row_at (DOFS.normalizePath oldPath) t = Some row ->
  parent_resolves newPath t ->
  DOFS.normalizePath newPath <> DOFS.normalizePath oldPath ->
  row_at (DOFS.normalizePath newPath) t = Some other ->
  DOFS.rename now_ms oldPath newPath t = (Thrown unique_failed, t).
Proof.
  intros Hrow Hparent Hne Hother.
  unfold DOFS.rename, bind at 1. unfold select_path at 1. rewrite Hrow.
  unfold bind at 1.
  rewrite require_directory_resolves by exact Hparent.
  unfold bind, update_path_where_path. rewrite Hrow.
  cbn [File.set_renamed File.path].
  apply String.eqb_neq in Hne. rewrite Hne.
  assert (List.existsb (has_path (DOFS.normalizePath newPath)) t = true)
    as Hkey.
  { destruct (List.existsb _ t) eqn:Hex; [reflexivity|].
    apply existsb_row_at in Hex. congruence. }
  rewrite Hkey. reflexivity.
Qed.

Lemma rename_onto_existing_witness :
  row_at (DOFS.normalizePath "/docs/a") docs_table
  = Some (created_row 2000 "/docs/a" (list_byte_of_string "x")
            {| write_encoding := None; write_mode := None |}) /\
  parent_resolves "/Docs/docs" docs_table /\
  DOFS.normalizePath "/Docs/docs" <> DOFS.normalizePath "/docs/a" /\
  row_at (DOFS.normalizePath "/Docs/docs") docs_table
  = Some (created_row 4000 "/Docs/docs" (list_byte_of_string "y")
            {| write_encoding := None; write_mode := None |}) /\
  DOFS.rename (H := plain_host) 5000 "/docs/a" "/Docs/docs" docs_table
  = (Thrown unique_failed, docs_table).
Proof.
  assert (parent_resolves "/Docs/docs" docs_table) as Hparent.
  { eexists. split; reflexivity. }
  split; [reflexivity|]. split; [exact Hparent|].
  split; [discriminate|]. split; [reflexivity|].
  eapply (rename_onto_existing (H := plain_host) 5000 "/docs/a"
            "/Docs/docs" docs_table);
    [reflexivity|exact Hparent|discriminate|reflexivity].
Defined.

(** X16: a [rename] that throws anything but the violation of the
    primary key.  It throws one of three errors: no row holds the
    normalized old path, and the table is as it was; or a row holds it
    and the parent of the new path does not resolve, and the table is as
    it was; or a directory holds it, the parent resolves and the pattern
    of the SELECT is longer than the store accepts, and then the row of
    the directory has already taken the new path, parent, name and
    modification time, every other row being as it was. *)
Theorem rename_throws_besides_the_key `{Host} (now_ms : Z)
    (oldPath newPath : string) (t t' : Table) (message : string) :
  DOFS.rename now_ms oldPath newPath t = (Thrown message, t') ->
  message <> unique_failed ->
  message = "Source does not exist" /\
    row_at (DOFS.normalizePath oldPath) t = None /\ t' = t
  \/ message = "Destination directory does not exist" /\
     (exists row, row_at (DOFS.normalizePath oldPath) t = Some row) /\
     ~ parent_resolves newPath t /\ t' = t
  \/ message = like_too_complex /\
     (exists dir, row_at (DOFS.normalizePath oldPath) t = Some dir /\
        File.type dir = directory) /\
     parent_resolves newPath t /\
     (like_pattern_limit
      < String.length (DOFS.normalizePath oldPath +:+ "/%"))%nat /\
     t' = List.map (fun r =>
            if has_path (DOFS.normalizePath oldPath) r
            then File.set_renamed (DOFS.normalizePath newPath)
                   (DOFS.getParentPath (DOFS.normalizePath newPath))
                   (DOFS.getFileName (DOFS.normalizePath newPath))
                   (seconds now_ms) r
            else r) t.
Proof.
  unfold DOFS.rename, bind at 1. unfold select_path at 1.
  destruct (row_at (DOFS.normalizePath oldPath) t) as [row|] eqn:Hrow.
  2:{ intros [= <- <-] _. left. repeat split. }
  unfold bind at 1.
  destruct (require_directory_cases
              (DOFS.getParentPath (DOFS.normalizePath newPath))
              "Destination directory does not exist" t) as [E|E];
    rewrite E.
  2:{ intros [= <- <-] _. right. left. split; [reflexivity|].
      split; [eauto|]. split; [|reflexivity].
      rewrite getParentPath_normalized in E.
      eapply require_directory_refuses. exact E. }
  assert (parent_resolves newPath t) as Hparent.
  { unfold parent_resolves. unfold DOFS.require_directory in E.
    destruct (below_root _) as [q|]; [|exact I].
    unfold bind, select_path in E.
    destruct (row_at q t) as [parent|]; [|discriminate].
    destruct (EntryType_eqb (File.type parent) directory) eqn:Hdir;
      [|discriminate].
    exists parent. split; [reflexivity|apply EntryType_eqb_eq; exact Hdir]. }
  unfold bind at 1.
  set (update := update_path_where_path _ _).
  pose proof (update_path_where_path_throws
                (DOFS.normalizePath oldPath)
                (File.set_renamed (DOFS.normalizePath newPath)
                   (DOFS.getParentPath (DOFS.normalizePath newPath))
                   (DOFS.getFileName (DOFS.normalizePath newPath))
                   (seconds now_ms)) t) as Hupdate.
  fold update in Hupdate.
  assert (forall t1, update t = (Returned tt, t1) ->
            t1 = List.map (fun r =>
                   if has_path (DOFS.normalizePath oldPath) r
                   then File.set_renamed (DOFS.normalizePath newPath)
                          (DOFS.getParentPath (DOFS.normalizePath newPath))
                          (DOFS.getFileName (DOFS.normalizePath newPath))
                          (seconds now_ms) r
                   else r) t) as Hmoved.
  { intros t1. unfold update, update_path_where_path. rewrite Hrow.
    destruct (_ && _); [discriminate|]. intros [= <-]. reflexivity. }
  destruct (update t) as [[[]|thrown|] t1] eqn:Hrun; cbn [fst] in *.
  - specialize (Hmoved t1 eq_refl).
    destruct (File.type row) eqn:Htype; [discriminate|].
    unfold bind at 1. unfold select_like at 1.
    assert (like_fails like_pattern_limit
              (DOFS.normalizePath oldPath +:+ "/%") t1
            = (like_pattern_limit
               <? String.length (DOFS.normalizePath oldPath +:+ "/%"))%nat)
      as ->.
    { unfold like_fails. rewrite Hmoved.
      destruct t as [|r t]; [discriminate|]. apply andb_true_r. }
    destruct (_ <? _)%nat eqn:Hlimit.
    + intros [= <- <-] _. right. right. split; [reflexivity|].
      split; [exists row; split; [reflexivity|exact Htype]|].
      split; [exact Hparent|]. split; [apply Nat.ltb_lt; exact Hlimit|].
      exact Hmoved.
    + intros Hthrown Hother. exfalso. apply Hother.
      apply (f_equal fst) in Hthrown. cbn [fst] in Hthrown. revert Hthrown.
      apply (for_each_throws (fun m => m = unique_failed)).
      intros child t2 m. apply update_path_where_path_throws.
  - intros [= <- <-] Hother. exfalso. apply Hother. apply Hupdate.
    reflexivity.
  - discriminate.
Qed.

Lemma rename_throws_besides_the_key_witness :
  DOFS.rename (H := plain_host) 5000 "/tmp/f" "/nowhere/f" tmp_table
  = (Thrown "Destination directory does not exist", tmp_table) /\
  ("Destination directory does not exist" = "Source does not exist" /\
     row_at (DOFS.normalizePath "/tmp/f") tmp_table = None /\
     tmp_table = tmp_table
   \/ "Destination directory does not exist"
      = "Destination directory does not exist" /\
      (exists row, row_at (DOFS.normalizePath "/tmp/f") tmp_table = Some row)
      /\ ~ parent_resolves "/nowhere/f" tmp_table /\ tmp_table = tmp_table
   \/ "Destination directory does not exist" = like_too_complex /\
      (exists dir,
         row_at (DOFS.normalizePath "/tmp/f") tmp_table = Some dir /\
         File.type dir = directory) /\
      parent_resolves "/nowhere/f" tmp_table /\
      (like_pattern_limit (Host := plain_host)
       < String.length (DOFS.normalizePath "/tmp/f" +:+ "/%"))%nat /\
      tmp_table
      = List.map (fun r =>
          if has_path (DOFS.normalizePath "/tmp/f") r
          then File.set_renamed (DOFS.normalizePath "/nowhere/f")
                 (DOFS.getParentPath (DOFS.normalizePath "/nowhere/f"))
                 (DOFS.getFileName (DOFS.normalizePath "/nowhere/f"))
                 (seconds 5000) r
          else r) tmp_table).
Proof.
  split; [reflexivity|].
  apply (rename_throws_besides_the_key (H := plain_host) 5000 "/tmp/f"
           "/nowhere/f" tmp_table tmp_table);
    [reflexivity|discriminate].
Defined.

(** ** Reading, writing and [stat] *)

Section ReadWrite.
Context `{Host}.

Lemma row_at_written_other (now_ms : Z) (p q : string) (buffer : list byte)
    (options : WriteObject) (t : Table) :
  q <> DOFS.normalizePath p ->
  row_at q (written now_ms p buffer options t) = row_at q t.
Proof.
  intros Hq. unfold written.
  destruct (row_at (DOFS.normalizePath p) t) as [old|] eqn:Hold.
  - apply row_at_update_other; [reflexivity|]. apply not_eq_sym. exact Hq.
  - destruct (row_at q t) as [r|] eqn:Hr.
    + apply row_at_app_some. exact Hr.
    + rewrite row_at_app_none by exact Hr.
      unfold row_at. cbn [List.find]. unfold has_path.
      cbn [created_row File.path].
      apply not_eq_sym, String.eqb_neq in Hq. rewrite Hq. reflexivity.
Qed.

Lemma readFile_cases (now_ms : Z) (p : string) (options : ReadFileOptions)
    (t : Table) :
  match row_at p t with
  | Some row =>
      if EntryType_eqb (File.type row) file
      then DOFS.readFile now_ms p options t
           = (match requested_encoding options with
              | Some e =>
                  match TextDecoder_decode e (bytes_of row) with
                  | DecodedText text => Returned (Text text)
                  | DecodeError message => Thrown message
                  end
              | None => Returned (Buffer (bytes_of row))
              end, touched (seconds now_ms) p t)
      else DOFS.readFile now_ms p options t = (Thrown "Not a file", t)
  | None => DOFS.readFile now_ms p options t = (Thrown "File does not exist", t)
  end.
Proof.
  pose proof (readFileBuffer_cases now_ms p t) as Hbuffer.
  unfold DOFS.readFile, bind.
  destruct (row_at p t) as [row|]; [|rewrite Hbuffer; reflexivity].
  destruct (EntryType_eqb (File.type row) file);
    rewrite Hbuffer; [|reflexivity].
  unfold requested_encoding.
  destruct options as [|e|[e|]]; try reflexivity;
    (destruct (String.eqb e ""); [reflexivity|];
     destruct (TextDecoder_decode e (bytes_of row)); reflexivity).
Qed.

Lemma seconds_resolution (now_ms : Z) :
  seconds now_ms * 1000 <= now_ms < seconds now_ms * 1000 + 1000.
Proof. unfold seconds. pose proof (Z.mod_pos_bound now_ms 1000).
  pose proof (Z.div_mod now_ms 1000). lia. Qed.

End ReadWrite.

(** X17: [readFile] changes at most one access time.  When no row holds
    the path as given, or a directory does, it throws and the table is as
    it was.  When a file holds it, that row gets the current time as its
    access time and is otherwise as it was, every other row is as it was,
    and the call returns the bytes, or their decoding when an encoding is
    asked for; when the decoder rejects the encoding the call throws,
    the access time already set. *)
Theorem readFile_touches_only_atime `{Host} (now_ms : Z) (p : string)
    (options : ReadFileOptions) (t : Table) :
  match row_at p t with
  | Some row =>
      match File.type row with
      | file =>
          fst (DOFS.readFile now_ms p options t)
          = match requested_encoding options with
            | Some e =>
                match TextDecoder_decode e (bytes_of row) with
                | DecodedText text => Returned (Text text)
                | DecodeError message => Thrown message
                end
            | None => Returned (Buffer (bytes_of row))
            end /\
          row_at p (snd (DOFS.readFile now_ms p options t))
          = Some (File.set_atime (seconds now_ms) row) /\
          forall q, q <> p ->
            row_at q (snd (DOFS.readFile now_ms p options t)) = row_at q t
      | directory =>
          DOFS.readFile now_ms p options t = (Thrown "Not a file", t)
      end
  | None => DOFS.readFile now_ms p options t = (Thrown "File does not exist", t)
  end.
Proof.
  pose proof (readFile_cases now_ms p options t) as Hread.
  destruct (row_at p t) as [row|] eqn:Hrow; [|exact Hread].
  destruct (File.type row); cbn [EntryType_eqb] in Hread; [|exact Hread].
  rewrite Hread. cbn [fst snd]. split; [reflexivity|]. split.
  - rewrite row_at_touched, Hrow. reflexivity.
  - intros q Hq. apply row_at_touched_other. apply not_eq_sym. exact Hq.
Qed.

(** X18: text written is text read.  On a normalized path whose parent
    resolves and which no directory holds, [writeFile] of a string
    returns, and a later [readFile] with an encoding under which the
    decoder gives back what the encoder was given returns that string,
    whether the encoding comes as a name or in the options. *)
Theorem write_text_then_read `{Host} (now_ms later_ms : Z) (p text e : string)
    (options : WriteFileOptions) (t : Table) :
  parent_resolves p t ->
  DOFS.normalizePath p = p ->
  (forall old, row_at p t = Some old -> File.type old = file) ->
  e <> "" ->
  TextDecoder_decode e (TextEncoder_encode text) = DecodedText text ->
  exists t',
    DOFS.writeFile now_ms p (DataString text) options t = (Returned tt, t') /\
    fst (DOFS.readFile later_ms p (ReadEncoding e) t') = Returned (Text text) /\
    fst (DOFS.readFile later_ms p (ReadObject (Some e)) t')
    = Returned (Text text).
Proof.
  intros Hparent Hnorm Hfile He Hcodec.
  rewrite (writeFile_payload _ _ (DataString text) _
             (TextEncoder_encode text) _ eq_refl).
  rewrite writeFileBuffer_checked
    by (apply require_directory_resolves; exact Hparent).
  eexists. split; [reflexivity|].
  set (t' := written _ _ _ _ _).
  assert (exists row, row_at p t' = Some row /\ File.type row = file /\
            bytes_of row = TextEncoder_encode text)
    as (row & Hrow & Htype & Hbytes).
  { pose proof (row_at_written now_ms p
        (buffer_of (ArrayBuffer (TextEncoder_encode text)))
        {| write_encoding :=
             match options with
             | WriteEncoding e => Some e
             | WriteOptions o => write_encoding o
             | WriteDefault => None
             end;
           write_mode := supplied_mode options |} t) as Hthere.
    fold t' in Hthere. rewrite Hnorm in Hthere. rewrite Hthere.
    destruct (row_at p t) as [old|] eqn:Hold; eexists;
      (split; [reflexivity|]); split; try reflexivity.
    cbn. apply Hfile. reflexivity. }
  apply String.eqb_neq in He.
  split.
  - pose proof (readFile_cases later_ms p (ReadEncoding e) t') as Hread.
    rewrite Hrow, Htype in Hread. cbn [EntryType_eqb] in Hread.
    rewrite Hread. cbn [fst requested_encoding].
    rewrite He, Hbytes, Hcodec. reflexivity.
  - pose proof (readFile_cases later_ms p (ReadObject (Some e)) t') as Hread.
    rewrite Hrow, Htype in Hread. cbn [EntryType_eqb] in Hread.
    rewrite Hread. cbn [fst requested_encoding].
    rewrite He, Hbytes, Hcodec. reflexivity.
Qed.

Lemma write_text_then_read_witness :
  exists t',
    DOFS.writeFile (H := plain_host) 2000 "/tmp/f" (DataString "hello")
      WriteDefault tmp_table = (Returned tt, t') /\
    fst (DOFS.readFile (H := plain_host) 3000 "/tmp/f" (ReadEncoding "utf8") t')
    = Returned (Text "hello") /\
    fst (DOFS.readFile (H := plain_host) 3000 "/tmp/f"
           (ReadObject (Some "utf8")) t')
    = Returned (Text "hello").
Proof.
  apply (write_text_then_read (H := plain_host) 2000 3000 "/tmp/f" "hello"
           "utf8" WriteDefault tmp_table).
  - eexists. split; reflexivity.
  - reflexivity.
  - intros old [= <-]. reflexivity.
  - discriminate.
  - reflexivity.
Defined.

(** X19: [stat] after [writeFile].  On a normalized path whose parent
    resolves, [writeFile] returns and [stat] then gives the number of
    bytes written as the size, the mode supplied or 0o666, and the write
    time cut to whole seconds as modification and access time; it reports
    a file and the same time as creation time when the path was free, and
    never a symbolic link. *)
Theorem write_then_stat `{Host} (now_ms : Z) (p : string) (data : Data)
    (options : WriteFileOptions) (bytes : list byte) (t : Table) :
  payload data = Some bytes ->
  parent_resolves p t ->
  DOFS.normalizePath p = p ->
  exists t' stats,
    DOFS.writeFile now_ms p data options t = (Returned tt, t') /\
    DOFS.stat p t' = (Returned stats, t') /\
    Stats.size stats = Z.of_nat (List.length bytes) /\
    Stats.mode stats = number_or (supplied_mode options) 438 /\
    Stats.mtime stats = Stats.atime stats /\
    Stats.mtime stats <= now_ms < Stats.mtime stats + 1000 /\
    Stats.mtime stats mod 1000 = 0 /\
    Stats.isSymbolicLink stats = false /\
    (row_at p t = None ->
     Stats.isFile stats = true /\ Stats.isDirectory stats = false /\
     Stats.ctime stats = Stats.mtime stats).
Proof.
  intros Hpay Hparent Hnorm.
  rewrite (writeFile_payload _ _ _ _ _ _ Hpay).
  rewrite writeFileBuffer_checked
    by (apply require_directory_resolves; exact Hparent).
  set (t' := written _ _ _ _ _).
  pose proof (row_at_written now_ms p (buffer_of (ArrayBuffer bytes))
    {| write_encoding :=
         match options with
         | WriteEncoding e => Some e
         | WriteOptions o => write_encoding o
         | WriteDefault => None
         end;
       write_mode := supplied_mode options |} t) as Hrow.
  fold t' in Hrow. rewrite Hnorm in Hrow.
  exists t'. eexists. split; [reflexivity|].
  unfold DOFS.stat, bind, select_path. rewrite Hrow.
  split; [reflexivity|]. cbn [Stats.size Stats.mode Stats.mtime Stats.atime
    Stats.ctime Stats.isFile Stats.isDirectory Stats.isSymbolicLink].
  pose proof (seconds_resolution now_ms) as Hres.
  destruct (row_at p t) as [old|]; cbn;
    (split; [reflexivity|]); (split; [reflexivity|]);
    (split; [reflexivity|]); (split; [exact Hres|]);
    (split; [apply Z.mod_mul; discriminate|]);
    (split; [reflexivity|]); [discriminate|].
  intros _. repeat split; reflexivity.
Qed.

Lemma write_then_stat_witness :
  exists t' stats,
    DOFS.writeFile (H := plain_host) 2500 "/tmp/g" (DataString "hello")
      WriteDefault tmp_table = (Returned tt, t') /\
    DOFS.stat "/tmp/g" t' = (Returned stats, t') /\
    Stats.size stats = Z.of_nat (List.length (list_byte_of_string "hello")) /\
    Stats.mode stats = number_or (supplied_mode WriteDefault) 438 /\
    Stats.mtime stats = Stats.atime stats /\
    Stats.mtime stats <= 2500 < Stats.mtime stats + 1000 /\
    Stats.mtime stats mod 1000 = 0 /\
    Stats.isSymbolicLink stats = false /\
    (row_at "/tmp/g" tmp_table = None ->
     Stats.isFile stats = true /\ Stats.isDirectory stats = false /\
     Stats.ctime stats = Stats.mtime stats).
Proof.
  apply (write_then_stat (H := plain_host) 2500 "/tmp/g" (DataString "hello")
           WriteDefault (list_byte_of_string "hello") tmp_table).
  - reflexivity.
  - eexists. split; reflexivity.
  - reflexivity.
Defined.

(** X20: a [writeFile] that throws has changed nothing, and throws one
    of two errors: the data is neither a string nor binary; or it is, and
    the parent of the path does not resolve. *)
Theorem writeFile_throws_cleanly `{Host} (now_ms : Z) (p : string)
    (data : Data) (options : WriteFileOptions) (t : Table)
    (message : string) :
  fst (DOFS.writeFile now_ms p data options t) = Thrown message ->
  snd (DOFS.writeFile now_ms p data options t) = t /\
  (message = "Unsupported data type" /\ payload data = None
   \/ message = "Parent directory does not exist" /\
      payload data <> None /\ ~ parent_resolves p t).
Proof.
  destruct (payload data) as [bytes|] eqn:Hpay.
  - rewrite (writeFile_payload _ _ _ _ _ _ Hpay).
    set (o := Build_WriteObject _ _).
    destruct (writeFileBuffer_cases now_ms p (ArrayBuffer bytes) o t)
      as [E|E]; rewrite E; cbn [fst snd]; [discriminate|].
    intros [= <-]. split; [reflexivity|]. right.
    split; [reflexivity|]. split; [discriminate|].
    intros Hparent.
    rewrite writeFileBuffer_checked in E
      by (apply require_directory_resolves; exact Hparent).
    discriminate.
  - destruct data as [text|[bytes|buffer offset len]|]; try discriminate.
    cbn [DOFS.writeFile throw fst snd]. intros [= <-].
    split; [reflexivity|]. left. split; reflexivity.
Qed.

Lemma writeFile_throws_cleanly_witness :
  fst (DOFS.writeFile (H := plain_host) 2500 "/nowhere/g" (DataString "x")
         WriteDefault tmp_table) = Thrown "Parent directory does not exist" /\
  snd (DOFS.writeFile (H := plain_host) 2500 "/nowhere/g" (DataString "x")
         WriteDefault tmp_table) = tmp_table /\
  ("Parent directory does not exist" = "Unsupported data type" /\
     payload (H := plain_host) (DataString "x") = None
   \/ "Parent directory does not exist" = "Parent directory does not exist" /\
      payload (H := plain_host) (DataString "x") <> None /\
      ~ parent_resolves "/nowhere/g" tmp_table).
Proof.
  split; [reflexivity|].
  apply (writeFile_throws_cleanly (H := plain_host) 2500 "/nowhere/g"
           (DataString "x") WriteDefault tmp_table).
  reflexivity.
Defined.

(** X21: [writeFile] writes one row.  Whatever the outcome, every row on
    a path other than the normalized path is as it was. *)
Theorem writeFile_writes_one_row `{Host} (now_ms : Z) (p : string)
    (data : Data) (options : WriteFileOptions) (t : Table) (q : string) :
  q <> DOFS.normalizePath p ->
  row_at q (snd (DOFS.writeFile now_ms p data options t)) = row_at q t.
Proof.
  intros Hq. destruct (payload data) as [bytes|] eqn:Hpay.
  - rewrite (writeFile_payload _ _ _ _ _ _ Hpay).
    set (o := Build_WriteObject _ _).
    destruct (writeFileBuffer_cases now_ms p (ArrayBuffer bytes) o t)
      as [E|E]; rewrite E; cbn [snd]; [|reflexivity].
    apply row_at_written_other. exact Hq.
  - destruct data as [text|[bytes|buffer offset len]|]; try discriminate.
    reflexivity.
Qed.

Lemma writeFile_writes_one_row_witness :
  "/tmp/f" <> DOFS.normalizePath "/tmp/g/" /\
  row_at "/tmp/f"
    (snd (DOFS.writeFile (H := plain_host) 2500 "/tmp/g/" (DataString "x")
            WriteDefault tmp_table))
  = row_at "/tmp/f" tmp_table.
Proof.
  split; [discriminate|].
  apply (writeFile_writes_one_row (H := plain_host) 2500 "/tmp/g/"
           (DataString "x") WriteDefault tmp_table "/tmp/f").
  discriminate.
Defined.

(** ** The module-level functions *)

Section Shards.
Context `{Host}.

Lemma call_elsewhere {A : Type} (i j : Stub) (method : Eff Table A)
    (w : World) :
  i <> j -> table_of (snd (call i method w)) j = table_of w j.
Proof.
  intros Hne. rewrite call_unfold. cbn [snd]. rewrite table_of_store.
  destruct (decide _); [contradiction|reflexivity].
Qed.

Lemma lastIndexOf_found (c : ascii) (s : string) :
  includes c s = true -> 0 <= lastIndexOf c s.
Proof.
  induction s as [|d s IH]; cbn [includes lastIndexOf]; [discriminate|].
  destruct (0 <=? lastIndexOf c s) eqn:Hr.
  - apply Z.leb_le in Hr. lia.
  - destruct (Ascii.eqb d c); cbn [orb]; [lia|].
    intros Hin. apply IH in Hin. apply Z.leb_gt in Hr. lia.
Qed.

(** [ensureParentExists] looks at the parent that [getParentPath] gives
    when it is below the root. *)
Lemma ensureParentExists_parent (dest : string) :
  ensureParentExists dest
  = match below_root (DOFS.getParentPath dest) with
    | Some q =>
        try_catch
          (let* _ := stat q in ret tt)
          (fun _ =>
             let* _ := mkdir q
               {| mkdir_recursive := true; mkdir_mode := None |} in
             ret tt)
    | None => ret tt
    end.
Proof.
  unfold ensureParentExists, DOFS.getParentPath.
  destruct (String.eqb_spec dest "/") as [->|Hdest]; [reflexivity|].
  assert (DOFS.normalizePath dest
          = collapse_slashes (strip_trailing_slashes dest)) as Hn.
  { unfold DOFS.normalizePath. apply String.eqb_neq in Hdest.
    rewrite Hdest. reflexivity. }
  rewrite <- Hn. set (n := DOFS.normalizePath dest).
  assert (String.eqb n "/" = false) as Hroot.
  { apply String.eqb_neq. unfold n. rewrite normalizePath_root. exact Hdest. }
  rewrite Hroot. cbn [orb].
  destruct (includes "/" n) eqn:Hin; cbn [negb].
  - apply lastIndexOf_found in Hin.
    pose proof (lastIndexOf_bound "/" n) as Hbound.
    destruct (Z.leb_spec (lastIndexOf "/" n) 0) as [Hzero|Hmore];
      [reflexivity|].
    unfold below_root.
    destruct (String.eqb_spec (substring n 0 (lastIndexOf "/" n)) "")
      as [Hempty|_].
    + pose proof (substring_prefix_length n (lastIndexOf "/" n)) as Hlen.
      rewrite Hempty in Hlen. cbn [String.length] in Hlen. lia.
    + cbn [orb].
      destruct (String.eqb (substring n 0 (lastIndexOf "/" n)) "/");
        reflexivity.
  - destruct (Z.leb_spec (lastIndexOf "/" n) 0) as [_|Hmore]; [reflexivity|].
    destruct (Z.ltb_spec (lastIndexOf "/" n) 0) as [Hneg|Hpos]; [lia|].
    destruct (lastIndexOf_present "/" n Hpos) as [Hsplit _].
    exfalso. clear -Hsplit Hin. revert Hin. rewrite Hsplit.
    generalize (take (Z.to_nat (lastIndexOf "/" n)) n). intros a.
    induction a as [|c a IH].
    + cbn. discriminate.
    + change (String c a +:+ ?x) with (String c (a +:+ x)).
      cbn [includes]. destruct (Ascii.eqb c "/"); [discriminate|exact IH].
Qed.

End Shards.

(** X22: the functions of one path stay in the instance of the path.
    [mkdir], [readdir], [readFile], [rm], [stat] and [writeFile] leave
    the table of every other instance as it was. *)
Theorem one_path_one_instance `{Host} (p : string) (w : World) (j : string) :
  j <> getInstanceName p ->
  (forall options, table_of (snd (mkdir p options w)) j = table_of w j) /\
  (forall options, table_of (snd (readdir p options w)) j = table_of w j) /\
  (forall options, table_of (snd (readFile p options w)) j = table_of w j) /\
  (forall options, table_of (snd (rm p options w)) j = table_of w j) /\
  table_of (snd (stat p w)) j = table_of w j /\
  (forall data options,
     table_of (snd (writeFile p data options w)) j = table_of w j).
Proof.
  intros Hj. apply not_eq_sym in Hj.
  unfold mkdir, readdir, readFile, rm, stat, writeFile, getInstance.
  repeat split; intros;
    first [apply call_at_now_elsewhere|apply call_elsewhere]; exact Hj.
Qed.

Lemma one_path_one_instance_witness :
  "bob" <> getInstanceName "/Users/alice/x.txt" /\
  (forall options,
     table_of (snd (mkdir (H := ticking_host) "/Users/alice/x.txt" options
                      two_users)) "bob" = table_of two_users "bob") /\
  (forall options,
     table_of (snd (readdir "/Users/alice/x.txt" options
                      two_users)) "bob" = table_of two_users "bob") /\
  (forall options,
     table_of (snd (readFile (H := ticking_host) "/Users/alice/x.txt" options
                      two_users)) "bob" = table_of two_users "bob") /\
  (forall options,
     table_of (snd (rm (H := ticking_host) "/Users/alice/x.txt" options
                      two_users)) "bob" = table_of two_users "bob") /\
  table_of (snd (stat "/Users/alice/x.txt" two_users))
    "bob" = table_of two_users "bob" /\
  (forall data options,
     table_of (snd (writeFile (H := ticking_host) "/Users/alice/x.txt" data
                      options two_users)) "bob" = table_of two_users "bob").
Proof.
  split; [discriminate|].
  apply (one_path_one_instance (H := ticking_host) "/Users/alice/x.txt"
           two_users "bob").
  discriminate.
Defined.

(** X23: [ensureParentExists] of a path whose parent is below the root.
    Either it returns, a row then holds the parent in the instance of the
    parent, be it a directory or a file, and the other instances are as
    they were; or it throws [Parent is not a directory], an ancestor of
    the parent being a file, and every table is as it was. *)
Theorem ensureParentExists_ensures `{Host} (dest : string) (w : World)
    (q : string) :
  below_root (DOFS.getParentPath dest) = Some q ->
  exists w',
    (ensureParentExists dest w = (Returned tt, w') /\
     (exists row, row_at q (table_of w' (getInstanceName q)) = Some row) /\
     (forall j, j <> getInstanceName q -> table_of w' j = table_of w j))
    \/ (ensureParentExists dest w = (Thrown "Parent is not a directory", w') /\
        forall j, table_of w' j = table_of w j).
Proof.
  intros Hq. rewrite ensureParentExists_parent, Hq.
  assert (DOFS.normalizePath q = q) as Hqfixed.
  { rewrite <- getParentPath_normalized in Hq.
    destruct (String.eqb_spec dest "/") as [->|Hdest]; [discriminate|].
    destruct (normalizePath_shape dest Hdest) as [Hend Hdouble].
    destruct (parent_is_normal _ q Hend Hdouble Hq) as [Hfixed _].
    exact Hfixed. }
  unfold try_catch, bind, stat, getInstance.
  rewrite call_unfold. set (i := getInstanceName q).
  destruct (stat_cases q (table_of w i)) as [E|(row & s & Hrow & _ & E)];
    rewrite E; cbn [fst snd].
  - assert (row_at q (table_of w i) = None) as Hmissing.
    { unfold DOFS.stat, bind, select_path in E.
      destruct (row_at q (table_of w i)); [discriminate|reflexivity]. }
    unfold mkdir, getInstance. fold i. rewrite call_at_now_unfold.
    set (w0 := store i (table_of w i) w).
    assert (forall j, table_of w0 j = table_of w j) as Hw0
      by (intros j; apply table_of_store_same).
    rewrite Hw0.
    pose proof (mkdir_spec (Date_now (clock_reads w0))
                  {| mkdir_recursive := true; mkdir_mode := None |} q
                  (table_of w i)) as Hspec.
    rewrite Hqfixed in Hspec.
    destruct (DOFS.mkdir _ q _ (table_of w i)) as [[[first|]|thrown|] t1];
      cbn [fst snd ret].
    + eexists. left. split; [reflexivity|].
      destruct Hspec as (_ & head & rest & _ & _ & Hthere & _).
      split.
      * eexists. rewrite table_of_store.
        destruct (decide (i = i)); [exact Hthere|contradiction].
      * intros j Hj. rewrite table_of_store, table_of_tick.
        destruct (decide (i = j)) as [<-|_]; [contradiction|apply Hw0].
    + destruct Hspec as (_ & r & Hr & _). congruence.
    + destruct Hspec as (-> & [(_ & r & Hr & _)|[(_ & Hno & _)|(-> & _)]]);
        [congruence|discriminate|].
      eexists. right. split; [reflexivity|].
      intros j. rewrite table_of_store, table_of_tick.
      destruct (decide (i = j)) as [<-|_]; [reflexivity|apply Hw0].
    + destruct Hspec.
  - eexists. left. split; [reflexivity|]. split.
    + exists row. rewrite table_of_store_same. exact Hrow.
    + intros j _. apply table_of_store_same.
Qed.

Lemma ensureParentExists_ensures_witness :
  below_root (DOFS.getParentPath "/Users/carol/f") = Some "/Users/carol" /\
  exists w',
    (ensureParentExists (H := ticking_host) "/Users/carol/f" two_users
     = (Returned tt, w') /\
     (exists row,
        row_at "/Users/carol" (table_of w' (getInstanceName "/Users/carol"))
        = Some row) /\
     (forall j, j <> getInstanceName "/Users/carol" ->
        table_of w' j = table_of two_users j))
    \/ (ensureParentExists (H := ticking_host) "/Users/carol/f" two_users
        = (Thrown "Parent is not a directory", w') /\
        forall j, table_of w' j = table_of two_users j).
Proof.
  split; [reflexivity|].
  apply (ensureParentExists_ensures (H := ticking_host) "/Users/carol/f"
           two_users "/Users/carol").
  reflexivity.
Defined.

(** ** A property of every row that the methods keep *)

Section RowInvariant.
Variable P : File.t -> Prop.

Lemma keeps_rows_same {A : Type} (m : Eff Table A) :
  (forall t, snd (m t) = t) -> keeps_rows P m.
Proof. intros Hsame t Ht. rewrite Hsame. exact Ht. Qed.

Lemma keeps_rows_bind {A B : Type} (m : Eff Table A) (k : A -> Eff Table B) :
  keeps_rows P m -> (forall a, keeps_rows P (k a)) -> keeps_rows P (bind m k).
Proof.
  intros Hm Hk t Ht. unfold bind. specialize (Hm t Ht).
  destruct (m t) as [[a| |] t1]; cbn [snd] in *; [apply Hk|..]; exact Hm.
Qed.

Lemma keeps_rows_for_each {A : Type} (xs : list A)
    (body : A -> Eff Table unit) :
  (forall x, keeps_rows P (body x)) -> keeps_rows P (for_each xs body).
Proof.
  intros Hbody. induction xs as [|x xs IH]; cbn [for_each].
  - apply keeps_rows_same. reflexivity.
  - apply keeps_rows_bind; [apply Hbody|intros _; exact IH].
Qed.

Lemma keeps_rows_filter (keep : File.t -> bool) (t : Table) :
  List.Forall P t -> List.Forall P (List.filter keep t).
Proof.
  rewrite !List.Forall_forall.
  intros Ht r Hr. apply List.filter_In in Hr as [Hr _]. auto.
Qed.

Lemma keeps_rows_map (set : File.t -> File.t) (p : string) (t : Table) :
  (forall r, P r -> P (set r)) ->
  List.Forall P t ->
  List.Forall P (List.map (fun r => if has_path p r then set r else r) t).
Proof.
  intros Hset Ht. apply List.Forall_map.
  eapply List.Forall_impl; [|exact Ht]. cbn beta. intros r Hr.
  destruct (has_path p r); auto.
Qed.

Lemma keeps_rows_insert (row : File.t) : P row -> keeps_rows P (insert row).
Proof.
  intros Hrow t Ht. destruct (insert_appends row t) as [E|E]; rewrite E.
  - exact Ht.
  - apply List.Forall_app. split; [exact Ht|].
    constructor; [exact Hrow|constructor].
Qed.

Lemma keeps_rows_insert_or_replace (row : File.t) :
  P row -> keeps_rows P (insert_or_replace row).
Proof.
  intros Hrow t Ht. unfold insert_or_replace. cbn [snd].
  apply List.Forall_app. split; [apply keeps_rows_filter; exact Ht|].
  constructor; [exact Hrow|constructor].
Qed.

Lemma keeps_rows_update_where_path (p : string) (set : File.t -> File.t) :
  (forall r, P r -> P (set r)) -> keeps_rows P (update_where_path p set).
Proof. intros Hset t Ht. apply keeps_rows_map; assumption. Qed.

Lemma keeps_rows_update_path_where_path (p : string)
    (set : File.t -> File.t) :
  (forall r, P r -> P (set r)) ->
  keeps_rows P (update_path_where_path p set).
Proof.
  intros Hset t Ht. unfold update_path_where_path.
  destruct (row_at p t) as [row|]; [|exact Ht].
  destruct (_ && _); [exact Ht|]. apply keeps_rows_map; assumption.
Qed.

Lemma keeps_rows_delete_where_path (p : string) :
  keeps_rows P (delete_where_path p).
Proof. intros t Ht. apply keeps_rows_filter. exact Ht. Qed.

Lemma keeps_rows_delete_like (limit : nat) (pattern : string) :
  keeps_rows P (delete_like limit pattern).
Proof.
  intros t Ht. unfold delete_like.
  destruct (like_fails limit pattern t); [exact Ht|].
  apply keeps_rows_filter. exact Ht.
Qed.

Lemma keeps_rows_require_directory (p : option string) (message : string) :
  keeps_rows P (DOFS.require_directory p message).
Proof.
  apply keeps_rows_same. intros t.
  destruct (require_directory_cases p message t) as [E|E]; rewrite E;
    reflexivity.
Qed.

End RowInvariant.

Section ParentColumn.
Context `{Host}.

Local Abbreviation kept := (keeps_rows parent_matches_path).

Lemma kept_ret {A : Type} (a : A) : kept (ret a).
Proof. apply keeps_rows_same. reflexivity. Qed.

Lemma kept_throw {A : Type} (message : string) : kept (throw (A := A) message).
Proof. apply keeps_rows_same. reflexivity. Qed.

Lemma kept_select_path (p : string) : kept (select_path p).
Proof. apply keeps_rows_same. reflexivity. Qed.

Lemma kept_copyFile (now_ms : Z) (src dest : string) (mode : Z) :
  kept (DOFS.copyFile now_ms src dest mode).
Proof.
  unfold DOFS.copyFile.
  apply keeps_rows_bind; [apply kept_select_path|]. intros [srcFile|];
    [|apply kept_throw].
  destruct (negb _); [apply kept_throw|].
  apply keeps_rows_bind; [apply keeps_rows_require_directory|]. intros _.
  apply keeps_rows_insert_or_replace. reflexivity.
Qed.

Lemma kept_mkdir_within (fuel : nat) (now_ms : Z) (options : MkdirOptions) :
  forall p, kept (DOFS.mkdir_within fuel now_ms p options).
Proof.
  induction fuel as [|fuel IH]; intros p; cbn [DOFS.mkdir_within].
  - apply keeps_rows_same. reflexivity.
  - apply keeps_rows_bind; [apply kept_select_path|]. intros [existing|].
    + destruct (EntryType_eqb _ _); [apply kept_ret|apply kept_throw].
    + apply keeps_rows_bind.
      * destruct (below_root _) as [q|]; [|apply kept_ret].
        apply keeps_rows_bind; [apply kept_select_path|]. intros [parent|].
        -- destruct (negb _); [apply kept_throw|apply kept_ret].
        -- destruct (mkdir_recursive options); [apply IH|apply kept_throw].
      * intros first. apply keeps_rows_bind; [|intros _; apply kept_ret].
        apply keeps_rows_insert. reflexivity.
Qed.

Lemma kept_mkdir (now_ms : Z) (p : string) (options : MkdirOptions) :
  kept (DOFS.mkdir now_ms p options).
Proof. apply kept_mkdir_within. Qed.

Lemma kept_cp (fuel : nat) (now_ms : Z) (options : CopyOptions) :
  forall src dest, kept (DOFS.cp fuel now_ms src dest options).
Proof.
  induction fuel as [|fuel IH]; intros src dest; cbn [DOFS.cp].
  - apply keeps_rows_same. reflexivity.
  - apply keeps_rows_bind; [apply kept_select_path|]. intros [srcFile|];
      [|apply kept_throw].
    destruct (File.type srcFile); [apply kept_copyFile|].
    destruct (negb _); [apply kept_throw|].
    apply keeps_rows_bind; [apply kept_mkdir|]. intros _.
    apply keeps_rows_bind; [apply keeps_rows_same; reflexivity|].
    intros children. apply keeps_rows_for_each. intros child. apply IH.
Qed.

Lemma kept_readdir (p : string) (options : ReaddirOptions) :
  kept (DOFS.readdir p options).
Proof.
  apply keeps_rows_same. intros t.
  unfold DOFS.readdir, bind, select_path, select_parent.
  destruct (row_at _ t) as [dir|]; [|reflexivity].
  destruct (negb _); [reflexivity|].
  destruct (withFileTypes options); reflexivity.
Qed.

Lemma kept_readFile (now_ms : Z) (p : string) (options : ReadFileOptions) :
  kept (DOFS.readFile now_ms p options).
Proof.
  unfold DOFS.readFile, DOFS.readFileBuffer.
  apply keeps_rows_bind.
  - apply keeps_rows_bind; [apply kept_select_path|]. intros [row|];
      [|apply kept_throw].
    destruct (negb _); [apply kept_throw|].
    apply keeps_rows_bind; [|intros _; apply kept_ret].
    apply keeps_rows_update_where_path. intros r Hr. exact Hr.
  - intros buffer.
    destruct options as [|e|[e|]]; try apply kept_ret;
      (destruct (String.eqb e ""); [apply kept_ret|];
       destruct (TextDecoder_decode e buffer);
       [apply kept_ret|apply kept_throw]).
Qed.

Lemma kept_rename (now_ms : Z) (oldPath newPath : string) :
  kept (DOFS.rename now_ms oldPath newPath).
Proof.
  unfold DOFS.rename.
  apply keeps_rows_bind; [apply kept_select_path|]. intros [row|];
    [|apply kept_throw].
  apply keeps_rows_bind; [apply keeps_rows_require_directory|]. intros _.
  apply keeps_rows_bind.
  - apply keeps_rows_update_path_where_path. intros r _. reflexivity.
  - intros _. destruct (File.type row); [apply kept_ret|].
    apply keeps_rows_bind.
    + apply keeps_rows_same. intros t. unfold select_like.
      destruct (like_fails _ _ t); reflexivity.
    + intros children. apply keeps_rows_for_each. intros child.
      apply keeps_rows_update_path_where_path. intros r _. reflexivity.
Qed.

Lemma kept_rm (p : string) (options : RmOptions) : kept (DOFS.rm p options).
Proof.
  unfold DOFS.rm.
  apply keeps_rows_bind; [apply kept_select_path|]. intros [row|].
  - apply keeps_rows_bind; [|intros _; apply keeps_rows_delete_where_path].
    destruct (File.type row); [apply kept_ret|].
    destruct (negb _); [|apply keeps_rows_delete_like].
    apply keeps_rows_bind; [apply keeps_rows_same; reflexivity|].
    intros count. destruct (0 <? count); [apply kept_throw|apply kept_ret].
  - destruct (rm_force options); [apply kept_ret|apply kept_throw].
Qed.

Lemma kept_stat (p : string) : kept (DOFS.stat p).
Proof.
  apply keeps_rows_same. intros t. unfold DOFS.stat, bind, select_path.
  destruct (row_at p t); reflexivity.
Qed.

Lemma kept_writeFileBuffer (now_ms : Z) (p : string) (data : Binary)
    (options : WriteObject) :
  kept (DOFS.writeFileBuffer now_ms p data options).
Proof.
  unfold DOFS.writeFileBuffer.
  apply keeps_rows_bind; [apply keeps_rows_require_directory|]. intros _.
  apply keeps_rows_bind; [apply kept_select_path|]. intros [existing|].
  - apply keeps_rows_update_where_path. intros r Hr. exact Hr.
  - apply keeps_rows_insert. reflexivity.
Qed.

Lemma kept_writeFile (now_ms : Z) (p : string) (data : Data)
    (options : WriteFileOptions) :
  kept (DOFS.writeFile now_ms p data options).
Proof.
  unfold DOFS.writeFile.
  destruct data as [text|[bytes|buffer offset len]|];
    try apply kept_writeFileBuffer. apply kept_throw.
Qed.

End ParentColumn.

(** X24: the parent column follows the path column.  In a table where
    every row has the parent of its path as its parent, every method of
    an instance leaves such a table, whatever its outcome; the table of a
    new instance is one. *)
Theorem parent_column_is_kept `{Host} (now_ms : Z) :
  List.Forall parent_matches_path DOFS.initTables /\
  (forall src dest mode,
     keeps_rows parent_matches_path (DOFS.copyFile now_ms src dest mode)) /\
  (forall fuel src dest options,
     keeps_rows parent_matches_path (DOFS.cp fuel now_ms src dest options)) /\
  (forall p options,
     keeps_rows parent_matches_path (DOFS.mkdir now_ms p options)) /\
  (forall p options, keeps_rows parent_matches_path (DOFS.readdir p options)) /\
  (forall p options,
     keeps_rows parent_matches_path (DOFS.readFile now_ms p options)) /\
  (forall oldPath newPath,
     keeps_rows parent_matches_path (DOFS.rename now_ms oldPath newPath)) /\
  (forall p options, keeps_rows parent_matches_path (DOFS.rm p options)) /\
  (forall p, keeps_rows parent_matches_path (DOFS.stat p)) /\
  (forall p data options,
     keeps_rows parent_matches_path (DOFS.writeFile now_ms p data options)).
Proof.
  split; [constructor|].
  split; [intros; apply kept_copyFile|].
  split; [intros; apply kept_cp|].
  split; [intros; apply kept_mkdir|].
  split; [intros; apply kept_readdir|].
  split; [intros; apply kept_readFile|].
  split; [intros; apply kept_rename|].
  split; [intros; apply kept_rm|].
  split; [intros; apply kept_stat|].
  intros; apply kept_writeFile.
Qed.

(** ** No row is stored with a mode of 0 *)

Section StoredModes.
Context `{Host}.

Local Abbreviation with_mode := (keeps_rows mode_set).

Lemma number_or_set (x : option Z) (fallback : Z) :
  fallback <> 0 -> number_or x fallback <> 0.
Proof.
  intros Hfallback. unfold number_or. destruct x as [n|]; [|exact Hfallback].
  destruct (Z.eqb_spec n 0); assumption.
Qed.

Lemma row_at_forall (P : File.t -> Prop) (p : string) (t : Table)
    (row : File.t) :
  List.Forall P t -> row_at p t = Some row -> P row.
Proof.
  intros Ht Hrow. apply List.find_some in Hrow as [Hin _].
  rewrite List.Forall_forall in Ht. apply Ht. exact Hin.
Qed.

Lemma with_mode_still {A : Type} (m : Eff Table A) :
  (forall t, snd (m t) = t) -> with_mode m.
Proof. apply keeps_rows_same. Qed.

Lemma with_mode_copyFile (now_ms : Z) (src dest : string) (mode : Z) :
  with_mode (DOFS.copyFile now_ms src dest mode).
Proof.
  intros t Ht. unfold DOFS.copyFile, bind at 1, select_path at 1.
  destruct (row_at src t) as [srcFile|] eqn:Hsrc; [|exact Ht].
  destruct (negb _); [exact Ht|].
  pose proof (row_at_forall mode_set src t srcFile Ht Hsrc) as Hmode.
  refine (keeps_rows_bind mode_set _ _ _ _ t Ht).
  - apply keeps_rows_require_directory.
  - intros _. apply keeps_rows_insert_or_replace. exact Hmode.
Qed.

Lemma with_mode_mkdir_within (fuel : nat) (now_ms : Z)
    (options : MkdirOptions) :
  forall p, with_mode (DOFS.mkdir_within fuel now_ms p options).
Proof.
  induction fuel as [|fuel IH]; intros p; cbn [DOFS.mkdir_within].
  - apply with_mode_still. reflexivity.
  - apply keeps_rows_bind; [apply with_mode_still; reflexivity|].
    intros [existing|].
    + destruct (EntryType_eqb _ _); apply with_mode_still; reflexivity.
    + apply keeps_rows_bind.
      * destruct (below_root _) as [q|];
          [|apply with_mode_still; reflexivity].
        apply keeps_rows_bind; [apply with_mode_still; reflexivity|].
        intros [parent|].
        -- destruct (negb _); apply with_mode_still; reflexivity.
        -- destruct (mkdir_recursive options);
             [apply IH|apply with_mode_still; reflexivity].
      * intros first.
        apply keeps_rows_bind; [|intros _; apply with_mode_still; reflexivity].
        apply keeps_rows_insert. apply number_or_set. discriminate.
Qed.

Lemma with_mode_cp (fuel : nat) (now_ms : Z) (options : CopyOptions) :
  forall src dest, with_mode (DOFS.cp fuel now_ms src dest options).
Proof.
  induction fuel as [|fuel IH]; intros src dest; cbn [DOFS.cp].
  - apply with_mode_still. reflexivity.
  - apply keeps_rows_bind; [apply with_mode_still; reflexivity|].
    intros [srcFile|]; [|apply with_mode_still; reflexivity].
    destruct (File.type srcFile); [apply with_mode_copyFile|].
    destruct (negb _); [apply with_mode_still; reflexivity|].
    apply keeps_rows_bind; [apply with_mode_mkdir_within|]. intros _.
    apply keeps_rows_bind; [apply with_mode_still; reflexivity|].
    intros children. apply keeps_rows_for_each. intros child. apply IH.
Qed.

Lemma with_mode_readFile (now_ms : Z) (p : string)
    (options : ReadFileOptions) :
  with_mode (DOFS.readFile now_ms p options).
Proof.
  unfold DOFS.readFile, DOFS.readFileBuffer.
  apply keeps_rows_bind.
  - apply keeps_rows_bind; [apply with_mode_still; reflexivity|].
    intros [row|]; [|apply with_mode_still; reflexivity].
    destruct (negb _); [apply with_mode_still; reflexivity|].
    apply keeps_rows_bind; [|intros _; apply with_mode_still; reflexivity].
    apply keeps_rows_update_where_path. intros r Hr. exact Hr.
  - intros buffer.
    destruct options as [|e|[e|]]; try (apply with_mode_still; reflexivity);
      (destruct (String.eqb e ""); [apply with_mode_still; reflexivity|];
       destruct (TextDecoder_decode e buffer);
       apply with_mode_still; reflexivity).
Qed.

Lemma with_mode_rename (now_ms : Z) (oldPath newPath : string) :
  with_mode (DOFS.rename now_ms oldPath newPath).
Proof.
  unfold DOFS.rename.
  apply keeps_rows_bind; [apply with_mode_still; reflexivity|].
  intros [row|]; [|apply with_mode_still; reflexivity].
  apply keeps_rows_bind; [apply keeps_rows_require_directory|]. intros _.
  apply keeps_rows_bind.
  - apply keeps_rows_update_path_where_path. intros r Hr. exact Hr.
  - intros _. destruct (File.type row); [apply with_mode_still; reflexivity|].
    apply keeps_rows_bind.
    + apply with_mode_still. intros t. unfold select_like.
      destruct (like_fails _ _ t); reflexivity.
    + intros children. apply keeps_rows_for_each. intros child.
      apply keeps_rows_update_path_where_path. intros r Hr. exact Hr.
Qed.

Lemma with_mode_rm (p : string) (options : RmOptions) :
  with_mode (DOFS.rm p options).
Proof.
  unfold DOFS.rm.
  apply keeps_rows_bind; [apply with_mode_still; reflexivity|].
  intros [row|].
  - apply keeps_rows_bind; [|intros _; apply keeps_rows_delete_where_path].
    destruct (File.type row); [apply with_mode_still; reflexivity|].
    destruct (negb _); [|apply keeps_rows_delete_like].
    apply keeps_rows_bind; [apply with_mode_still; reflexivity|].
    intros count. destruct (0 <? count); apply with_mode_still; reflexivity.
  - destruct (rm_force options); apply with_mode_still; reflexivity.
Qed.

Lemma with_mode_writeFileBuffer (now_ms : Z) (p : string) (data : Binary)
    (options : WriteObject) :
  with_mode (DOFS.writeFileBuffer now_ms p data options).
Proof.
  unfold DOFS.writeFileBuffer.
  apply keeps_rows_bind; [apply keeps_rows_require_directory|]. intros _.
  apply keeps_rows_bind; [apply with_mode_still; reflexivity|].
  intros [existing|].
  - apply keeps_rows_update_where_path. intros r _.
    apply number_or_set. discriminate.
  - apply keeps_rows_insert. apply number_or_set. discriminate.
Qed.

(** Every method that writes leaves a table without a mode of 0, when
    it starts from one; the table of a new instance is one. *)
Lemma stored_modes_are_set (now_ms : Z) :
  List.Forall mode_set DOFS.initTables /\
  (forall src dest mode,
     keeps_rows mode_set (DOFS.copyFile now_ms src dest mode)) /\
  (forall fuel src dest options,
     keeps_rows mode_set (DOFS.cp fuel now_ms src dest options)) /\
  (forall p options, keeps_rows mode_set (DOFS.mkdir now_ms p options)) /\
  (forall p options, keeps_rows mode_set (DOFS.readFile now_ms p options)) /\
  (forall oldPath newPath,
     keeps_rows mode_set (DOFS.rename now_ms oldPath newPath)) /\
  (forall p options, keeps_rows mode_set (DOFS.rm p options)) /\
  (forall p data options,
     keeps_rows mode_set (DOFS.writeFileBuffer now_ms p data options)) /\
  (forall p data options,
     keeps_rows mode_set (DOFS.writeFile now_ms p data options)).
Proof.
  split; [constructor|].
  split; [intros; apply with_mode_copyFile|].
  split; [intros; apply with_mode_cp|].
  split; [intros; apply with_mode_mkdir_within|].
  split; [intros; apply with_mode_readFile|].
  split; [intros; apply with_mode_rename|].
  split; [intros; apply with_mode_rm|].
  split; [intros; apply with_mode_writeFileBuffer|].
  intros p data options. unfold DOFS.writeFile.
  destruct data as [text|[bytes|buffer offset len]|];
    try apply with_mode_writeFileBuffer. apply with_mode_still. reflexivity.
Qed.

End StoredModes.

(** X25: [rename] of a directory.  When the paths of the table are
    distinct, a directory holds the normalized old path, the parent of
    the new path resolves, the store accepts the pattern of the SELECT,
    the new path has no dollar, [LIKE] matches only paths that start with
    the old path and a slash, and no row is at or below the new path, the
    call returns and no row is added or lost:
    the row of the directory takes the new path, parent, name and
    modification time; a row below takes its path with the new prefix and
    the parent of that path, and keeps the rest; every other row is as it
    was. *)
Theorem rename_directory `{Host} (now_ms : Z) (oldPath newPath : string)
    (t : Table) (dir : File.t) :
  List.NoDup (paths t) ->
  row_at (DOFS.normalizePath oldPath) t = Some dir ->
  File.type dir = directory ->
  parent_resolves newPath t ->
  (String.length (DOFS.normalizePath oldPath +:+ "/%")
   <= like_pattern_limit)%nat ->
  includes "$" (DOFS.normalizePath newPath) = false ->
  (forall p, List.In p (paths t) ->
     like (DOFS.normalizePath oldPath +:+ "/%") p = true ->
     starts_with (DOFS.normalizePath oldPath +:+ "/") p = true) ->
  like (DOFS.normalizePath oldPath +:+ "/%") (DOFS.normalizePath newPath)
  = false ->
  (forall p, List.In p (paths t) ->
     p <> DOFS.normalizePath newPath /\
     starts_with (DOFS.normalizePath newPath +:+ "/") p = false) ->
  exists t',
    DOFS.rename now_ms oldPath newPath t = (Returned tt, t') /\
    List.length t' = List.length t /\
    (forall r, List.In r t -> File.path r = DOFS.normalizePath oldPath ->
       List.In
         (File.set_renamed (DOFS.normalizePath newPath)
            (DOFS.getParentPath (DOFS.normalizePath newPath))
            (DOFS.getFileName (DOFS.normalizePath newPath))
            (seconds now_ms) r) t') /\
    (forall r, List.In r t ->
       starts_with (DOFS.normalizePath oldPath +:+ "/") (File.path r) = true ->
       List.In
         (File.set_moved
            (DOFS.normalizePath newPath
             +:+ drop (String.length (DOFS.normalizePath oldPath))
                   (File.path r))
            (DOFS.getParentPath
               (DOFS.normalizePath newPath
                +:+ drop (String.length (DOFS.normalizePath oldPath))
                      (File.path r))) r) t') /\
    (forall r, List.In r t -> File.path r <> DOFS.normalizePath oldPath ->
       starts_with (DOFS.normalizePath oldPath +:+ "/") (File.path r) = false ->
       List.In r t').
Proof.
  intros Hunique Hdir Htype Hparent Hlimit Hplain Hlike Hnew Hfresh.
  rewrite (rename_directory_plain now_ms oldPath newPath t dir) by assumption.
  set (old := DOFS.normalizePath oldPath).
  set (new := DOFS.normalizePath newPath).
  eexists. split; [reflexivity|].
  split; [apply List.length_map|].
  split; [|split].
  - intros r Hin Hpath.
    apply (List.in_map (rename_row old new (seconds now_ms))) in Hin.
    unfold rename_row at 1 in Hin.
    apply has_path_true in Hpath. rewrite Hpath in Hin. exact Hin.
  - intros r Hin Hbelow.
    apply (List.in_map (rename_row old new (seconds now_ms))) in Hin.
    unfold rename_row at 1 in Hin.
    destruct (has_path old r) eqn:Hold.
    + apply has_path_true in Hold. rewrite Hold in Hbelow.
      unfold old in Hbelow. rewrite not_below_self in Hbelow. discriminate.
    + rewrite Hbelow in Hin. exact Hin.
  - intros r Hin Hne Hout.
    apply (List.in_map (rename_row old new (seconds now_ms))) in Hin.
    rewrite rename_row_outside in Hin by assumption. exact Hin.
Qed.

Lemma rename_directory_witness :
  exists t',
    DOFS.rename (H := plain_host) 9000 "/data/" "/archive" data_table
    = (Returned tt, t') /\
    List.length t' = List.length data_table /\
    (forall r, List.In r data_table ->
       File.path r = DOFS.normalizePath "/data/" ->
       List.In
         (File.set_renamed (DOFS.normalizePath "/archive")
            (DOFS.getParentPath (DOFS.normalizePath "/archive"))
            (DOFS.getFileName (DOFS.normalizePath "/archive"))
            (seconds 9000) r) t') /\
    (forall r, List.In r data_table ->
       starts_with (DOFS.normalizePath "/data/" +:+ "/") (File.path r) = true ->
       List.In
         (File.set_moved
            (DOFS.normalizePath "/archive"
             +:+ drop (String.length (DOFS.normalizePath "/data/"))
                   (File.path r))
            (DOFS.getParentPath
               (DOFS.normalizePath "/archive"
                +:+ drop (String.length (DOFS.normalizePath "/data/"))
                      (File.path r))) r) t') /\
    (forall r, List.In r data_table ->
       File.path r <> DOFS.normalizePath "/data/" ->
       starts_with (DOFS.normalizePath "/data/" +:+ "/") (File.path r)
       = false ->
       List.In r t').
Proof.
  assert (paths data_table = ["/data"; "/data/a.txt"]) as Hpaths
    by (vm_compute; reflexivity).
  apply (rename_directory (H := plain_host) 9000 "/data/" "/archive"
           data_table (made_directory 1000 "/data" plain_options)).
  - rewrite Hpaths. repeat constructor; cbn; intuition discriminate.
  - reflexivity.
  - reflexivity.
  - exact I.
  - vm_compute. lia.
  - reflexivity.
  - rewrite Hpaths. intros p [<-|[<-|[]]]; vm_compute; intuition.
  - reflexivity.
  - rewrite Hpaths. intros p [<-|[<-|[]]]; split;
      try discriminate; vm_compute; reflexivity.
Defined.

(** X26: [rename] of a file from one instance to another.  When the
    stubs of the two paths differ, the paths belong to two instances, a
    file holds the old path, which is normalized, and the call returns,
    no row holds the old path in its instance any more, and the instance
    of the new path holds at the normalized new path a row with the bytes
    of the file, their number as size, its mode (0o666 in place of a mode
    of 0), and a clock reading as modification and access time. *)
Theorem rename_across_moves_a_file `{Host} (fuel : nat)
    (oldPath newPath : string) (w w' : World) (row : File.t) :
  same_stub (getInstance oldPath) (getInstance newPath) = false ->
  getInstanceName oldPath <> getInstanceName newPath ->
  DOFS.normalizePath oldPath = oldPath ->
  row_at oldPath (table_of w (getInstanceName oldPath)) = Some row ->
  File.type row = file ->
  rename (S fuel) oldPath newPath w = (Returned tt, w') ->
  row_at oldPath (table_of w' (getInstanceName oldPath)) = None /\
  exists copy n,
    row_at (DOFS.normalizePath newPath)
      (table_of w' (getInstanceName newPath)) = Some copy /\
    File.content copy = Some (bytes_of row) /\
    File.size copy = Z.of_nat (List.length (bytes_of row)) /\
    File.mode copy = number_or (Some (File.mode row)) 438 /\
    File.mtime copy = seconds (Date_now n) /\
    File.atime copy = seconds (Date_now n).
Proof.
  intros Hstubs Hshards Hnorm Hrow Htype Hrun.
  unfold rename in Hrun. rewrite Hstubs in Hrun.
  unfold rename_across, bind at 1 in Hrun. cbn [cp] in Hrun.
  rewrite Hstubs in Hrun. unfold getInstance in Hrun.
  set (src := getInstanceName oldPath) in *.
  set (dst := getInstanceName newPath) in *.
  assert (exists s,
            DOFS.stat oldPath (table_of w src) = (Returned s, table_of w src)
            /\ Stats.isDirectory s = false /\ Stats.mode s = File.mode row)
    as (s & Hstat & Hdir & Hmode).
  { unfold DOFS.stat, bind, select_path. rewrite Hrow. eexists.
    split; [reflexivity|]. cbn. rewrite Htype. split; reflexivity. }
  unfold cp_across, bind at 1 in Hrun. rewrite call_unfold in Hrun.
  rewrite Hstat in Hrun. cbn [fst snd] in Hrun. rewrite Hdir, Hmode in Hrun.
  set (w0 := store src (table_of w src) w) in Hrun.
  assert (forall j, table_of w0 j = table_of w j) as Hw0
    by (intros j; apply table_of_store_same).
  unfold bind at 1 in Hrun.
  destruct (ensureParentExists newPath w0) as [r1 w1] eqn:Hensure.
  destruct r1 as [[]|e|]; [|discriminate..].
  assert (row_at oldPath (table_of w1 src) = Some row) as Hrow1.
  { destruct (ensureParentExists_appends newPath w0 src) as (extra & E & _).
    rewrite Hensure in E. cbn [snd] in E. rewrite E, Hw0.
    apply row_at_app_some. exact Hrow. }
  unfold bind at 1 in Hrun. rewrite call_at_now_unfold in Hrun.
  pose proof (readFileBuffer_cases (Date_now (clock_reads w1)) oldPath
                (table_of w1 src)) as Hread.
  rewrite Hrow1, Htype in Hread. cbn [EntryType_eqb] in Hread.
  rewrite Hread in Hrun. cbn [fst snd] in Hrun.
  set (t2 := touched _ oldPath (table_of w1 src)) in Hrun.
  set (w2 := store src t2 (tick w1)) in Hrun.
  rewrite call_at_now_unfold in Hrun.
  assert (table_of w2 dst = table_of w1 dst) as Hdst2.
  { unfold w2. rewrite table_of_store, table_of_tick.
    destruct (decide _); [contradiction|reflexivity]. }
  rewrite Hdst2 in Hrun.
  destruct (writeFileBuffer_cases (Date_now (clock_reads w2)) newPath
              (ArrayBuffer (bytes_of row))
              {| write_encoding := None; write_mode := Some (File.mode row) |}
              (table_of w1 dst)) as [Ewrite|Ewrite];
    rewrite Ewrite in Hrun; cbn [fst snd] in Hrun; [|discriminate].
  set (t3 := written _ newPath _ _ (table_of w1 dst)) in Hrun.
  set (w3 := store dst t3 (tick w2)) in Hrun.
  assert (table_of w3 src = t2) as Hsrc3.
  { unfold w3. rewrite table_of_store, table_of_tick.
    destruct (decide _) as [Heq|_]; [destruct (Hshards (eq_sym Heq))|].
    unfold w2. rewrite table_of_store.
    destruct (decide _); [reflexivity|contradiction]. }
  unfold rm, getInstance in Hrun. fold src in Hrun.
  rewrite call_unfold, Hsrc3 in Hrun.
  assert (DOFS.rm oldPath {| rm_force := false; rm_recursive := true |} t2
          = (Returned tt, snd (delete_where_path oldPath t2))) as Hrm.
  { unfold DOFS.rm, bind, select_path. rewrite Hnorm.
    unfold t2. rewrite row_at_touched, Hrow1.
    cbn [option_map File.set_atime File.type]. rewrite Htype. reflexivity. }
  rewrite Hrm in Hrun. cbn [fst snd] in Hrun. injection Hrun as <-.
  split.
  - rewrite table_of_store. destruct (decide _); [|contradiction].
    apply row_at_filter_none. intros r Hr. unfold has_path.
    rewrite Hr, String.eqb_refl. reflexivity.
  - rewrite table_of_store.
    destruct (decide _) as [Heq|_]; [contradiction|].
    unfold w3. rewrite table_of_store.
    destruct (decide _); [|contradiction].
    unfold t3. rewrite row_at_written.
    exists (match row_at (DOFS.normalizePath newPath) (table_of w1 dst) with
            | Some old =>
                File.set_written (bytes_of row)
                  (Z.of_nat (List.length (bytes_of row)))
                  (number_or (Some (File.mode row)) 438)
                  (seconds (Date_now (clock_reads w2))) old
            | None =>
                created_row (Date_now (clock_reads w2)) newPath (bytes_of row)
                  {| write_encoding := None;
                     write_mode := Some (File.mode row) |}
            end), (clock_reads w2).
    split; [reflexivity|].
    destruct (row_at (DOFS.normalizePath newPath) (table_of w1 dst));
      repeat split; reflexivity.
Qed.

Lemma rename_across_moves_a_file_witness :
  exists w',
    rename (H := ticking_host) 1 "/Users/alice/x.txt" "/Users/bob/x.txt"
      two_users = (Returned tt, w') /\
    row_at "/Users/alice/x.txt" (table_of w' "alice") = None /\
    exists copy,
      row_at "/Users/bob/x.txt" (table_of w' "bob") = Some copy /\
      File.content copy = Some (list_byte_of_string "Alice data") /\
      File.mode copy = 438.
Proof.
  eexists.
  assert (rename (H := ticking_host) 1 "/Users/alice/x.txt"
            "/Users/bob/x.txt" two_users = (Returned tt, _)) as Hrun
    by (vm_compute; reflexivity).
  assert (getInstanceName "/Users/alice/x.txt"
            <> getInstanceName "/Users/bob/x.txt") as Hne
    by (vm_compute; discriminate).
  assert (row_at "/Users/alice/x.txt"
            (table_of two_users (getInstanceName "/Users/alice/x.txt"))
          = Some _) as Hrow by (vm_compute; reflexivity).
  destruct (rename_across_moves_a_file (H := ticking_host) 0
              "/Users/alice/x.txt" "/Users/bob/x.txt" two_users _ _
              eq_refl Hne eq_refl Hrow eq_refl Hrun)
    as (Hgone & copy & n & Hat & Hcontent & _ & Hmode & _).
  split; [exact Hrun|]. split; [exact Hgone|].
  exists copy. split; [exact Hat|]. split; [exact Hcontent|exact Hmode].
Defined.

(** ** Writing, listing and removing *)

Section Composition.

Lemma filter_other_paths (p : string) (t : Table) :
  row_at p t = None ->
  List.filter (fun r => negb (has_path p r)) t = t.
Proof.
  unfold row_at. induction t as [|r t IH]; [reflexivity|].
  cbn [List.find List.filter].
  destruct (has_path p r); [discriminate|]. intros Hnone.
  cbn [negb]. f_equal. apply IH. exact Hnone.
Qed.

End Composition.

(** X27: a new file is listed in its parent.  When the parent of the
    path is a directory below the root and the normalized path is free,
    [writeFile] returns, and [readdir] of the parent then returns names
    among which is the name of the file. *)
Theorem written_file_is_listed `{Host} (now_ms : Z) (p : string)
    (data : Data) (options : WriteFileOptions) (bytes : list byte)
    (t : Table) (q : string) (dir : File.t) :
  payload data = Some bytes ->
  below_root (DOFS.getParentPath p) = Some q ->
  row_at q t = Some dir ->
  File.type dir = directory ->
  row_at (DOFS.normalizePath p) t = None ->
  exists t' names,
    DOFS.writeFile now_ms p data options t = (Returned tt, t') /\
    DOFS.readdir q {| withFileTypes := false |} t'
    = (Returned (Names names), t') /\
    List.In (DOFS.getFileName p) names.
Proof.
  intros Hpay Hq Hdir Htype Hfree.
  assert (parent_resolves p t) as Hparent.
  { unfold parent_resolves. rewrite getParentPath_normalized, Hq.
    exists dir. split; assumption. }
  assert (DOFS.normalizePath q = q) as Hqfixed.
  { rewrite <- getParentPath_normalized in Hq.
    destruct (String.eqb_spec p "/") as [->|Hp]; [discriminate|].
    destruct (normalizePath_shape p Hp) as [Hend Hdouble].
    destruct (parent_is_normal _ q Hend Hdouble Hq) as [Hfixed _].
    exact Hfixed. }
  rewrite (writeFile_payload _ _ _ _ _ _ Hpay).
  rewrite writeFileBuffer_checked
    by (apply require_directory_resolves; exact Hparent).
  unfold written. rewrite Hfree. cbn [buffer_of].
  set (row := created_row _ _ _ _). set (t' := (t ++ [row])%list).
  assert (row_at q t' = Some dir) as Hdir'
    by (apply row_at_app_some; exact Hdir).
  destruct (readdir_lists_children_of q t' dir) as (names & Hread & Hnames);
    [rewrite Hqfixed; exact Hdir'|exact Htype|].
  exists t', names. split; [reflexivity|]. split; [exact Hread|].
  rewrite Hqfixed in Hnames. eapply Permutation_in.
  - symmetry. exact Hnames.
  - replace (DOFS.getFileName p) with (File.name row)
      by (apply getFileName_normalized).
    apply List.in_map, List.filter_In. split.
    + unfold t'. apply List.in_or_app. right. left. reflexivity.
    + unfold has_parent. cbn [row created_row File.parent_path].
      apply below_root_some in Hq as [Hq _].
      rewrite getParentPath_normalized, Hq. apply String.eqb_refl.
Qed.

Lemma written_file_is_listed_witness :
  exists t' names,
    DOFS.writeFile (H := plain_host) 3000 "/tmp/g" (DataString "y")
      WriteDefault tmp_table = (Returned tt, t') /\
    DOFS.readdir "/tmp" {| withFileTypes := false |} t'
    = (Returned (Names names), t') /\
    List.In (DOFS.getFileName "/tmp/g") names.
Proof.
  apply (written_file_is_listed (H := plain_host) 3000 "/tmp/g"
           (DataString "y") WriteDefault (list_byte_of_string "y") tmp_table
           "/tmp" (made_directory 1000 "/tmp" plain_options));
    reflexivity.
Defined.

(** X28: removing a new file undoes the write.  When the parent of the
    path resolves and the normalized path is free, [writeFile] returns,
    and [rm] of the path then returns, with any options, and leaves the
    table that was there before the write. *)
Theorem write_then_rm `{Host} (now_ms : Z) (p : string) (data : Data)
    (options : WriteFileOptions) (bytes : list byte) (t : Table) :
  payload data = Some bytes ->
  parent_resolves p t ->
  row_at (DOFS.normalizePath p) t = None ->
  exists t',
    DOFS.writeFile now_ms p data options t = (Returned tt, t') /\
    forall options', DOFS.rm p options' t' = (Returned tt, t).
Proof.
  intros Hpay Hparent Hfree.
  rewrite (writeFile_payload _ _ _ _ _ _ Hpay).
  rewrite writeFileBuffer_checked
    by (apply require_directory_resolves; exact Hparent).
  unfold written. rewrite Hfree. cbn [buffer_of].
  set (row := created_row _ _ _ _).
  eexists. split; [reflexivity|]. intros options'.
  assert (row_at (DOFS.normalizePath p) (t ++ [row])%list = Some row) as Hrow.
  { rewrite row_at_app_none by exact Hfree.
    unfold row_at. cbn [List.find]. unfold has_path.
    cbn [row created_row File.path]. rewrite String.eqb_refl. reflexivity. }
  unfold DOFS.rm, bind, select_path. rewrite Hrow.
  cbn [row created_row File.type ret]. unfold delete_where_path.
  rewrite List.filter_app, filter_other_paths by exact Hfree.
  cbn [List.filter]. unfold has_path at 1. cbn [File.path].
  rewrite String.eqb_refl. cbn [negb]. rewrite List.app_nil_r. reflexivity.
Qed.

Lemma write_then_rm_witness :
  exists t',
    DOFS.writeFile (H := plain_host) 3000 "/tmp/g/" (DataString "y")
      WriteDefault tmp_table = (Returned tt, t') /\
    forall options',
      DOFS.rm (H := plain_host) "/tmp/g/" options' t'
      = (Returned tt, tmp_table).
Proof.
  apply (write_then_rm (H := plain_host) 3000 "/tmp/g/" (DataString "y")
           WriteDefault (list_byte_of_string "y") tmp_table).
  - reflexivity.
  - eexists. split; reflexivity.
  - reflexivity.
Defined.

(** ** Copying never removes a path *)

Section KeepsPaths.

Lemma keeps_paths_same {A : Type} (m : Eff Table A) :
  (forall t, snd (m t) = t) -> keeps_paths m.
Proof. intros Hsame t q Hq. rewrite Hsame. exact Hq. Qed.

Lemma keeps_paths_bind {A B : Type} (m : Eff Table A) (k : A -> Eff Table B) :
  keeps_paths m -> (forall a, keeps_paths (k a)) -> keeps_paths (bind m k).
Proof.
  intros Hm Hk t q Hq. unfold bind. specialize (Hm t q Hq).
  destruct (m t) as [[a| |] t1]; cbn [snd] in *; [apply Hk|..]; exact Hm.
Qed.

Lemma keeps_paths_for_each {A : Type} (xs : list A)
    (body : A -> Eff Table unit) :
  (forall x, keeps_paths (body x)) -> keeps_paths (for_each xs body).
Proof.
  intros Hbody. induction xs as [|x xs IH]; cbn [for_each].
  - apply keeps_paths_same. reflexivity.
  - apply keeps_paths_bind; [apply Hbody|intros _; exact IH].
Qed.

Lemma keeps_paths_mkdir (now_ms : Z) (p : string) (options : MkdirOptions) :
  keeps_paths (DOFS.mkdir now_ms p options).
Proof.
  intros t q Hq.
  destruct (mkdir_appends now_ms p options t) as (extra & -> & _).
  destruct (row_at q t) as [r|] eqn:Hr; [|contradiction].
  rewrite (row_at_app_some q t extra r Hr). discriminate.
Qed.

Lemma keeps_paths_copyFile (now_ms : Z) (src dest : string) (mode : Z) :
  keeps_paths (DOFS.copyFile now_ms src dest mode).
Proof.
  unfold DOFS.copyFile.
  apply keeps_paths_bind; [apply keeps_paths_same; reflexivity|].
  intros [srcFile|]; [|apply keeps_paths_same; reflexivity].
  destruct (negb _); [apply keeps_paths_same; reflexivity|].
  apply keeps_paths_bind.
  - apply keeps_paths_same. intros t.
    destruct (require_directory_cases (DOFS.getParentPath dest)
                "Destination directory does not exist" t) as [E|E];
      rewrite E; reflexivity.
  - intros _ t q Hq. rewrite row_at_insert_or_replace.
    destruct (String.eqb q _); [discriminate|exact Hq].
Qed.

Lemma keeps_paths_cp (fuel : nat) (now_ms : Z) (options : CopyOptions) :
  forall src dest, keeps_paths (DOFS.cp fuel now_ms src dest options).
Proof.
  induction fuel as [|fuel IH]; intros src dest; cbn [DOFS.cp].
  - apply keeps_paths_same. reflexivity.
  - apply keeps_paths_bind; [apply keeps_paths_same; reflexivity|].
    intros [srcFile|]; [|apply keeps_paths_same; reflexivity].
    destruct (File.type srcFile); [apply keeps_paths_copyFile|].
    destruct (negb _); [apply keeps_paths_same; reflexivity|].
    apply keeps_paths_bind; [apply keeps_paths_mkdir|]. intros _.
    apply keeps_paths_bind; [apply keeps_paths_same; reflexivity|].
    intros children. apply keeps_paths_for_each. intros child. apply IH.
Qed.

End KeepsPaths.

(** X29: [cp] never removes a path.  Whatever the outcome of [cp] within
    an instance, returned, thrown half way or cut off, and however deep
    the copy went, every path that had a row before has a row
    afterwards; so it is for [copyFile] and [mkdir], which [cp] calls. *)
Theorem cp_keeps_every_path (fuel : nat) (now_ms : Z) (src dest : string)
    (options : CopyOptions) (t : Table) (q : string) :
  row_at q t <> None ->
  row_at q (snd (DOFS.cp fuel now_ms src dest options t)) <> None /\
  (forall mode,
     row_at q (snd (DOFS.copyFile now_ms src dest mode t)) <> None) /\
  (forall mkdirOptions,
     row_at q (snd (DOFS.mkdir now_ms dest mkdirOptions t)) <> None).
Proof.
  intros Hq. split; [apply keeps_paths_cp; exact Hq|].
  split; [intros mode; apply keeps_paths_copyFile; exact Hq|].
  intros mkdirOptions. apply keeps_paths_mkdir. exact Hq.
Qed.

Lemma cp_keeps_every_path_witness :
  row_at "/data/a.txt" data_table <> None /\
  row_at "/data/a.txt"
    (snd (DOFS.cp 3 3000 "/data" "/copy" {| copy_recursive := true |}
            data_table)) <> None /\
  (forall mode,
     row_at "/data/a.txt"
       (snd (DOFS.copyFile 3000 "/data" "/copy" mode data_table)) <> None) /\
  (forall mkdirOptions,
     row_at "/data/a.txt"
       (snd (DOFS.mkdir 3000 "/copy" mkdirOptions data_table)) <> None).
Proof.
  split; [discriminate|].
  apply (cp_keeps_every_path 3 3000 "/data" "/copy"
           {| copy_recursive := true |} data_table "/data/a.txt").
  discriminate.
Defined.

(** ** What a recursive copy leaves of the destination *)

Section CopyDirectory.
Variable P : Table -> Prop.

Lemma keeps_table_same {A : Type} (m : Eff Table A) :
  (forall t, snd (m t) = t) -> keeps_table P m.
Proof. intros Hsame t Ht. rewrite Hsame. exact Ht. Qed.

Lemma keeps_table_bind {A B : Type} (m : Eff Table A) (k : A -> Eff Table B) :
  keeps_table P m -> (forall a, keeps_table P (k a)) ->
  keeps_table P (bind m k).
Proof.
  intros Hm Hk t Ht. unfold bind. specialize (Hm t Ht).
  destruct (m t) as [[a| |] t1]; cbn [snd] in *; [apply Hk|..]; exact Hm.
Qed.

Lemma keeps_table_for_each {A : Type} (xs : list A)
    (body : A -> Eff Table unit) :
  (forall x, keeps_table P (body x)) -> keeps_table P (for_each xs body).
Proof.
  intros Hbody. induction xs as [|x xs IH]; cbn [for_each].
  - apply keeps_table_same. reflexivity.
  - apply keeps_table_bind; [apply Hbody|intros _; exact IH].
Qed.

End CopyDirectory.

(** A copy writes at its destination and below: the rows on shorter
    paths stay. *)
Lemma cp_keeps_shorter_paths (now_ms : Z) (options : CopyOptions)
    (q : string) (r : File.t) (fuel : nat) :
  forall src dest,
    (String.length q < String.length dest)%nat ->
    keeps_table (fun t => row_at q t = Some r)
      (DOFS.cp fuel now_ms src dest options).
Proof.
  induction fuel as [|fuel IH]; intros src dest Hshort; cbn [DOFS.cp].
  - apply keeps_table_same. reflexivity.
  - apply keeps_table_bind; [apply keeps_table_same; reflexivity|].
    intros [srcFile|]; [|apply keeps_table_same; reflexivity].
    destruct (File.type srcFile).
    + unfold DOFS.copyFile.
      apply keeps_table_bind; [apply keeps_table_same; reflexivity|].
      intros [found|]; [|apply keeps_table_same; reflexivity].
      destruct (negb _); [apply keeps_table_same; reflexivity|].
      apply keeps_table_bind.
      * apply keeps_table_same. intros t.
        destruct (require_directory_cases (DOFS.getParentPath dest)
                    "Destination directory does not exist" t) as [E|E];
          rewrite E; reflexivity.
      * intros _ t Hq. rewrite row_at_insert_or_replace. cbn [File.path].
        destruct (String.eqb_spec q dest) as [->|_]; [lia|exact Hq].
    + destruct (negb _); [apply keeps_table_same; reflexivity|].
      apply keeps_table_bind.
      * intros t Hq.
        destruct (mkdir_appends now_ms dest
                    {| mkdir_recursive := true; mkdir_mode := None |} t)
          as (extra & -> & _).
        apply row_at_app_some. exact Hq.
      * intros _.
        apply keeps_table_bind; [apply keeps_table_same; reflexivity|].
        intros children. apply keeps_table_for_each. intros child.
        apply IH. rewrite !app_length. cbn [String.length]. lia.
Qed.

(** X30: what a recursive [cp] leaves of the destination.  When [cp]
    within an instance has a directory as its source and returns, the
    normalized destination is a directory, and every row on a path
    shorter than the normalized destination is as it was. *)
Theorem cp_makes_the_destination (fuel : nat) (now_ms : Z)
    (src dest : string) (options : CopyOptions) (t t' : Table)
    (dir : File.t) :
  row_at src t = Some dir ->
  File.type dir = directory ->
  DOFS.cp fuel now_ms src dest options t = (Returned tt, t') ->
  (exists made,
     row_at (DOFS.normalizePath dest) t' = Some made /\
     File.type made = directory) /\
  forall q r,
    (String.length q < String.length (DOFS.normalizePath dest))%nat ->
    row_at q t = Some r -> row_at q t' = Some r.
Proof.
  intros Hsrc Htype Hrun.
  pose proof (normalizePath_length dest) as Hlength.
  split.
  - destruct fuel as [|fuel];
      [cbn [DOFS.cp] in Hrun; unfold unfinished in Hrun; discriminate|].
    cbn [DOFS.cp] in Hrun. unfold bind at 1 in Hrun.
    unfold select_path at 1 in Hrun. rewrite Hsrc, Htype in Hrun.
    destruct options as [[|]]; cbn [copy_recursive negb] in Hrun;
      [|discriminate].
    unfold bind at 1 in Hrun.
    pose proof (mkdir_spec now_ms
                  {| mkdir_recursive := true; mkdir_mode := None |} dest t)
      as Hspec.
    destruct (DOFS.mkdir now_ms dest _ t) as [[first| |] t1];
      [|discriminate..].
    assert (exists made, row_at (DOFS.normalizePath dest) t1 = Some made /\
              File.type made = directory) as (made & Hmade & Hdir).
    { destruct first as [first|].
      - destruct Hspec as (_ & head & rest & _ & _ & Hthere & _).
        eexists. split; [exact Hthere|reflexivity].
      - destruct Hspec as (-> & made & Hmade & Hdir). eauto. }
    unfold bind, select_parent in Hrun.
    exists made. split; [|exact Hdir].
    set (children := List.filter _ t1) in Hrun.
    replace t' with
      (snd (for_each children (fun child =>
              DOFS.cp fuel now_ms (File.path child)
                (dest +:+ "/" +:+ File.name child)
                {| copy_recursive := true |}) t1)).
    + apply (keeps_table_for_each
               (fun t => row_at (DOFS.normalizePath dest) t = Some made));
        [|exact Hmade].
      intros child. apply cp_keeps_shorter_paths.
      rewrite !app_length. cbn [String.length]. lia.
    + clear -Hrun. destruct (for_each children _ t1) as [o t2]. cbn [snd].
      congruence.
  - intros q r Hshort Hq.
    replace t' with (snd (DOFS.cp fuel now_ms src dest options t))
      by (rewrite Hrun; reflexivity).
    apply (cp_keeps_shorter_paths now_ms options q r fuel src dest);
      [lia|exact Hq].
Qed.

Lemma cp_makes_the_destination_witness :
  exists t',
    DOFS.cp 3 3000 "/data" "/copy/" {| copy_recursive := true |} data_table
    = (Returned tt, t') /\
    (exists made,
       row_at (DOFS.normalizePath "/copy/") t' = Some made /\
       File.type made = directory) /\
    forall q r,
      (String.length q < String.length (DOFS.normalizePath "/copy/"))%nat ->
      row_at q data_table = Some r -> row_at q t' = Some r.
Proof.
  eexists.
  assert (DOFS.cp 3 3000 "/data" "/copy/" {| copy_recursive := true |}
            data_table = (Returned tt, _)) as Hrun
    by (vm_compute; reflexivity).
  split; [exact Hrun|].
  apply (cp_makes_the_destination 3 3000 "/data" "/copy/"
           {| copy_recursive := true |} data_table _
           (made_directory 1000 "/data" plain_options));
    [reflexivity|reflexivity|exact Hrun].
Defined.
